(** * The file-upload REST client and the service connection-string parser

    A shallow embedding of [FileUploadApi] (the class with its constructor,
    [getBlobSharedAccessSignature] and [notifyUploadComplete]) and of
    [parse] from [service/src/connection_string.ts].

    Conventions of the embedding:
    - a JavaScript string that the source copies, measures, splits or
      serializes is a [string]: each character stands for one UTF-16 code
      unit in the range 0..255, so [String.length] is the [.length]
      property; the correlation identifier, which [encodeURIComponent]
      reads code unit by code unit and rejects when a surrogate is not
      paired, is a [String16], a list of 16-bit code units;
    - a parameter that TypeScript declares of type [T] may be given
      [undefined] or [null] at run time, which is what the source tests
      its arguments for: it has type [Nullable T];
    - plain data (object literals, JSON payloads, header values) are
      [JsValue] trees; a number is a [Number]: [NaN], an infinity, or a
      finite number, which is given by a decimal numeral that denotes it;
    - code that may throw and that talks to the transport or calls back
      runs in the monad [Exec]: a [World] (the store of [Error] objects and
      the trace of calls made so far) is threaded through, and a run ends
      with [Return] or [Throw]. *)

From Stdlib Require Import String Ascii ZArith NArith List DecimalString.
From Stdlib Require Import DecimalFacts DecimalPos.
From stdpp Require Import base option list gmap strings fin_maps.

Import ListNotations.
Local Open Scope string_scope.
Local Open Scope list_scope.

(** ** JavaScript values *)

(** [T | undefined | null]. *)
Inductive Nullable (T : Type) : Type :=
| undefined
| null
| value (x : T).

Arguments undefined {T}.
Arguments null {T}.
Arguments value {T} x.

(** A number. A finite number is given by a decimal numeral that denotes
    it, [mantissa] times 10 to the [exponent]. [Number::toString] reads a
    number through the shortest decimal numeral that denotes it, the
    digits [s] and the exponent [n - k] of its definition: a double is the
    value of this type with that mantissa and that exponent, or any other
    that differs from it by zeros at the end of the mantissa, for which
    the same text is written. Both zeros have the mantissa 0; they are
    written alike. *)
Inductive Number : Type :=
| NaN
| Infinity (negative : bool)
| Finite (mantissa exponent : Z).

(** The number that is the integer [n]; a double holds it exactly when it
    is below 2^53 in magnitude, as a length is. *)
Definition integer (n : Z) : Number := Finite n 0.

(** Plain data: what an object literal or a JSON payload is made of. The
    property list of an object is in the object's own enumeration order and
    holds every key once. *)
#[warnings="-register-all"]
Inductive JsValue : Type :=
| JsUndefined
| JsNull
| JsBool (b : bool)
| JsNumber (x : Number)
| JsString (s : string)
| JsArray (items : list JsValue)
| JsObject (props : list (string * JsValue)).

(** What a thrown value is. [ReferenceError] carries the message the source
    builds; the engine's own errors carry none. [ArgumentError] is the
    error class of azure-iot-common. *)
Inductive JsException : Type :=
| ReferenceError (message : string)
| TypeError
| SyntaxError
| URIError
| ArgumentError (message : string).

(** How a run ends: with a result, or with a thrown exception. *)
Inductive Outcome (A : Type) : Type :=
| Return (a : A)
| Throw (e : JsException).

Arguments Return {A} a.
Arguments Throw {A} e.

(** ToBoolean and ToString, at the types the source applies them to. *)
Class JsType (T : Type) : Type := {
  truthy : T -> bool;
  ToString : T -> string
}.

#[export] Instance string_JsType : JsType string := {|
  truthy s := match s with EmptyString => false | String _ _ => true end;
  ToString s := s
|}.

#[export] Instance Nullable_JsType {T : Type} `{JsType T} : JsType (Nullable T) := {|
  truthy v := match v with undefined | null => false | value x => truthy x end;
  ToString v :=
    match v with
    | undefined => "undefined"
    | null => "null"
    | value x => ToString x
    end
|}.

(** The embedding of a string-typed variable into plain data. *)
Definition inject (v : Nullable string) : JsValue :=
  match v with
  | undefined => JsUndefined
  | null => JsNull
  | value s => JsString s
  end.

(** ** Object properties *)

(** [o[key]] *)
Fixpoint get_prop (key : string) (props : list (string * JsValue)) : option JsValue :=
  match props with
  | [] => None
  | (k, v) :: rest => if String.eqb k key then Some v else get_prop key rest
  end.

(** [o[key] = v]: an existing property keeps its place, a new one is added
    at the end. *)
Fixpoint set_prop (key : string) (v : JsValue) (props : list (string * JsValue))
  : list (string * JsValue) :=
  match props with
  | [] => [(key, v)]
  | (k, w) :: rest =>
      if String.eqb k key then (k, v) :: rest else (k, w) :: set_prop key v rest
  end.

(** ** Strings *)

(** [s.split(sep)] for a separator of one character. *)
Fixpoint split (sep : ascii) (s : string) : list string :=
  match s with
  | EmptyString => [EmptyString]
  | String c rest =>
      if Ascii.eqb c sep then EmptyString :: split sep rest
      else match split sep rest with
           | hd :: tl => String c hd :: tl
           | [] => [String c EmptyString]
           end
  end.

(** [array.join(sep)] *)
Fixpoint join (sep : string) (parts : list string) : string :=
  match parts with
  | [] => ""
  | [p] => p
  | p :: rest => p +:+ sep +:+ join sep rest
  end.

(** Whether [c] occurs in [s]. *)
Fixpoint occurs (c : ascii) (s : string) : bool :=
  match s with
  | EmptyString => false
  | String d rest => Ascii.eqb d c || occurs c rest
  end.

Definition hex_digit (upper : bool) (n : N) : ascii :=
  if (n <? 10)%N then ascii_of_N (48 + n)
  else ascii_of_N ((if upper then 55 else 87) + n).

(** Two hexadecimal digits of a byte. *)
Definition hex_byte (upper : bool) (n : N) : string :=
  String (hex_digit upper (n / 16)) (String (hex_digit upper (n mod 16)) EmptyString).

Definition is_digit (c : ascii) : bool :=
  let n := N_of_ascii c in ((48 <=? n) && (n <=? 57))%N.

Definition is_alpha (c : ascii) : bool :=
  let n := N_of_ascii c in
  (((65 <=? n) && (n <=? 90)) || ((97 <=? n) && (n <=? 122)))%N.

(** The characters [encodeURIComponent] leaves as they are: letters,
    digits and [- _ . ! ~ * ' ( )]. *)
Definition uri_unreserved (c : ascii) : bool :=
  is_alpha c || is_digit c || occurs c "-_.!~*'()".

(** ** Strings of 16-bit code units *)

(** A UTF-16 code unit, by its two octets. *)
Record CodeUnit : Type := { high_octet : ascii; low_octet : ascii }.

(** A string of any code units. *)
Definition String16 : Type := list CodeUnit.

(** The number of a code unit, below 65536. *)
Definition code (u : CodeUnit) : N :=
  (256 * N_of_ascii (high_octet u) + N_of_ascii (low_octet u))%N.

(** The same string in 16-bit code units. *)
Definition wide (s : string) : String16 :=
  map (fun c => {| high_octet := zero; low_octet := c |}) (list_ascii_of_string s).

(** A string of 16-bit code units as a [string]: the same string when all
    its code units are below 256, as those of the empty string are. *)
Definition narrow (s : String16) : string := string_of_list_ascii (map low_octet s).

(** The source concatenates the correlation identifier into a message when
    it is falsy, so the empty string, [undefined] or [null]. *)
#[export] Instance String16_JsType : JsType String16 := {|
  truthy s := match s with [] => false | _ :: _ => true end;
  ToString s := narrow s
|}.

(** ToString of a string-typed variable, in 16-bit code units. *)
Definition ToString16 (v : Nullable String16) : String16 :=
  match v with
  | undefined => wide "undefined"
  | null => wide "null"
  | value s => s
  end.

(** ** encodeURIComponent *)

(** The code units [encodeURIComponent] leaves as they are. *)
Definition unescaped (u : CodeUnit) : bool :=
  Ascii.eqb (high_octet u) zero && uri_unreserved (low_octet u).

Definition is_leading_surrogate (u : CodeUnit) : bool :=
  ((0xD800 <=? code u) && (code u <=? 0xDBFF))%N.

Definition is_trailing_surrogate (u : CodeUnit) : bool :=
  ((0xDC00 <=? code u) && (code u <=? 0xDFFF))%N.

(** UTF16SurrogatePairToCodePoint *)
Definition surrogate_pair_code_point (lead trail : CodeUnit) : N :=
  ((code lead - 0xD800) * 0x400 + (code trail - 0xDC00) + 0x10000)%N.

(** The octets of the UTF-8 encoding of a code point: one octet below
    0x80, two below 0x800, three below 0x10000, four from there on. *)
Definition UTF8_octets (cp : N) : string :=
  if (cp <? 0x80)%N then
    String (ascii_of_N cp) EmptyString
  else if (cp <? 0x800)%N then
    String (ascii_of_N (0xC0 + cp / 0x40))
      (String (ascii_of_N (0x80 + cp mod 0x40)) EmptyString)
  else if (cp <? 0x10000)%N then
    String (ascii_of_N (0xE0 + cp / 0x1000))
      (String (ascii_of_N (0x80 + (cp / 0x40) mod 0x40))
         (String (ascii_of_N (0x80 + cp mod 0x40)) EmptyString))
  else
    String (ascii_of_N (0xF0 + cp / 0x40000))
      (String (ascii_of_N (0x80 + (cp / 0x1000) mod 0x40))
         (String (ascii_of_N (0x80 + (cp / 0x40) mod 0x40))
            (String (ascii_of_N (0x80 + cp mod 0x40)) EmptyString))).

(** [%XX] for each octet. *)
Fixpoint percent_encode (octets : string) : string :=
  match octets with
  | EmptyString => EmptyString
  | String o rest => "%" +:+ hex_byte true (N_of_ascii o) +:+ percent_encode rest
  end.

(** The text so far put before what the rest of the string encodes to. *)
Definition encoded_after (chunk : string) (rest : Outcome string) : Outcome string :=
  match rest with
  | Return R => Return (chunk +:+ R)
  | Throw e => Throw e
  end.

(** [encodeURIComponent(s)], the loop of the abstract operation Encode: a
    code unit of the unescaped set is copied; at any other the code point
    there is read (CodePointAt), a surrogate that is not one of a pair
    throws a [URIError], and the octets of the UTF-8 encoding of the code
    point are written as escapes; the loop goes on after the one or two
    code units read. *)
Fixpoint encodeURIComponent (s : String16) : Outcome string :=
  match s with
  | [] => Return EmptyString
  | c :: rest =>
      if unescaped c then
        encoded_after (String (low_octet c) EmptyString) (encodeURIComponent rest)
      else if is_trailing_surrogate c then Throw URIError
      else if is_leading_surrogate c then
        match rest with
        | d :: rest' =>
            if is_trailing_surrogate d then
              encoded_after (percent_encode (UTF8_octets (surrogate_pair_code_point c d)))
                (encodeURIComponent rest')
            else Throw URIError
        | [] => Throw URIError
        end
      else
        encoded_after (percent_encode (UTF8_octets (code c))) (encodeURIComponent rest)
  end.

(** [s.isWellFormed()]: whether every surrogate of [s] is one of a pair. *)
Fixpoint isWellFormed (s : String16) : bool :=
  match s with
  | [] => true
  | c :: rest =>
      if is_trailing_surrogate c then false
      else if is_leading_surrogate c then
        match rest with
        | d :: rest' => is_trailing_surrogate d && isWellFormed rest'
        | [] => false
        end
      else isWellFormed rest
  end.

(** Whether every character of [s] satisfies [p]. *)
Fixpoint all_chars (p : ascii -> bool) (s : string) : bool :=
  match s with
  | EmptyString => true
  | String c rest => p c && all_chars p rest
  end.

(** The characters an encoded URI component is made of: the unreserved
    ones, the hexadecimal digits among them, and the percent sign. *)
Definition uri_output_char (c : ascii) : bool :=
  uri_unreserved c || Ascii.eqb c "%".

(** ** JSON.stringify *)

Definition dquote : ascii := "034"%char.
Definition backslash : ascii := "092"%char.

(** The escape of one code unit inside a JSON string literal. *)
Definition json_escape (c : ascii) : string :=
  let n := N_of_ascii c in
  if Ascii.eqb c dquote then String backslash (String dquote EmptyString)
  else if Ascii.eqb c backslash then String backslash (String backslash EmptyString)
  else if (n =? 8)%N then String backslash "b"
  else if (n =? 9)%N then String backslash "t"
  else if (n =? 10)%N then String backslash "n"
  else if (n =? 12)%N then String backslash "f"
  else if (n =? 13)%N then String backslash "r"
  else if (n <? 32)%N then String backslash "u00" +:+ hex_byte false n
  else String c EmptyString.

Fixpoint json_escape_all (s : string) : string :=
  match s with
  | EmptyString => EmptyString
  | String c rest => json_escape c +:+ json_escape_all rest
  end.

(** QuoteJSONString *)
Definition JSON_quote (s : string) : string :=
  String dquote (json_escape_all s) +:+ String dquote EmptyString.

(** The decimal digits of a positive integer. *)
Definition digits_of (p : positive) : string := NilZero.string_of_uint (Pos.to_uint p).

(** A numeral without the zeros at its end. *)
Fixpoint drop_trailing_zeros (s : string) : string :=
  match s with
  | EmptyString => EmptyString
  | String c rest =>
      match drop_trailing_zeros rest with
      | EmptyString => if Ascii.eqb c "0" then EmptyString else String c EmptyString
      | String d more => String c (String d more)
      end
  end.

Fixpoint zeros (count : nat) : string :=
  match count with
  | O => EmptyString
  | S count' => String "0" (zeros count')
  end.

(** The first [count] characters of a string, and the others. *)
Fixpoint first_chars (count : nat) (s : string) : string :=
  match count, s with
  | S count', String c rest => String c (first_chars count' rest)
  | _, _ => EmptyString
  end.

Fixpoint other_chars (count : nat) (s : string) : string :=
  match count, s with
  | S count', String _ rest => other_chars count' rest
  | _, _ => s
  end.

(** The exponent part of a numeral: the sign and the decimal digits of
    the magnitude. *)
Definition exponent_text (e : Z) : string :=
  (if (e <? 0)%Z then "-" else "+") +:+ NilZero.string_of_uint (N.to_uint (Z.abs_N e)).

(** [Number::toString] of the positive number [mantissa] times 10 to the
    [exponent]: with [s] the digits of the shortest numeral, [k] their
    count and [n] the place of the decimal point after the first digit of
    [s], so that the number is [s] times 10 to the [n - k]. *)
Definition positive_toString (mantissa : positive) (exponent : Z) : string :=
  let all := digits_of mantissa in
  let s := drop_trailing_zeros all in
  let k := Z.of_nat (String.length s) in
  let n := (Z.of_nat (String.length all) + exponent)%Z in
  if ((k <=? n) && (n <=? 21))%Z then
    s +:+ zeros (Z.to_nat (n - k))
  else if ((0 <? n) && (n <=? 21))%Z then
    first_chars (Z.to_nat n) s +:+ "." +:+ other_chars (Z.to_nat n) s
  else if ((-6 <? n) && (n <=? 0))%Z then
    "0." +:+ zeros (Z.to_nat (- n)) +:+ s
  else
    match s with
    | EmptyString => EmptyString
    | String d EmptyString => String d ("e" +:+ exponent_text (n - 1))
    | String d more => String d ("." +:+ more +:+ "e" +:+ exponent_text (n - 1))
    end.

(** [Number::toString(x)] in radix 10. *)
Definition Number_toString (x : Number) : string :=
  match x with
  | NaN => "NaN"
  | Infinity negative => if negative then "-Infinity" else "Infinity"
  | Finite Z0 _ => "0"
  | Finite (Zpos mantissa) exponent => positive_toString mantissa exponent
  | Finite (Zneg mantissa) exponent => "-" +:+ positive_toString mantissa exponent
  end.

(** Whether a number is finite; [JSON.stringify] writes [null] for one
    that is not. *)
Definition is_finite (x : Number) : bool :=
  match x with
  | Finite _ _ => true
  | NaN | Infinity _ => false
  end.

(** [JSON.stringify(v)]: [None] stands for the result [undefined]. Inside
    an array [undefined] is written [null]; a property whose value is
    [undefined] is left out; a number that is not finite is written
    [null]. *)
Fixpoint JSON_stringify (v : JsValue) : option string :=
  match v with
  | JsUndefined => None
  | JsNull => Some "null"
  | JsBool true => Some "true"
  | JsBool false => Some "false"
  | JsNumber x => Some (if is_finite x then Number_toString x else "null")
  | JsString s => Some (JSON_quote s)
  | JsArray items =>
      Some ("[" +:+ join ","
              (map (fun x => match JSON_stringify x with
                             | Some s => s
                             | None => "null"
                             end) items) +:+ "]")
  | JsObject props =>
      Some ("{" +:+ join ","
              (flat_map (fun kv => match JSON_stringify (snd kv) with
                                   | Some s => [JSON_quote (fst kv) +:+ ":" +:+ s]
                                   | None => []
                                   end) props) +:+ "}")
  end.

(** ** JSON.parse *)

(** The value a JSON text denotes, as its syntax tree. A number is kept as
    the numeral that was read (the double it rounds to is not computed); a
    string is decoded into its code units, which an escape [\uXXXX] may
    take beyond 255; the members of an object are kept as written. *)
#[warnings="-register-all"]
Inductive JsonValue : Type :=
| JsonNull
| JsonBool (b : bool)
| JsonNumber (numeral : string)
| JsonString (units : list N)
| JsonArray (items : list JsonValue)
| JsonObject (members : list (list N * JsonValue)).

Inductive Token : Type :=
| TLBrace | TRBrace | TLBracket | TRBracket | TColon | TComma
| TString (units : list N)
| TNumber (numeral : string)
| TTrue | TFalse | TNull.

(** Where the scanner stands inside a numeral: an optional minus sign; the
    integer part, a lone 0 or digits that do not start with 0; an optional
    fraction, a point and digits; an optional exponent, e or E, an optional
    sign and digits. *)
Inductive NumState : Type :=
| NMinus | NZero | NInt | NDot | NFrac | NExp | NExpSign | NExpDigits.

Definition num_accepting (st : NumState) : bool :=
  match st with
  | NZero | NInt | NFrac | NExpDigits => true
  | NMinus | NDot | NExp | NExpSign => false
  end.

Definition is_exp_mark (c : ascii) : bool := occurs c "eE".

Definition num_step (st : NumState) (c : ascii) : option NumState :=
  match st with
  | NMinus =>
      if Ascii.eqb c "0" then Some NZero
      else if is_digit c then Some NInt else None
  | NZero =>
      if Ascii.eqb c "." then Some NDot
      else if is_exp_mark c then Some NExp else None
  | NInt =>
      if is_digit c then Some NInt
      else if Ascii.eqb c "." then Some NDot
      else if is_exp_mark c then Some NExp else None
  | NDot => if is_digit c then Some NFrac else None
  | NFrac =>
      if is_digit c then Some NFrac
      else if is_exp_mark c then Some NExp else None
  | NExp =>
      if occurs c "+-" then Some NExpSign
      else if is_digit c then Some NExpDigits else None
  | NExpSign => if is_digit c then Some NExpDigits else None
  | NExpDigits => if is_digit c then Some NExpDigits else None
  end.

Inductive LexMode : Type :=
| LxBetween
| LxString (acc : list N)
| LxEscape (acc : list N)
| LxUnicode (acc : list N) (read : nat) (code : N)
| LxNumber (st : NumState) (numeral : string)
| LxWord (expect : string) (tok : Token).

(** JSON white space: space, tab, line feed, carriage return. *)
Definition is_json_space (c : ascii) : bool :=
  let n := N_of_ascii c in
  ((n =? 32) || (n =? 9) || (n =? 10) || (n =? 13))%N.

Definition hex_value (c : ascii) : option N :=
  let n := N_of_ascii c in
  if is_digit c then Some (n - 48)%N
  else if ((65 <=? n) && (n <=? 70))%N then Some (n - 55)%N
  else if ((97 <=? n) && (n <=? 102))%N then Some (n - 87)%N
  else None.

(** A character met between two tokens. *)
Definition lex_between (c : ascii) : option (LexMode * list Token) :=
  if is_json_space c then Some (LxBetween, [])
  else if Ascii.eqb c "{" then Some (LxBetween, [TLBrace])
  else if Ascii.eqb c "}" then Some (LxBetween, [TRBrace])
  else if Ascii.eqb c "[" then Some (LxBetween, [TLBracket])
  else if Ascii.eqb c "]" then Some (LxBetween, [TRBracket])
  else if Ascii.eqb c ":" then Some (LxBetween, [TColon])
  else if Ascii.eqb c "," then Some (LxBetween, [TComma])
  else if Ascii.eqb c dquote then Some (LxString [], [])
  else if Ascii.eqb c "-" then Some (LxNumber NMinus "-", [])
  else if Ascii.eqb c "0" then Some (LxNumber NZero "0", [])
  else if is_digit c then Some (LxNumber NInt (String c EmptyString), [])
  else if Ascii.eqb c "t" then Some (LxWord "rue" TTrue, [])
  else if Ascii.eqb c "f" then Some (LxWord "alse" TFalse, [])
  else if Ascii.eqb c "n" then Some (LxWord "ull" TNull, [])
  else None.

(** The code unit an escape letter stands for. *)
Definition escape_unit (c : ascii) : option N :=
  if Ascii.eqb c dquote then Some 34%N
  else if Ascii.eqb c backslash then Some 92%N
  else if Ascii.eqb c "/" then Some 47%N
  else if Ascii.eqb c "b" then Some 8%N
  else if Ascii.eqb c "f" then Some 12%N
  else if Ascii.eqb c "n" then Some 10%N
  else if Ascii.eqb c "r" then Some 13%N
  else if Ascii.eqb c "t" then Some 9%N
  else None.

(** One character of the text: the next mode and the tokens it completes;
    [None] when the text is no JSON text. *)
Definition lex_step (mode : LexMode) (c : ascii) : option (LexMode * list Token) :=
  match mode with
  | LxBetween => lex_between c
  | LxString acc =>
      if Ascii.eqb c dquote then Some (LxBetween, [TString acc])
      else if Ascii.eqb c backslash then Some (LxEscape acc, [])
      else if (N_of_ascii c <? 32)%N then None
      else Some (LxString (acc ++ [N_of_ascii c]), [])
  | LxEscape acc =>
      if Ascii.eqb c "u" then Some (LxUnicode acc 0 0%N, [])
      else match escape_unit c with
           | Some u => Some (LxString (acc ++ [u]), [])
           | None => None
           end
  | LxUnicode acc read code =>
      match hex_value c with
      | Some d =>
          let code' := (16 * code + d)%N in
          if Nat.eqb read 3 then Some (LxString (acc ++ [code']), [])
          else Some (LxUnicode acc (S read) code', [])
      | None => None
      end
  | LxNumber st numeral =>
      match num_step st c with
      | Some st' => Some (LxNumber st' (numeral +:+ String c EmptyString), [])
      | None =>
          if num_accepting st then
            match lex_between c with
            | Some (mode', toks) => Some (mode', TNumber numeral :: toks)
            | None => None
            end
          else None
      end
  | LxWord expect tok =>
      match expect with
      | String e rest =>
          if Ascii.eqb c e then
            match rest with
            | EmptyString => Some (LxBetween, [tok])
            | String _ _ => Some (LxWord rest tok, [])
            end
          else None
      | EmptyString => None
      end
  end.

(** The end of the text. *)
Definition lex_end (mode : LexMode) : option (list Token) :=
  match mode with
  | LxBetween => Some []
  | LxNumber st numeral => if num_accepting st then Some [TNumber numeral] else None
  | LxString _ | LxEscape _ | LxUnicode _ _ _ | LxWord _ _ => None
  end.

Fixpoint lex (mode : LexMode) (text : string) : option (list Token) :=
  match text with
  | EmptyString => lex_end mode
  | String c rest =>
      match lex_step mode c with
      | Some (mode', toks) =>
          match lex mode' rest with
          | Some more => Some (toks ++ more)
          | None => None
          end
      | None => None
      end
  end.

(** An array or an object that is still open, with what it holds so far;
    an object also holds the key whose value is being read. *)
Inductive Frame : Type :=
| InArray (items : list JsonValue)
| InObject (members : list (list N * JsonValue)) (key : option (list N)).

Inductive ParseState : Type :=
| PValue        (* a value must follow *)
| PFirstItem    (* after [: a value or ] *)
| PNextItem     (* after an item: , or ] *)
| PFirstKey     (* after {: a key or } *)
| PKey          (* after , in an object: a key *)
| PColon        (* after a key: the colon *)
| PNextMember   (* after a member: , or } *)
| PDone (v : JsonValue).

(** The value [v] is complete: it goes to the innermost open array or
    object, or it is the whole text. *)
Definition complete (v : JsonValue) (stack : list Frame) : option (ParseState * list Frame) :=
  match stack with
  | [] => Some (PDone v, [])
  | InArray items :: outer => Some (PNextItem, InArray (items ++ [v]) :: outer)
  | InObject members (Some k) :: outer =>
      Some (PNextMember, InObject (members ++ [(k, v)]) None :: outer)
  | InObject _ None :: _ => None
  end.

Definition start_value (tok : Token) (stack : list Frame) : option (ParseState * list Frame) :=
  match tok with
  | TString u => complete (JsonString u) stack
  | TNumber n => complete (JsonNumber n) stack
  | TTrue => complete (JsonBool true) stack
  | TFalse => complete (JsonBool false) stack
  | TNull => complete JsonNull stack
  | TLBracket => Some (PFirstItem, InArray [] :: stack)
  | TLBrace => Some (PFirstKey, InObject [] None :: stack)
  | TRBrace | TRBracket | TColon | TComma => None
  end.

Definition close_array (stack : list Frame) : option (ParseState * list Frame) :=
  match stack with
  | InArray items :: outer => complete (JsonArray items) outer
  | _ => None
  end.

Definition close_object (stack : list Frame) : option (ParseState * list Frame) :=
  match stack with
  | InObject members None :: outer => complete (JsonObject members) outer
  | _ => None
  end.

Definition read_key (tok : Token) (stack : list Frame) : option (ParseState * list Frame) :=
  match tok, stack with
  | TString k, InObject members None :: outer =>
      Some (PColon, InObject members (Some k) :: outer)
  | _, _ => None
  end.

Definition parse_step (st : ParseState) (stack : list Frame) (tok : Token)
  : option (ParseState * list Frame) :=
  match st with
  | PValue => start_value tok stack
  | PFirstItem =>
      match tok with
      | TRBracket => close_array stack
      | _ => start_value tok stack
      end
  | PNextItem =>
      match tok with
      | TComma => Some (PValue, stack)
      | TRBracket => close_array stack
      | _ => None
      end
  | PFirstKey =>
      match tok with
      | TRBrace => close_object stack
      | _ => read_key tok stack
      end
  | PKey => read_key tok stack
  | PColon =>
      match tok with
      | TColon => Some (PValue, stack)
      | _ => None
      end
  | PNextMember =>
      match tok with
      | TComma => Some (PKey, stack)
      | TRBrace => close_object stack
      | _ => None
      end
  | PDone _ => None
  end.

Fixpoint parse_tokens (st : ParseState) (stack : list Frame) (toks : list Token)
  : option JsonValue :=
  match toks with
  | [] => match st with PDone v => Some v | _ => None end
  | tok :: rest =>
      match parse_step st stack tok with
      | Some (st', stack') => parse_tokens st' stack' rest
      | None => None
      end
  end.

(** [JSON.parse(text)]: [None] when it throws a [SyntaxError]. *)
Definition JSON_parse (text : string) : option JsonValue :=
  match lex LxBetween text with
  | Some toks => parse_tokens PValue [] toks
  | None => None
  end.

(** The code units of a string. *)
Definition units_of (s : string) : list N := map N_of_ascii (list_ascii_of_string s).

(** ** The connection string *)

(** [s.indexOf(sep)] with the two substrings around that place: the text
    before the first [sep] and the text after it; [None] without a [sep]. *)
Fixpoint split_at_first (sep : ascii) (s : string) : option (string * string) :=
  match s with
  | EmptyString => None
  | String c rest =>
      if Ascii.eqb c sep then Some (EmptyString, rest)
      else match split_at_first sep rest with
           | Some (before, after) => Some (String c before, after)
           | None => None
           end
  end.

(** Modelled from the spec: one element [Key=Value] of the source, added to
    the mapping (azure-iot-common's code for it is not among the sources);
    an element without [=] adds nothing, a field of a name the mapping
    already has replaces it. *)
Definition add_field (dict : gmap string string) (elem : string) : gmap string string :=
  match split_at_first "=" elem with
  | Some (key, val) => <[key := val]> dict
  | None => dict
  end.

(** Modelled from the spec: the decomposition of the source, which
    [ConnectionString.parse] of azure-iot-common does and which is not
    among the sources: the source is split on the delimiter [;] and its
    elements are added one after the other. *)
Definition createDictionary (source : string) : gmap string string :=
  fold_left add_field (split ";" source) ∅.

(** The source has an element [key=val]. *)
Definition has_field (source key val : string) : Prop :=
  In (key +:+ "=" +:+ val) (split ";" source).

(** The required fields that the mapping lacks. *)
Definition missing_fields (dict : gmap string string) (requiredFields : list string)
  : list string :=
  List.filter (fun key => match dict !! key with Some _ => false | None => true end)
    requiredFields.

(** Modelled from the spec: [ConnectionString.parse(source, requiredFields)]
    of azure-iot-common fails with an argument error that names the first
    required field the source lacks, and returns the decomposed mapping
    otherwise. *)
Definition ConnectionString_parse (source : string) (requiredFields : list string)
  : Outcome (gmap string string) :=
  let dict := createDictionary source in
  match missing_fields dict requiredFields with
  | key :: _ => Throw (ArgumentError key)
  | [] => Return dict
  end.

(** [parse] of [service/src/connection_string.ts]. *)
Definition parse (source : string) : Outcome (gmap string string) :=
  ConnectionString_parse source ["HostName"; "SharedAccessKeyName"; "SharedAccessKey"].

(** ** The file-upload client *)

(** [package.json], of which the source reads the name and the version. *)
Record PackageJson : Type := { name : string; version : string }.

(** A function object, by its identity. *)
Definition Fn : Type := nat.

(** The address of an [Error] object in the store. *)
Definition loc : Type := nat.

Section FileUpload.

(** The types the source imports and only passes on: the certificate
    options of azure-iot-common, the response object of the transport and
    the transport object itself. *)
Context {X509 Response Transport : Type}.

(** The API version of azure-iot-common's [endpoint] module and the
    [package.json] the module loads. *)
Variable apiVersion : string.
Variable packageJson : PackageJson.

(** [X509 | SharedAccessSignature], as [typeof] tells the two apart at run
    time: a string, or an object. *)
Inductive Auth : Type :=
| SharedAccessSignature (sas : string)
| X509Options (cert : X509).

#[export] Instance Auth_JsType : JsType Auth := {|
  truthy a := match a with SharedAccessSignature s => truthy s | X509Options _ => true end;
  ToString a :=
    match a with
    | SharedAccessSignature s => s
    | X509Options _ => "[object Object]"
    end
|}.

(** [BlobUploadResult]: an object, by its properties. *)
Definition BlobUploadResult : Type := list (string * JsValue).

#[export] Instance BlobUploadResult_JsType : JsType BlobUploadResult := {|
  truthy _ := true;
  ToString _ := "[object Object]"
|}.

(** The value of [this.http]. *)
Inductive Http : Type :=
| DefaultHttpTransport
| Injected (transport : Transport).

(** The instance: [deviceId: string; hostname: string; http: any]. *)
Record FileUploadApi : Type := {
  deviceId : Nullable string;
  hostname : Nullable string;
  http : Http
}.

(** An [Error] object as the transport made it, with the two properties
    the source adds to it ([None]: the property is not there). *)
Record ErrorObject : Type := {
  message : string;
  responseBody : option (Nullable string);
  response : option (Nullable Response)
}.

(** The two completion callbacks the source hands to [buildRequest], each
    closed over [done]. *)
Inductive Completion : Type :=
| onBlobSasResponse (done : Nullable Fn)
| onNotifyResponse (done : Nullable Fn).

(** An argument of a call of [done]. *)
Inductive Argument : Type :=
| ArgError (err : loc)
| ArgNull
| ArgResult (result : JsonValue).

Inductive Event : Type :=
| buildRequest (transport : Http) (method path : string)
    (headers : list (string * JsValue)) (host : Nullable string)
    (x509Opts : Nullable X509) (callback : Completion)
| write (body : string)
| req_end
| call (f : Fn) (args : list Argument).

Record World : Type := {
  store : gmap loc ErrorObject;
  trace : list Event
}.

Definition Exec (A : Type) : Type := World -> Outcome A * World.

Definition ret {A : Type} (a : A) : Exec A := fun w => (Return a, w).

Definition throw {A : Type} (e : JsException) : Exec A := fun w => (Throw e, w).

(** A computation that does not touch the world. *)
Definition lift {A : Type} (o : Outcome A) : Exec A := fun w => (o, w).

Definition bind {A B : Type} (c : Exec A) (k : A -> Exec B) : Exec B :=
  fun w =>
    match c w with
    | (Return a, w') => k a w'
    | (Throw e, w') => (Throw e, w')
    end.

Notation "x <- c ;; k" := (bind c (fun x => k))
  (at level 100, c at next level, k at level 200, right associativity).
Notation "c ;; k" := (bind c (fun _ => k))
  (at level 100, k at level 200, right associativity).

(** A call that the trace records. *)
Definition emit (e : Event) : Exec unit :=
  fun w => (Return tt, {| store := store w; trace := trace w ++ [e] |}).

(** [err.responseBody = body] and [err.response = response]. *)
Definition set_responseBody (err : loc) (body : Nullable string) : Exec unit :=
  fun w =>
    (Return tt,
     {| store :=
          alter (fun e => {| message := message e;
                             responseBody := Some body;
                             response := response e |}) err (store w);
        trace := trace w |}).

Definition set_response (err : loc) (resp : Nullable Response) : Exec unit :=
  fun w =>
    (Return tt,
     {| store :=
          alter (fun e => {| message := message e;
                             responseBody := responseBody e;
                             response := Some resp |}) err (store w);
        trace := trace w |}).

(** [done(args)]: calling what is no function throws a [TypeError]. *)
Definition invoke (done : Nullable Fn) (args : list Argument) : Exec unit :=
  match done with
  | value f => emit (call f args)
  | undefined | null => throw TypeError
  end.

(** Modelled from the spec: [endpoint.devicePath] of azure-iot-common is
    not among the sources; the path of a device is [/devices/{deviceId}],
    as in the path the source's own requirement gives for the request,
    [/devices/<deviceId>/files?api-version=<api-version>]. *)
Definition devicePath (deviceId : Nullable string) : string :=
  "/devices/" +:+ ToString deviceId.

(** Modelled from the spec: [endpoint.versionQueryString] of
    azure-iot-common is not among the sources; the query string is
    [?api-version=<api-version>]. *)
Definition versionQueryString : string := "?api-version=" +:+ apiVersion.

(** [new FileUploadApi(deviceId, hostname, httpTransport)] *)
Definition constructor (deviceId hostname : Nullable string)
    (httpTransport : Nullable Transport) : Outcome FileUploadApi :=
  if negb (truthy deviceId) then
    Throw (ReferenceError ("deviceId cannot be '" +:+ ToString deviceId +:+ "'"))
  else if negb (truthy hostname) then
    Throw (ReferenceError ("hostname cannot be '" +:+ ToString hostname +:+ "'"))
  else
    Return {| deviceId := deviceId;
              hostname := hostname;
              http := match httpTransport with
                      | value transport => Injected transport
                      | undefined | null => DefaultHttpTransport
                      end |}.

(** The step both operations take after building the headers:
    [let x509Opts = null], then the test [typeof auth === 'string'] with its
    two branches, the headers with [Authorization] set and [x509Opts] left
    [null], or the headers as they are and [x509Opts] set to [auth]. *)
Definition select_auth (auth : Nullable Auth) (headers : list (string * JsValue))
  : list (string * JsValue) * Nullable X509 :=
  match auth with
  | value (SharedAccessSignature sas) =>
      (set_prop "Authorization" (JsString sas) headers, null)
  | value (X509Options cert) => (headers, value cert)
  | undefined => (headers, undefined)
  | null => (headers, null)
  end.

(** The last step of both operations:
    [this.http.buildRequest('POST', path, headers, this.hostname, x509Opts, callback)],
    then [req.write(body)] and [req.end()] on the request it returns. *)
Definition send (this : FileUploadApi) (path : string)
    (headers : list (string * JsValue)) (x509Opts : Nullable X509)
    (callback : Completion) (body : string) : Exec unit :=
  emit (buildRequest (http this) "POST" path headers (hostname this) x509Opts callback) ;;
  emit (write body) ;;
  emit req_end.

Definition getBlobSharedAccessSignature (this : FileUploadApi)
    (blobName : Nullable string) (auth : Nullable Auth) (done : Nullable Fn)
  : Exec unit :=
  if negb (truthy blobName) then
    throw (ReferenceError ("blobName cannot be '" +:+ ToString blobName +:+ "'"))
  else if negb (truthy auth) then
    throw (ReferenceError ("auth cannot be '" +:+ ToString auth +:+ "'"))
  else
    let path := devicePath (deviceId this) +:+ "/files" +:+ versionQueryString in
    match JSON_stringify (JsObject [("blobName", inject blobName)]) with
    | None => throw TypeError (* [body.length] of [undefined] *)
    | Some body =>
        let headers :=
          [("Host", inject (hostname this));
           ("Accept", JsString "application/json");
           ("Content-Type", JsString "application/json");
           ("Content-Length", JsNumber (integer (Z.of_nat (String.length body))));
           ("User-Agent", JsString (name packageJson +:+ "/" +:+ version packageJson))] in
        let '(headers, x509Opts) := select_auth auth headers in
        send this path headers x509Opts (onBlobSasResponse done) body
    end.

(** [this.hostname.split('.')[0]] *)
Definition hub_name (hostname : Nullable string) : Exec JsValue :=
  match hostname with
  | value h =>
      ret (match split "." h with
           | label :: _ => JsString label
           | [] => JsUndefined
           end)
  | undefined | null => throw TypeError
  end.

Definition notifyUploadComplete (this : FileUploadApi)
    (correlationId : Nullable String16) (auth : Nullable Auth)
    (uploadResult : Nullable BlobUploadResult) (done : Nullable Fn)
  : Exec unit :=
  if negb (truthy correlationId) then
    throw (ReferenceError ("correlationId cannot be '" +:+ ToString correlationId +:+ "'"))
  else if negb (truthy auth) then
    throw (ReferenceError ("auth cannot be '" +:+ ToString auth +:+ "'"))
  else if negb (truthy uploadResult) then
    throw (ReferenceError ("uploadResult cannot be '" +:+ ToString uploadResult +:+ "'"))
  else
    encoded <- lift (encodeURIComponent (ToString16 correlationId)) ;;
    let path := devicePath (deviceId this) +:+ "/files/notifications/"
                +:+ encoded +:+ versionQueryString in
    match JSON_stringify (match uploadResult with
                          | value props => JsObject props
                          | undefined => JsUndefined
                          | null => JsNull
                          end) with
    | None => throw TypeError (* [body.length] of [undefined] *)
    | Some body =>
        iothub_name <- hub_name (hostname this) ;;
        let headers :=
          [("Host", inject (hostname this));
           ("User-Agent", JsString (name packageJson +:+ "/" +:+ version packageJson));
           ("Content-Type", JsString "application/json; charset=utf-8");
           ("Content-Length", JsNumber (integer (Z.of_nat (String.length body))));
           ("iothub-name", iothub_name)] in
        let '(headers, x509Opts) := select_auth auth headers in
        send this path headers x509Opts (onNotifyResponse done) body
    end.

(** The completion callback of [getBlobSharedAccessSignature], called by
    the transport with [(err, body, response)]. An [err] that is an object
    is truthy; [undefined] and [null] are not. *)
Definition blobSasResponse (done : Nullable Fn) (err : Nullable loc)
    (body : Nullable string) (resp : Nullable Response) : Exec unit :=
  match err with
  | value e =>
      set_responseBody e body ;;
      set_response e resp ;;
      invoke done [ArgError e]
  | undefined | null =>
      match JSON_parse (ToString body) with
      | Some result => invoke done [ArgNull; ArgResult result]
      | None => throw SyntaxError
      end
  end.

(** The completion callback of [notifyUploadComplete], which reads [err]
    alone. *)
Definition notifyResponse (done : Nullable Fn) (err : Nullable loc) : Exec unit :=
  match err with
  | value e => invoke done [ArgError e]
  | undefined | null => invoke done []
  end.

(** The transport completes a request: it calls the callback it was
    given. *)
Definition complete_request (callback : Completion) (err : Nullable loc)
    (body : Nullable string) (resp : Nullable Response) : Exec unit :=
  match callback with
  | onBlobSasResponse done => blobSasResponse done err body resp
  | onNotifyResponse done => notifyResponse done err
  end.

(** How many times the function [f] was called along a trace. *)
Definition calls (f : Fn) (tr : list Event) : nat :=
  List.length
    (List.filter (fun e => match e with call g _ => Nat.eqb g f | _ => false end) tr).

(** The events a run added to the trace. *)
Definition issued (before after : World) : list Event :=
  drop (List.length (trace before)) (trace after).

(** A request carries [auth]: as its [Authorization] header, with no
    certificate options, when [auth] is a string; as its certificate
    options, with no [Authorization] header, when [auth] is an object. No
    request carries an [auth] that is [undefined] or [null]. *)
Definition carries_auth (auth : Nullable Auth) (headers : list (string * JsValue))
    (x509Opts : Nullable X509) : Prop :=
  match auth with
  | value (SharedAccessSignature sas) =>
      get_prop "Authorization" headers = Some (JsString sas) /\ x509Opts = null
  | value (X509Options cert) =>
      get_prop "Authorization" headers = None /\ x509Opts = value cert
  | undefined | null => False
  end.

End FileUpload.

(** ** Sample values *)

Definition sample_package : PackageJson :=
  {| name := "azure-iot-device"; version := "1.4.0" |}.

Definition sample_apiVersion : string := "2016-11-14".

(** An instance with an injected transport, here the transport number 1. *)
Definition sample_api : @FileUploadApi nat :=
  {| deviceId := value "thermostat";
     hostname := value "contoso.azure-devices.net";
     http := Injected 1 |}.

(** A world with one [Error] object, at address 4, and nothing done yet. *)
Definition sample_world : @World unit unit nat :=
  {| store := {[ 4 := {| message := "ECONNRESET";
                         responseBody := None;
                         response := None |} ]};
     trace := [] |}.

Definition sample_sas : string := "SharedAccessSignature sr=contoso&sig=abc&se=1".

Definition sample_auth : Nullable (@Auth unit) := value (SharedAccessSignature sample_sas).

(** The body of the credential request for the blob [photo.jpg]. *)
Definition sample_blob_body : string :=
  "{" +:+ JSON_quote "blobName" +:+ ":" +:+ JSON_quote "photo.jpg" +:+ "}".

(** The credential request of [sample_api] for the blob [photo.jpg], with
    [sample_auth] and the callback number 7. *)
Definition sample_blob_headers : list (string * JsValue) :=
  [("Host", JsString "contoso.azure-devices.net");
   ("Accept", JsString "application/json");
   ("Content-Type", JsString "application/json");
   ("Content-Length", JsNumber (integer 24));
   ("User-Agent", JsString "azure-iot-device/1.4.0");
   ("Authorization", JsString sample_sas)].

Definition sample_blob_request : @Event unit nat :=
  buildRequest (Injected 1) "POST"
    "/devices/thermostat/files?api-version=2016-11-14"
    sample_blob_headers
    (value "contoso.azure-devices.net") null (onBlobSasResponse (value 7)).

(** The world once that request is made. *)
Definition sample_world_requested : @World unit unit nat :=
  {| store := store sample_world;
     trace := [sample_blob_request; write sample_blob_body; req_end] |}.

(** An upload result and the text it is serialized to. *)
Definition sample_upload_result : BlobUploadResult :=
  [("isSuccess", JsBool true); ("statusCode", JsNumber (integer 201));
   ("statusDescription", JsString "Created")].

Definition sample_upload_body : string :=
  "{" +:+ JSON_quote "isSuccess" +:+ ":true," +:+ JSON_quote "statusCode" +:+ ":201,"
  +:+ JSON_quote "statusDescription" +:+ ":" +:+ JSON_quote "Created" +:+ "}".

(** The notification of [sample_api] for the correlation identifier
    [a/b c], with [sample_auth] and no callback. *)
Definition sample_notify_headers : list (string * JsValue) :=
  [("Host", JsString "contoso.azure-devices.net");
   ("User-Agent", JsString "azure-iot-device/1.4.0");
   ("Content-Type", JsString "application/json; charset=utf-8");
   ("Content-Length", JsNumber (integer 65));
   ("iothub-name", JsString "contoso");
   ("Authorization", JsString sample_sas)].

Definition sample_notify_request : @Event unit nat :=
  buildRequest (Injected 1) "POST"
    "/devices/thermostat/files/notifications/a%2Fb%20c?api-version=2016-11-14"
    sample_notify_headers
    (value "contoso.azure-devices.net") null (onNotifyResponse undefined).

Definition sample_world_notified : @World unit unit nat :=
  {| store := store sample_world;
     trace := [sample_notify_request; write sample_upload_body; req_end] |}.

(** A response body of the credential request and the value it denotes. *)
Definition sample_response_body : string :=
  "{" +:+ JSON_quote "correlationId" +:+ ": " +:+ JSON_quote "c1" +:+ ", "
  +:+ JSON_quote "containerName" +:+ ": " +:+ JSON_quote "uploads" +:+ "}".

Definition sample_response_value : JsonValue :=
  JsonObject [(units_of "correlationId", JsonString (units_of "c1"));
              (units_of "containerName", JsonString (units_of "uploads"))].

(** The world once the transport has failed the sample credential request
    with the [Error] object at address 4 and the body [busy]. *)
Definition sample_world_failed : @World unit unit nat :=
  {| store := {[ 4 := {| message := "ECONNRESET";
                         responseBody := Some (value "busy");
                         response := Some null |} ]};
     trace := [sample_blob_request; write sample_blob_body; req_end;
               call 7 [ArgError 4]] |}.

(** The same notification with a certificate for [auth] and the callback
    number 7. *)
Definition sample_certificate : Nullable (@Auth unit) := value (X509Options tt).

Definition sample_certificate_headers : list (string * JsValue) :=
  [("Host", JsString "contoso.azure-devices.net");
   ("User-Agent", JsString "azure-iot-device/1.4.0");
   ("Content-Type", JsString "application/json; charset=utf-8");
   ("Content-Length", JsNumber (integer 65));
   ("iothub-name", JsString "contoso")].

Definition sample_certificate_request : @Event unit nat :=
  buildRequest (Injected 1) "POST"
    "/devices/thermostat/files/notifications/a%2Fb%20c?api-version=2016-11-14"
    sample_certificate_headers
    (value "contoso.azure-devices.net") (value tt) (onNotifyResponse (value 7)).

Definition sample_world_certificate : @World unit unit nat :=
  {| store := store sample_world;
     trace := [sample_certificate_request; write sample_upload_body; req_end] |}.

(** A correlation identifier that is one leading surrogate, 0xD800, with
    no trailing surrogate after it. *)
Definition sample_lone_surrogate : String16 :=
  [{| high_octet := "216"; low_octet := zero |}].

(** The notification of [sample_api] for the correlation identifier
    [c1_a.b-2], with [sample_auth] and no callback. *)
Definition sample_plain_request : @Event unit nat :=
  buildRequest (Injected 1) "POST"
    "/devices/thermostat/files/notifications/c1_a.b-2?api-version=2016-11-14"
    sample_notify_headers
    (value "contoso.azure-devices.net") null (onNotifyResponse undefined).

Definition sample_world_plain : @World unit unit nat :=
  {| store := store sample_world;
     trace := [sample_plain_request; write sample_upload_body; req_end] |}.

(** ** Auxiliary definitions *)

(** The names of the properties of an object, in order. *)
Definition prop_names (props : list (string * JsValue)) : list string := map fst props.

(** The scanner of [JSON_parse] run over the beginning of a text: the mode
    it is left in and the tokens completed so far. *)
Fixpoint lex_run (mode : LexMode) (text : string) : option (LexMode * list Token) :=
  match text with
  | EmptyString => Some (mode, [])
  | String c rest =>
      match lex_step mode c with
      | Some (mode', toks) =>
          match lex_run mode' rest with
          | Some (mode'', more) => Some (mode'', toks ++ more)
          | None => None
          end
      | None => None
      end
  end.

(** The code points of a string, as the loop of [encodeURIComponent]
    would read them with CodePointAt, one after the other; [None] when a
    surrogate is not one of a pair. *)
Fixpoint code_points (s : String16) : option (list N) :=
  match s with
  | [] => Some []
  | c :: rest =>
      if is_trailing_surrogate c then None
      else if is_leading_surrogate c then
        match rest with
        | d :: rest' =>
            if is_trailing_surrogate d then
              option_map (cons (surrogate_pair_code_point c d)) (code_points rest')
            else None
        | [] => None
        end
      else option_map (cons (code c)) (code_points rest)
  end.

(** The UTF-8 encoding of a sequence of code points. *)
Fixpoint UTF8_text (cps : list N) : string :=
  match cps with
  | [] => EmptyString
  | cp :: rest => UTF8_octets cp +:+ UTF8_text rest
  end.

(** An octet of UTF-8 text as it stands in an encoded component: as it is
    when it is an unreserved character, as an escape otherwise. *)
Definition uri_escape (o : ascii) : string :=
  if uri_unreserved o then String o EmptyString
  else "%" +:+ hex_byte true (N_of_ascii o).

Fixpoint uri_escape_all (octets : string) : string :=
  match octets with
  | EmptyString => EmptyString
  | String o rest => uri_escape o +:+ uri_escape_all rest
  end.

(** The inverse of [uri_escape]: the octet an encoded text starts with,
    and the rest of the text. *)
Definition uri_decode_first (s : string) : option (ascii * string) :=
  match s with
  | EmptyString => None
  | String c rest =>
      if Ascii.eqb c "%" then
        match rest with
        | String h (String l rest1) =>
            match hex_value h, hex_value l with
            | Some a, Some b => Some (ascii_of_N (16 * a + b), rest1)
            | _, _ => None
            end
        | _ => None
        end
      else Some (c, rest)
  end.

(** ** JSON texts read back: auxiliary definitions *)

(** The text [JSON.stringify] writes for an element of an array: the text
    of the value, or [null] for [undefined]. *)
Definition elem_text (v : JsValue) : string :=
  match JSON_stringify v with Some s => s | None => "null" end.

(** Whether a value is not [undefined]. *)
Definition is_defined (v : JsValue) : bool :=
  match v with JsUndefined => false | _ => true end.

(** Token lists with a comma between them. *)
Fixpoint sep_tokens (parts : list (list Token)) : list Token :=
  match parts with
  | [] => []
  | [p] => p
  | p :: rest => p ++ TComma :: sep_tokens rest
  end.

(** What [JSON.parse] makes of the text [JSON.stringify] writes for a
    value: the same tree, where [undefined] inside an array and a number
    that is not finite have become [null] and a property whose value is
    [undefined] is gone; a finite number is the numeral [Number::toString]
    writes. *)
Fixpoint json_of (v : JsValue) : JsonValue :=
  match v with
  | JsUndefined | JsNull => JsonNull
  | JsBool b => JsonBool b
  | JsNumber x => if is_finite x then JsonNumber (Number_toString x) else JsonNull
  | JsString s => JsonString (units_of s)
  | JsArray items => JsonArray (map json_of items)
  | JsObject props =>
      JsonObject
        (flat_map (fun kv => if is_defined (snd kv)
                             then [(units_of (fst kv), json_of (snd kv))]
                             else []) props)
  end.

(** The tokens of the text [JSON.stringify] writes for a value. *)
Fixpoint tokens_of (v : JsValue) : list Token :=
  match v with
  | JsUndefined | JsNull => [TNull]
  | JsBool true => [TTrue]
  | JsBool false => [TFalse]
  | JsNumber x => if is_finite x then [TNumber (Number_toString x)] else [TNull]
  | JsString s => [TString (units_of s)]
  | JsArray items => TLBracket :: sep_tokens (map tokens_of items) ++ [TRBracket]
  | JsObject props =>
      TLBrace ::
      sep_tokens
        (flat_map (fun kv => if is_defined (snd kv)
                             then [TString (units_of (fst kv)) :: TColon :: tokens_of (snd kv)]
                             else []) props)
      ++ [TRBrace]
  end.

(** The size of a value, for induction through arrays and objects. *)
Fixpoint js_size (v : JsValue) : nat :=
  match v with
  | JsArray items => S (list_sum (map js_size items))
  | JsObject props => S (list_sum (map (fun kv => js_size (snd kv)) props))
  | _ => 1
  end.

(** What follows a value inside a JSON text: a comma or a closing bracket
    or brace. *)
Definition is_delimiter (c : ascii) : bool := occurs c ",]}".

(** A text that is empty or starts with a delimiter. *)
Definition delimited (rest : string) : Prop :=
  match rest with
  | EmptyString => True
  | String c _ => is_delimiter c = true
  end.

(** The scanner reads all of [text] as the tokens [toks] and is between
    tokens afterwards. *)
Definition scans (text : string) (toks : list Token) : Prop :=
  lex_run LxBetween text = Some (LxBetween, toks).

(** The scanner reads [text] as the tokens [toks] when what follows is
    delimited (a numeral ends only where the next character shows it). *)
Definition lexes (text : string) (toks : list Token) : Prop :=
  forall rest, delimited rest ->
    lex LxBetween (text +:+ rest)
    = match lex LxBetween rest with
      | Some more => Some (toks ++ more)
      | None => None
      end.

(** The parser reads [toks] as the value [j] wherever a value may
    stand. *)
Definition parses (toks : list Token) (j : JsonValue) : Prop :=
  forall st stack rest,
    st = PValue \/ st = PFirstItem ->
    parse_tokens st stack (toks ++ rest)
    = match complete j stack with
      | Some (st', stack') => parse_tokens st' stack' rest
      | None => None
      end.

(** The state of the scanner inside a numeral once it has read the first
    character of one, the digit [c]. *)
Definition num_start (c : ascii) : NumState :=
  if Ascii.eqb c "0" then NZero else NInt.

(** The state in which a digit leaves the scanner that is inside a
    numeral. *)
Definition after_digit (st : NumState) : option NumState :=
  match st with
  | NInt => Some NInt
  | NDot | NFrac => Some NFrac
  | NExp | NExpSign | NExpDigits => Some NExpDigits
  | NMinus | NZero => None
  end.

(** The scanner, inside a numeral in the state [st], reads [text] as more
    of the numeral and is in the state [st'] afterwards. *)
Definition num_run (st : NumState) (text : string) (st' : NumState) : Prop :=
  forall numeral,
    lex_run (LxNumber st numeral) text = Some (LxNumber st' (numeral +:+ text), []).

(** The tokens of a member of an object, and the member they denote. *)
Definition member_tokens (p : list N * (list Token * JsonValue)) : list Token :=
  TString (fst p) :: TColon :: fst (snd p).

Definition member_json (p : list N * (list Token * JsonValue)) : list N * JsonValue :=
  (fst p, snd (snd p)).

(** ** Strings: lemmas *)

Lemma append_assoc (a b c : string) : (a +:+ b) +:+ c = a +:+ b +:+ c.
Proof.
  induction a as [|x a IH]; [reflexivity|].
  change (String x ((a +:+ b) +:+ c) = String x (a +:+ b +:+ c)).
  now rewrite IH.
Qed.

(** ** What [JSON.stringify] writes, [JSON.parse] reads back *)

Lemma append_nil_r (s : string) : s +:+ "" = s.
Proof.
  induction s as [|c s IH]; [reflexivity|].
  change (String c (s +:+ "") = String c s). now rewrite IH.
Qed.

Lemma length_append (a b : string) :
  String.length (a +:+ b) = String.length a + String.length b.
Proof.
  induction a as [|c a IH]; [reflexivity|].
  change (String c a +:+ b) with (String c (a +:+ b)). cbn [String.length].
  now rewrite IH.
Qed.

Lemma append_inj_r (a b s : string) : a +:+ s = b +:+ s -> a = b.
Proof.
  revert b. induction a as [|c a IH]; intros [|d b] H.
  - reflexivity.
  - apply (f_equal String.length) in H. rewrite !length_append in H.
    cbn [String.length] in H. lia.
  - apply (f_equal String.length) in H. rewrite !length_append in H.
    cbn [String.length] in H. lia.
  - change (String c (a +:+ s) = String d (b +:+ s)) in H.
    injection H as -> H. f_equal. now apply IH.
Qed.

Lemma all_chars_app (p : ascii -> bool) (a b : string) :
  all_chars p (a +:+ b) = all_chars p a && all_chars p b.
Proof.
  induction a as [|c a IH]; [reflexivity|].
  change (String c a +:+ b) with (String c (a +:+ b)).
  cbn [all_chars]. rewrite IH. now rewrite andb_assoc.
Qed.

Lemma all_chars_occurs (p : ascii -> bool) (s : string) (c : ascii) :
  all_chars p s = true -> p c = false -> occurs c s = false.
Proof.
  intros Hall Hc. induction s as [|d s IH]; [reflexivity|].
  cbn [all_chars occurs] in *. apply andb_true_iff in Hall as [Hd Hs].
  rewrite (IH Hs), orb_false_r.
  destruct (Ascii.eqb d c) eqn:E; [|reflexivity].
  apply Ascii.eqb_eq in E as ->. congruence.
Qed.

(** Where the source concatenates a correlation identifier into a message
    the identifier is falsy, and there [ToString] loses nothing of it. *)
Lemma falsy_correlationId_text (v : Nullable String16) :
  truthy v = false -> wide (ToString v) = ToString16 v.
Proof. destruct v as [| |[|u c]]; try discriminate; reflexivity. Qed.

(** ** Properties of [encodeURIComponent] *)

(** Quotients and remainders by constants, for [lia]. *)
Ltac Zify.zify_post_hook ::= Z.to_euclidean_division_equations.

Lemma N_of_ascii_bound (a : ascii) : (N_of_ascii a < 256)%N.
Proof. apply N_ascii_bounded. Qed.

Lemma ascii_of_N_inj (x y : N) :
  (x < 256)%N -> (y < 256)%N -> ascii_of_N x = ascii_of_N y -> x = y.
Proof.
  intros Hx Hy H. apply (f_equal N_of_ascii) in H.
  now rewrite !N_ascii_embedding in H.
Qed.

Lemma N_of_ascii_inj (a b : ascii) : N_of_ascii a = N_of_ascii b -> a = b.
Proof.
  intros H. apply (f_equal ascii_of_N) in H. now rewrite !ascii_N_embedding in H.
Qed.

Lemma code_bound (u : CodeUnit) : (code u < 65536)%N.
Proof.
  unfold code. pose proof (N_of_ascii_bound (high_octet u)).
  pose proof (N_of_ascii_bound (low_octet u)). lia.
Qed.

Lemma code_inj (u v : CodeUnit) : code u = code v -> u = v.
Proof.
  destruct u as [h l], v as [h' l']. unfold code. cbn [high_octet low_octet].
  pose proof (N_of_ascii_bound l) as Hl. pose proof (N_of_ascii_bound l') as Hl'.
  intros Heq.
  assert (Hh : N_of_ascii h = N_of_ascii h') by lia.
  assert (Hlow : N_of_ascii l = N_of_ascii l') by lia.
  f_equal; now apply N_of_ascii_inj.
Qed.

Lemma uri_unreserved_low (o : ascii) :
  uri_unreserved o = true -> (N_of_ascii o < 128)%N.
Proof.
  destruct o as [[] [] [] [] [] [] [] []]; intros H;
    try (vm_compute in H; discriminate H); reflexivity.
Qed.

Lemma uri_unreserved_high (n : N) :
  (128 <= n < 256)%N -> uri_unreserved (ascii_of_N n) = false.
Proof.
  intros Hn. destruct (uri_unreserved (ascii_of_N n)) eqn:H; [|reflexivity].
  apply uri_unreserved_low in H. rewrite N_ascii_embedding in H; lia.
Qed.

Lemma unescaped_spec (u : CodeUnit) :
  unescaped u = true ->
  u = {| high_octet := zero; low_octet := low_octet u |}
  /\ uri_unreserved (low_octet u) = true
  /\ code u = N_of_ascii (low_octet u)
  /\ (code u < 128)%N.
Proof.
  unfold unescaped. intros [Hh Hl]%andb_true_iff. apply Ascii.eqb_eq in Hh.
  destruct u as [h l]. cbn [high_octet low_octet] in *. subst h.
  split; [reflexivity|]. split; [exact Hl|].
  unfold code. cbn [high_octet low_octet]. change (N_of_ascii zero) with 0%N.
  split; [lia|]. apply uri_unreserved_low in Hl. lia.
Qed.

Lemma not_unescaped_low (u : CodeUnit) :
  unescaped u = false -> (code u < 128)%N ->
  ascii_of_N (code u) = low_octet u /\ uri_unreserved (low_octet u) = false.
Proof.
  unfold unescaped, code. destruct u as [h l]. cbn [high_octet low_octet].
  intros Hu Hc. pose proof (N_of_ascii_bound l).
  assert (Hh : N_of_ascii h = 0%N) by lia.
  assert (h = zero) by (apply N_of_ascii_inj; exact Hh). subst h.
  cbn in Hu. split; [|exact Hu].
  change (N_of_ascii zero) with 0%N. rewrite N.mul_0_r, N.add_0_l.
  apply ascii_N_embedding.
Qed.

Lemma surrogate_not_low (u : CodeUnit) :
  (code u < 0xD800)%N ->
  is_trailing_surrogate u = false /\ is_leading_surrogate u = false.
Proof.
  unfold is_trailing_surrogate, is_leading_surrogate. intros H. split.
  - apply andb_false_iff. left. apply N.leb_gt. lia.
  - apply andb_false_iff. left. apply N.leb_gt. lia.
Qed.

Lemma surrogate_pair_bound (c d : CodeUnit) :
  is_leading_surrogate c = true -> is_trailing_surrogate d = true ->
  (0x10000 <= surrogate_pair_code_point c d < 0x110000)%N.
Proof.
  unfold is_leading_surrogate, is_trailing_surrogate, surrogate_pair_code_point.
  intros [H1 H2]%andb_true_iff [H3 H4]%andb_true_iff.
  apply N.leb_le in H1, H2, H3, H4. lia.
Qed.

(** Induction along a string one or two code units at a time. *)
Lemma String16_pair_ind (P : String16 -> Prop) :
  P [] ->
  (forall c rest,
      P rest -> (forall d rest', rest = d :: rest' -> P rest') -> P (c :: rest)) ->
  forall s, P s.
Proof.
  intros Hnil Hcons s.
  assert (H : P s /\ forall d rest', s = d :: rest' -> P rest').
  { induction s as [|c rest [IH1 IH2]].
    - split; [exact Hnil|discriminate].
    - split; [now apply Hcons|]. now intros d rest' [= <- <-]. }
  exact (proj1 H).
Qed.

Lemma uri_escape_all_app (a b : string) :
  uri_escape_all (a +:+ b) = uri_escape_all a +:+ uri_escape_all b.
Proof.
  induction a as [|o a IH]; [reflexivity|].
  change (String o a +:+ b) with (String o (a +:+ b)). cbn [uri_escape_all].
  now rewrite IH, append_assoc.
Qed.

Lemma uri_escape_high (n : N) :
  (128 <= n < 256)%N ->
  uri_escape (ascii_of_N n) = "%" +:+ hex_byte true (N_of_ascii (ascii_of_N n)).
Proof. intros Hn. unfold uri_escape. now rewrite (uri_unreserved_high n Hn). Qed.

(** The octets of a code point from 0x80 on are all escaped. *)
Lemma uri_escape_all_high (cp : N) :
  (128 <= cp < 0x200000)%N ->
  uri_escape_all (UTF8_octets cp) = percent_encode (UTF8_octets cp).
Proof.
  intros Hcp. unfold UTF8_octets.
  destruct (cp <? 0x80)%N eqn:H1; [apply N.ltb_lt in H1; lia|]. apply N.ltb_ge in H1.
  destruct (cp <? 0x800)%N eqn:H2; [apply N.ltb_lt in H2|apply N.ltb_ge in H2].
  { cbn [uri_escape_all percent_encode]. rewrite !uri_escape_high by lia. reflexivity. }
  destruct (cp <? 0x10000)%N eqn:H3; [apply N.ltb_lt in H3|apply N.ltb_ge in H3].
  { cbn [uri_escape_all percent_encode]. rewrite !uri_escape_high by lia. reflexivity. }
  cbn [uri_escape_all percent_encode]. rewrite !uri_escape_high by lia. reflexivity.
Qed.

(** [encodeURIComponent] is the escaping of the UTF-8 text of the code
    points of the string. *)
Lemma encodeURIComponent_code_points (s : String16) :
  encodeURIComponent s
  = match code_points s with
    | Some cps => Return (uri_escape_all (UTF8_text cps))
    | None => Throw URIError
    end.
Proof.
  induction s as [|c rest IH IH2] using String16_pair_ind; [reflexivity|].
  cbn [encodeURIComponent code_points].
  destruct (unescaped c) eqn:Hu.
  { destruct (unescaped_spec c Hu) as (_ & Hl & Hcode & Hlow).
    destruct (surrogate_not_low c) as [-> ->]; [lia|].
    rewrite IH. destruct (code_points rest) as [cps|]; [|reflexivity].
    cbn [option_map encoded_after UTF8_text]. rewrite uri_escape_all_app.
    unfold UTF8_octets. apply N.ltb_lt in Hlow. rewrite Hlow.
    rewrite Hcode, ascii_N_embedding. cbn [uri_escape_all]. unfold uri_escape.
    rewrite Hl. reflexivity. }
  destruct (is_trailing_surrogate c) eqn:Ht; [reflexivity|].
  destruct (is_leading_surrogate c) eqn:Hlead.
  { destruct rest as [|d rest']; [reflexivity|].
    destruct (is_trailing_surrogate d) eqn:Hd; [|reflexivity].
    rewrite (IH2 d rest' eq_refl).
    destruct (code_points rest') as [cps|]; [|reflexivity].
    cbn [option_map encoded_after UTF8_text]. rewrite uri_escape_all_app.
    pose proof (surrogate_pair_bound c d Hlead Hd).
    rewrite uri_escape_all_high by lia. reflexivity. }
  rewrite IH. destruct (code_points rest) as [cps|]; [|reflexivity].
  cbn [option_map encoded_after UTF8_text]. rewrite uri_escape_all_app.
  do 2 f_equal. symmetry.
  destruct (N.lt_ge_cases (code c) 128) as [Hlow|Hhigh].
  - destruct (not_unescaped_low c Hu Hlow) as [Ha Hl].
    unfold UTF8_octets. apply N.ltb_lt in Hlow. rewrite Hlow, Ha.
    cbn [uri_escape_all percent_encode]. unfold uri_escape. now rewrite Hl.
  - pose proof (code_bound c). apply uri_escape_all_high. lia.
Qed.

Lemma isWellFormed_code_points (s : String16) :
  isWellFormed s = match code_points s with Some _ => true | None => false end.
Proof.
  induction s as [|c rest IH IH2] using String16_pair_ind; [reflexivity|].
  cbn [isWellFormed code_points].
  destruct (is_trailing_surrogate c); [reflexivity|].
  destruct (is_leading_surrogate c).
  - destruct rest as [|d rest']; [reflexivity|].
    destruct (is_trailing_surrogate d); [|reflexivity].
    rewrite (IH2 d rest' eq_refl). now destruct (code_points rest').
  - rewrite IH. now destruct (code_points rest).
Qed.

(** [encodeURIComponent] throws, a [URIError], exactly when the string is
    not well formed. *)
Lemma encodeURIComponent_throws (s : String16) :
  (isWellFormed s = true -> exists encoded, encodeURIComponent s = Return encoded)
  /\ (isWellFormed s = false -> encodeURIComponent s = Throw URIError).
Proof.
  rewrite isWellFormed_code_points, encodeURIComponent_code_points.
  destruct (code_points s) as [cps|]; split; try discriminate; eauto.
Qed.

Lemma uri_escape_chars (o : ascii) : all_chars uri_output_char (uri_escape o) = true.
Proof. destruct o as [[] [] [] [] [] [] [] []]; vm_compute; reflexivity. Qed.

Lemma uri_escape_all_chars (octets : string) :
  all_chars uri_output_char (uri_escape_all octets) = true.
Proof.
  induction octets as [|o octets IH]; [reflexivity|].
  cbn [uri_escape_all]. now rewrite all_chars_app, uri_escape_chars, IH.
Qed.

Lemma encodeURIComponent_chars (s : String16) (encoded : string) :
  encodeURIComponent s = Return encoded ->
  all_chars uri_output_char encoded = true.
Proof.
  rewrite encodeURIComponent_code_points.
  destruct (code_points s) as [cps|]; [|discriminate].
  intros [= <-]. apply uri_escape_all_chars.
Qed.

Lemma encodeURIComponent_unreserved (s : string) :
  all_chars uri_unreserved s = true -> encodeURIComponent (wide s) = Return s.
Proof.
  induction s as [|c s IH]; [reflexivity|].
  cbn [all_chars]. intros [Hc Hs]%andb_true_iff.
  change (wide (String c s)) with ({| high_octet := zero; low_octet := c |} :: wide s).
  cbn [encodeURIComponent]. unfold unescaped. cbn [high_octet low_octet].
  rewrite Hc. cbn. now rewrite (IH Hs).
Qed.

Lemma uri_decode_first_escape (o : ascii) (rest : string) :
  uri_decode_first (uri_escape o +:+ rest) = Some (o, rest).
Proof. destruct o as [[] [] [] [] [] [] [] []]; vm_compute; reflexivity. Qed.

Lemma uri_escape_all_inj (a b : string) :
  uri_escape_all a = uri_escape_all b -> a = b.
Proof.
  revert b. induction a as [|c a IH]; intros [|d b] H.
  - reflexivity.
  - apply (f_equal uri_decode_first) in H. cbn [uri_escape_all] in H.
    rewrite uri_decode_first_escape in H. discriminate H.
  - apply (f_equal uri_decode_first) in H. cbn [uri_escape_all] in H.
    rewrite uri_decode_first_escape in H. discriminate H.
  - apply (f_equal uri_decode_first) in H. cbn [uri_escape_all] in H.
    rewrite !uri_decode_first_escape in H. injection H as -> H.
    f_equal. now apply IH.
Qed.

Lemma append_cons (c : ascii) (a b : string) : String c a +:+ b = String c (a +:+ b).
Proof. reflexivity. Qed.

Lemma append_nil_l (b : string) : "" +:+ b = b.
Proof. reflexivity. Qed.

Lemma String_inj (c d : ascii) (a b : string) : String c a = String d b -> c = d /\ a = b.
Proof. now intros [= -> ->]. Qed.

(** The UTF-8 encoding is a prefix code. *)
Lemma UTF8_octets_inj (cp1 cp2 : N) (r1 r2 : string) :
  (cp1 < 0x110000)%N -> (cp2 < 0x110000)%N ->
  UTF8_octets cp1 +:+ r1 = UTF8_octets cp2 +:+ r2 -> cp1 = cp2 /\ r1 = r2.
Proof.
  intros H1 H2. unfold UTF8_octets.
  repeat match goal with
  | |- context [(?a <? ?b)%N] => destruct (N.ltb_spec a b)
  end;
  cbv iota; rewrite ?append_cons, ?append_nil_l; intros Heq;
  repeat match type of Heq with
  | String _ _ = String _ _ =>
      let E := fresh "E" in
      apply String_inj in Heq as [E Heq]; apply ascii_of_N_inj in E; [|lia..]
  end;
  try (exfalso; lia);
  (split; [lia|exact Heq]).
Qed.

Lemma UTF8_octets_nonempty (cp : N) : UTF8_octets cp <> "".
Proof.
  unfold UTF8_octets.
  repeat match goal with
  | |- context [(?a <? ?b)%N] => destruct (a <? b)%N
  end; discriminate.
Qed.

Lemma UTF8_text_inj (cps1 cps2 : list N) :
  Forall (fun cp => cp < 0x110000)%N cps1 ->
  Forall (fun cp => cp < 0x110000)%N cps2 ->
  UTF8_text cps1 = UTF8_text cps2 -> cps1 = cps2.
Proof.
  intros H1. revert cps2. induction H1 as [|cp1 cps1 Hcp1 H1 IH]; intros cps2 H2 H.
  - destruct H2 as [|cp2 cps2 Hcp2 H2]; [reflexivity|].
    cbn [UTF8_text] in H. pose proof (UTF8_octets_nonempty cp2) as Hne.
    destruct (UTF8_octets cp2); [contradiction|discriminate].
  - destruct H2 as [|cp2 cps2 Hcp2 H2].
    + cbn [UTF8_text] in H. pose proof (UTF8_octets_nonempty cp1) as Hne.
      destruct (UTF8_octets cp1); [contradiction|discriminate].
    + cbn [UTF8_text] in H.
      destruct (UTF8_octets_inj _ _ _ _ Hcp1 Hcp2 H) as [-> Hrest].
      f_equal. now apply IH.
Qed.

Lemma code_points_bound (s : String16) (cps : list N) :
  code_points s = Some cps -> Forall (fun cp => cp < 0x110000)%N cps.
Proof.
  revert cps. induction s as [|c rest IH IH2] using String16_pair_ind; intros cps.
  - intros [= <-]. constructor.
  - cbn [code_points].
    destruct (is_trailing_surrogate c); [discriminate|].
    destruct (is_leading_surrogate c) eqn:Hlead.
    + destruct rest as [|d rest']; [discriminate|].
      destruct (is_trailing_surrogate d) eqn:Hd; [|discriminate].
      destruct (code_points rest') as [cps'|] eqn:Hrest; [|discriminate].
      intros [= <-]. constructor.
      * pose proof (surrogate_pair_bound c d Hlead Hd). lia.
      * now apply (IH2 d rest').
    + destruct (code_points rest) as [cps'|] eqn:Hrest; [|discriminate].
      intros [= <-]. constructor.
      * pose proof (code_bound c). lia.
      * now apply IH.
Qed.

(** What [code_points] reads first: one code unit that is no surrogate,
    or the two of a pair. *)
Lemma code_points_cons (s : String16) (cp : N) (cps : list N) :
  code_points s = Some (cp :: cps) ->
  (exists c rest,
      s = c :: rest /\ cp = code c /\ (code c < 0xD800 \/ 0xDFFF < code c)%N
      /\ code_points rest = Some cps)
  \/ (exists c d rest,
        s = c :: d :: rest /\ cp = surrogate_pair_code_point c d
        /\ is_leading_surrogate c = true /\ is_trailing_surrogate d = true
        /\ code_points rest = Some cps).
Proof.
  destruct s as [|c rest]; [discriminate|]. cbn [code_points].
  destruct (is_trailing_surrogate c) eqn:Ht; [discriminate|].
  destruct (is_leading_surrogate c) eqn:Hlead.
  - destruct rest as [|d rest']; [discriminate|].
    destruct (is_trailing_surrogate d) eqn:Hd; [|discriminate].
    destruct (code_points rest') as [cps'|] eqn:Hrest; [|discriminate].
    intros [= <- <-]. right. now exists c, d, rest'.
  - destruct (code_points rest) as [cps'|] eqn:Hrest; [|discriminate].
    intros [= <- <-]. left. exists c, rest.
    split; [reflexivity|]. split; [reflexivity|]. split; [|exact Hrest].
    unfold is_trailing_surrogate, is_leading_surrogate in *.
    apply andb_false_iff in Ht, Hlead.
    rewrite !N.leb_gt in Ht, Hlead. lia.
Qed.

Lemma code_points_nil (s : String16) : code_points s = Some [] -> s = [].
Proof.
  destruct s as [|c rest]; [reflexivity|]. cbn [code_points].
  destruct (is_trailing_surrogate c); [discriminate|].
  destruct (is_leading_surrogate c).
  - destruct rest as [|d rest']; [discriminate|].
    destruct (is_trailing_surrogate d); [|discriminate].
    destruct (code_points rest'); discriminate.
  - destruct (code_points rest); discriminate.
Qed.

Lemma surrogate_pair_inj (c d c' d' : CodeUnit) :
  is_leading_surrogate c = true -> is_trailing_surrogate d = true ->
  is_leading_surrogate c' = true -> is_trailing_surrogate d' = true ->
  surrogate_pair_code_point c d = surrogate_pair_code_point c' d' ->
  c = c' /\ d = d'.
Proof.
  unfold is_leading_surrogate, is_trailing_surrogate, surrogate_pair_code_point.
  intros [A1 A2]%andb_true_iff [B1 B2]%andb_true_iff
         [C1 C2]%andb_true_iff [D1 D2]%andb_true_iff H.
  apply N.leb_le in A1, A2, B1, B2, C1, C2, D1, D2.
  split; apply code_inj; lia.
Qed.

Lemma code_points_inj (cps : list N) (a b : String16) :
  code_points a = Some cps -> code_points b = Some cps -> a = b.
Proof.
  revert a b. induction cps as [|cp cps IH]; intros a b Ha Hb.
  - apply code_points_nil in Ha, Hb. congruence.
  - destruct (code_points_cons a cp cps Ha)
      as [(c & ra & -> & Hc & Hrange & Hra)|(c & d & ra & -> & Hc & Hlc & Htd & Hra)];
    destruct (code_points_cons b cp cps Hb)
      as [(c' & rb & -> & Hc' & Hrange' & Hrb)|(c' & d' & rb & -> & Hc' & Hlc' & Htd' & Hrb)].
    + f_equal; [apply code_inj; congruence|now apply IH].
    + pose proof (surrogate_pair_bound c' d' Hlc' Htd'). pose proof (code_bound c). lia.
    + pose proof (surrogate_pair_bound c d Hlc Htd). pose proof (code_bound c'). lia.
    + destruct (surrogate_pair_inj c d c' d' Hlc Htd Hlc' Htd') as [-> ->]; [congruence|].
      do 2 f_equal. now apply IH.
Qed.

(** Two strings with the same encoding are the same string. *)
Lemma encodeURIComponent_inj (a b : String16) (encoded : string) :
  encodeURIComponent a = Return encoded ->
  encodeURIComponent b = Return encoded -> a = b.
Proof.
  rewrite !encodeURIComponent_code_points.
  destruct (code_points a) as [cpsa|] eqn:Ha; [|discriminate].
  destruct (code_points b) as [cpsb|] eqn:Hb; [|discriminate].
  intros [= <-] [= H]. apply uri_escape_all_inj in H.
  apply UTF8_text_inj in H;
    [|now apply (code_points_bound b)|now apply (code_points_bound a)].
  subst cpsb. exact (code_points_inj cpsa a b Ha Hb).
Qed.

(** ** Properties of the file-upload client *)

Section FileUploadProperties.

Context {X509 Response Transport : Type}.
Variable apiVersion : string.
Variable packageJson : PackageJson.

Implicit Types (w : @World X509 Response Transport).
Implicit Types (this : @FileUploadApi Transport).
Implicit Types (auth : Nullable (@Auth X509)).
Implicit Types (x509Opts : Nullable X509) (resp : Nullable Response).
Implicit Types (httpTransport : Nullable Transport).
Implicit Types (ev : @Event X509 Transport) (tr : list (@Event X509 Transport)).
Implicit Types (correlationId : Nullable String16).

Lemma send_run this path headers x509Opts callback body w :
  send this path headers x509Opts callback body w =
    (Return tt,
     {| store := store w;
        trace := trace w ++
          [buildRequest (http this) "POST" path headers (hostname this) x509Opts callback;
           write body; req_end] |}).
Proof.
  unfold send, bind, emit. simpl.
  now rewrite <- !(assoc_L (++)).
Qed.

Lemma issued_app w (st : gmap loc (@ErrorObject Response)) tr :
  issued w {| store := st; trace := trace w ++ tr |} = tr.
Proof. unfold issued. simpl. now rewrite drop_app_length. Qed.

Lemma issued_refl w : issued w w = [].
Proof. unfold issued. now rewrite drop_all. Qed.

Lemma truthy_string_nonempty (v : Nullable string) :
  truthy v = true <-> exists s, v = value s /\ s <> "".
Proof.
  split.
  - destruct v as [| |[|c s]]; simpl; try discriminate.
    intros _. exists (String c s). split; [reflexivity|discriminate].
  - intros (s & -> & Hs). destruct s; [contradiction|reflexivity].
Qed.

Lemma truthy_String16_nonempty (v : Nullable String16) :
  truthy v = true <-> exists c, v = value c /\ c <> [].
Proof.
  split.
  - destruct v as [| |[|u c]]; simpl; try discriminate.
    intros _. exists (u :: c). split; [reflexivity|discriminate].
  - intros (c & -> & Hc). destruct c; [contradiction|reflexivity].
Qed.

Lemma bind_lift {A B : Type} (o : Outcome A)
    (k : A -> @Exec X509 Response Transport B) w :
  bind (lift o) k w = match o with
                      | Return a => k a w
                      | Throw e => (Throw e, w)
                      end.
Proof. unfold bind, lift. now destruct o. Qed.

(** What the constructor returns holds two non-empty strings. *)
Lemma constructor_fields (d h : Nullable string) httpTransport api :
  constructor d h httpTransport = Return api ->
  exists ds hs,
    deviceId api = value ds /\ ds <> "" /\ hostname api = value hs /\ hs <> "".
Proof.
  unfold constructor.
  destruct (truthy d) eqn:Hd; cbn [negb]; [|discriminate].
  destruct (truthy h) eqn:Hh; cbn [negb]; [|discriminate].
  intros [= <-]. cbn [deviceId hostname].
  apply truthy_string_nonempty in Hd as (ds & -> & Hds).
  apply truthy_string_nonempty in Hh as (hs & -> & Hhs).
  now exists ds, hs.
Qed.

(** The two ways a credential request goes: a missing argument, or the
    request with the headers the source lists. *)
Lemma getBlobSharedAccessSignature_cases this blobName auth done w :
  (exists msg,
      getBlobSharedAccessSignature apiVersion packageJson this blobName auth done w
      = (Throw (ReferenceError msg), w)
      /\ (truthy blobName = false \/ truthy auth = false)
      /\ In msg ["blobName cannot be '" +:+ ToString blobName +:+ "'";
                 "auth cannot be '" +:+ ToString auth +:+ "'"])
  \/ (exists body headers,
        truthy blobName = true /\ truthy auth = true
        /\ JSON_stringify (JsObject [("blobName", inject blobName)]) = Some body
        /\ headers =
             [("Host", inject (hostname this));
              ("Accept", JsString "application/json");
              ("Content-Type", JsString "application/json");
              ("Content-Length", JsNumber (integer (Z.of_nat (String.length body))));
              ("User-Agent", JsString (name packageJson +:+ "/" +:+ version packageJson))]
        /\ getBlobSharedAccessSignature apiVersion packageJson this blobName auth done w
           = send this (devicePath (deviceId this) +:+ "/files" +:+ versionQueryString apiVersion)
               (select_auth auth headers).1 (select_auth auth headers).2
               (onBlobSasResponse done) body w).
Proof.
  unfold getBlobSharedAccessSignature.
  destruct (truthy blobName) eqn:Hb; cbn [negb].
  2:{ left. eexists. split; [reflexivity|]. split; [now left|now left]. }
  destruct (truthy auth) eqn:Ha; cbn [negb].
  2:{ left. eexists. split; [reflexivity|]. split; [now right|right; now left]. }
  right. cbn [JSON_stringify]. do 2 eexists.
  split; [reflexivity|]. split; [reflexivity|]. split; [reflexivity|].
  split; [reflexivity|].
  now destruct (select_auth auth _).
Qed.

(** The four ways a notification goes: a missing argument, a correlation
    identifier with a surrogate that is not paired, a hostname that is no
    string, or the request with the headers the source lists. *)
Lemma notifyUploadComplete_cases this correlationId auth uploadResult done w :
  (exists msg,
      notifyUploadComplete apiVersion packageJson this correlationId auth uploadResult done w
      = (Throw (ReferenceError msg), w)
      /\ (truthy correlationId = false \/ truthy auth = false
          \/ truthy uploadResult = false)
      /\ In msg ["correlationId cannot be '" +:+ ToString correlationId +:+ "'";
                 "auth cannot be '" +:+ ToString auth +:+ "'";
                 "uploadResult cannot be '" +:+ ToString uploadResult +:+ "'"])
  \/ (exists c,
        correlationId = value c /\ c <> [] /\ truthy auth = true
        /\ truthy uploadResult = true
        /\ isWellFormed c = false
        /\ notifyUploadComplete apiVersion packageJson this correlationId auth uploadResult done w
           = (Throw URIError, w))
  \/ (truthy correlationId = true /\ truthy auth = true
      /\ truthy uploadResult = true
      /\ (forall h, hostname this <> value h)
      /\ notifyUploadComplete apiVersion packageJson this correlationId auth uploadResult done w
         = (Throw TypeError, w))
  \/ (exists c encoded h props body headers,
        correlationId = value c /\ c <> [] /\ isWellFormed c = true
        /\ encodeURIComponent c = Return encoded
        /\ truthy auth = true
        /\ hostname this = value h /\ uploadResult = value props
        /\ JSON_stringify (JsObject props) = Some body
        /\ headers =
             [("Host", JsString h);
              ("User-Agent", JsString (name packageJson +:+ "/" +:+ version packageJson));
              ("Content-Type", JsString "application/json; charset=utf-8");
              ("Content-Length", JsNumber (integer (Z.of_nat (String.length body))));
              ("iothub-name",
               match split "." h with
               | label :: _ => JsString label
               | [] => JsUndefined
               end)]
        /\ notifyUploadComplete apiVersion packageJson this correlationId auth uploadResult done w
           = send this
               (devicePath (deviceId this) +:+ "/files/notifications/"
                +:+ encoded +:+ versionQueryString apiVersion)
               (select_auth auth headers).1 (select_auth auth headers).2
               (onNotifyResponse done) body w).
Proof.
  unfold notifyUploadComplete.
  destruct (truthy correlationId) eqn:Hc; cbn [negb].
  2:{ left. eexists. split; [reflexivity|]. split; [now left|now left]. }
  destruct (truthy auth) eqn:Ha; cbn [negb].
  2:{ left. eexists. split; [reflexivity|].
      split; [right; now left|right; now left]. }
  destruct (truthy uploadResult) eqn:Hu; cbn [negb].
  2:{ left. eexists. split; [reflexivity|].
      split; [right; now right|right; right; now left]. }
  right.
  pose proof Hc as Htruthy.
  apply truthy_String16_nonempty in Hc as (c & -> & Hne).
  cbn [ToString16]. rewrite bind_lift.
  destruct (encodeURIComponent_throws c) as [Hok Hbad].
  destruct (isWellFormed c) eqn:Hwf.
  2:{ left. exists c. rewrite (Hbad eq_refl). now repeat split. }
  destruct (Hok eq_refl) as [encoded Henc]. rewrite Henc. right.
  destruct uploadResult as [| |props]; try discriminate Hu.
  cbn [JSON_stringify].
  destruct (hostname this) as [| |h] eqn:Hh.
  1,2: left; repeat split; try reflexivity; try assumption; intros h; discriminate.
  right. exists c, encoded, h, props. do 2 eexists.
  split; [reflexivity|]. split; [exact Hne|]. split; [exact Hwf|].
  split; [exact Henc|]. split; [reflexivity|]. split; [reflexivity|].
  split; [reflexivity|]. split; [reflexivity|]. split; [reflexivity|].
  unfold hub_name, bind, ret. cbn [inject].
  now destruct (select_auth auth _).
Qed.

Lemma In_issued_send this path headers x509Opts callback body w r w' e :
  send this path headers x509Opts callback body w = (r, w') ->
  In e (issued w w') ->
  e = buildRequest (http this) "POST" path headers (hostname this) x509Opts callback
  \/ e = write body \/ e = req_end.
Proof.
  rewrite send_run. intros [= <- <-]. rewrite issued_app.
  simpl. intuition auto.
Qed.

Lemma select_auth_spec auth (headers : list (string * JsValue)) :
  get_prop "Authorization" headers = None ->
  truthy auth = true ->
  carries_auth auth (select_auth auth headers).1 (select_auth auth headers).2.
Proof.
  intros Hnone Ht. destruct auth as [| |[sas|cert]]; try discriminate Ht.
  - split; [|reflexivity]. cbn [select_auth fst]. clear Ht.
    induction headers as [|[k v] rest IH]; simpl in *.
    + reflexivity.
    + destruct (String.eqb k "Authorization") eqn:Hk; [discriminate|].
      simpl. rewrite Hk. now apply IH.
  - now split.
Qed.

(** C1. A call of either operation that passes validation, and for the
    notification gets as far as the request, returns after it has passed
    one request to the transport, and that request carries [auth]: with a
    string for [auth], its headers hold [Authorization] with that string
    and its certificate options are [null]; with a certificate object, its
    headers hold no [Authorization] and its certificate options are that
    object. No call of either operation, with whatever arguments, passes a
    request to the transport that does not carry its [auth]. *)
Theorem auth_selects_header_or_certificate
    this (h b : string) (c : String16) (props : BlobUploadResult) auth done w :
  (b <> "" -> truthy auth = true ->
   exists path headers x509Opts body,
     getBlobSharedAccessSignature apiVersion packageJson this (value b) auth done w
     = (Return tt,
        {| store := store w;
           trace := trace w ++
             [buildRequest (http this) "POST" path headers (hostname this) x509Opts
                (onBlobSasResponse done);
              write body; req_end] |})
     /\ carries_auth auth headers x509Opts)
  /\ (hostname this = value h -> c <> [] -> isWellFormed c = true ->
      truthy auth = true ->
      exists path headers x509Opts body,
        notifyUploadComplete apiVersion packageJson this (value c) auth (value props)
          done w
        = (Return tt,
           {| store := store w;
              trace := trace w ++
                [buildRequest (http this) "POST" path headers (hostname this) x509Opts
                   (onNotifyResponse done);
                 write body; req_end] |})
        /\ carries_auth auth headers x509Opts)
  /\ (forall blobName correlationId uploadResult r w'
             transport method path headers host x509Opts callback,
        getBlobSharedAccessSignature apiVersion packageJson this blobName auth done w
        = (r, w')
        \/ notifyUploadComplete apiVersion packageJson this correlationId auth
             uploadResult done w = (r, w') ->
        In (buildRequest transport method path headers host x509Opts callback)
           (issued w w') ->
        carries_auth auth headers x509Opts).
Proof.
  split; [|split].
  - intros Hb Ha.
    destruct (getBlobSharedAccessSignature_cases this (value b) auth done w)
      as [(msg & _ & [Hf|Hf] & _)|(body & hs & _ & _ & _ & Hhs & Heq)].
    + destruct b; [contradiction|discriminate].
    + congruence.
    + exists (devicePath (deviceId this) +:+ "/files" +:+ versionQueryString apiVersion),
        (select_auth auth hs).1, (select_auth auth hs).2, body.
      split; [now rewrite Heq, send_run|].
      apply select_auth_spec; [now subst hs|exact Ha].
  - intros Hh Hc Hwf Ha.
    destruct (notifyUploadComplete_cases this (value c) auth (value props) done w)
      as [(msg & _ & [Hf|[Hf|Hf]] & _)
         |[(c' & [= <-] & _ & _ & _ & Hbad & _)
          |[(_ & _ & _ & Hno & _)
           |(c' & encoded & h' & props' & body & hs & _ & _ & _ & _ & _ & _ & _ & _
             & Hhs & Heq)]]].
    + destruct c; [contradiction|discriminate].
    + congruence.
    + discriminate.
    + congruence.
    + now destruct (Hno h).
    + exists (devicePath (deviceId this) +:+ "/files/notifications/" +:+ encoded
              +:+ versionQueryString apiVersion),
        (select_auth auth hs).1, (select_auth auth hs).2, body.
      split; [now rewrite Heq, send_run|].
      apply select_auth_spec; [now subst hs|exact Ha].
  - intros blobName correlationId uploadResult r w'
      transport method path headers host x509Opts callback Hrun Hin.
    destruct Hrun as [Hrun|Hrun].
    + destruct (getBlobSharedAccessSignature_cases this blobName auth done w)
        as [(msg & Heq & _)|(body & hs & _ & Ha & _ & Hhs & Heq)];
        rewrite Heq in Hrun.
      * injection Hrun as <- <-. rewrite issued_refl in Hin. destruct Hin.
      * destruct (In_issued_send _ _ _ _ _ _ _ _ _ _ Hrun Hin) as [E|[E|E]];
          try discriminate E.
        injection E as -> -> -> -> -> -> ->.
        apply select_auth_spec; [now subst hs|exact Ha].
    + destruct (notifyUploadComplete_cases this correlationId auth uploadResult done w)
        as [(msg & Heq & _)
           |[(c' & _ & _ & _ & _ & _ & Heq)
            |[(_ & _ & _ & _ & Heq)
             |(c' & encoded & h' & props' & body & hs & _ & _ & _ & _ & Ha & _ & _ & _
               & Hhs & Heq)]]];
        rewrite Heq in Hrun.
      * injection Hrun as <- <-. rewrite issued_refl in Hin. destruct Hin.
      * injection Hrun as <- <-. rewrite issued_refl in Hin. destruct Hin.
      * injection Hrun as <- <-. rewrite issued_refl in Hin. destruct Hin.
      * destruct (In_issued_send _ _ _ _ _ _ _ _ _ _ Hrun Hin) as [E|[E|E]];
          try discriminate E.
        injection E as -> -> -> -> -> -> ->.
        apply select_auth_spec; [now subst hs|exact Ha].
Qed.

Lemma split_first_label (sep : ascii) (s : string) :
  exists label others rest,
    split sep s = label :: others
    /\ s = label +:+ rest
    /\ occurs sep label = false
    /\ (rest = "" \/ exists r, rest = String sep r).
Proof.
  induction s as [|c s (label & others & rest & Hs & Heq & Hocc & Hrest)].
  - exists "", [], "". repeat split; auto.
  - cbn [split]. destruct (Ascii.eqb c sep) eqn:Hc.
    + apply Ascii.eqb_eq in Hc as ->.
      exists "", (split sep s), (String sep s). repeat split; eauto.
    + rewrite Hs. exists (String c label), others, rest.
      split; [reflexivity|]. split; [now rewrite Heq|].
      split; [|exact Hrest]. cbn [occurs]. now rewrite Hc, Hocc.
Qed.

(** C6. With a required argument missing each operation throws a
    [ReferenceError] that names the argument, and leaves the world as it
    was: nothing was passed to the transport and nothing was called. *)
Theorem missing_argument_throws
    this blobName correlationId auth uploadResult done w :
  (truthy blobName = false \/ truthy auth = false ->
   exists msg,
     getBlobSharedAccessSignature apiVersion packageJson this blobName auth done w
     = (Throw (ReferenceError msg), w)
     /\ In msg ["blobName cannot be '" +:+ ToString blobName +:+ "'";
                "auth cannot be '" +:+ ToString auth +:+ "'"])
  /\ (truthy correlationId = false \/ truthy auth = false
      \/ truthy uploadResult = false ->
      exists msg,
        notifyUploadComplete apiVersion packageJson this correlationId auth uploadResult done w
        = (Throw (ReferenceError msg), w)
        /\ In msg ["correlationId cannot be '" +:+ ToString correlationId +:+ "'";
                   "auth cannot be '" +:+ ToString auth +:+ "'";
                   "uploadResult cannot be '" +:+ ToString uploadResult +:+ "'"]).
Proof.
  split; intros Hmissing.
  - destruct (getBlobSharedAccessSignature_cases this blobName auth done w)
      as [(msg & Heq & _ & Hmsg)|(body & hs & Hb & Ha & _)].
    + now exists msg.
    + destruct Hmissing; congruence.
  - destruct (notifyUploadComplete_cases this correlationId auth uploadResult done w)
      as [(msg & Heq & _ & Hmsg)
         |[(c & -> & Hne & Ha & Hu & _)
          |[(Hc & Ha & Hu & _)
           |(c & encoded & h & props & body & hs & -> & Hne & _ & _ & Ha & _ & -> & _)]]].
    + now exists msg.
    + destruct Hmissing as [Hf|[|]]; try congruence.
      destruct c; [contradiction|discriminate].
    + destruct Hmissing as [|[|]]; congruence.
    + destruct Hmissing as [Hf|[|]]; try congruence; try discriminate.
      destruct c; [contradiction|discriminate].
Qed.

(** C7. The constructor throws a [ReferenceError] when the device
    identifier or the hostname is missing or empty; otherwise it returns
    an instance that holds the two values as given, with the injected
    transport when one is given and the default transport when none is. *)
Theorem constructor_validates (d h : Nullable string) httpTransport :
  (truthy d = false \/ truthy h = false ->
   exists msg,
     constructor d h httpTransport = Throw (ReferenceError msg)
     /\ In msg ["deviceId cannot be '" +:+ ToString d +:+ "'";
                "hostname cannot be '" +:+ ToString h +:+ "'"])
  /\ (truthy d = true -> truthy h = true ->
      exists api,
        constructor d h httpTransport = Return api
        /\ deviceId api = d /\ hostname api = h
        /\ (forall transport, httpTransport = value transport ->
                              http api = Injected transport)
        /\ (httpTransport = undefined \/ httpTransport = null ->
            http api = DefaultHttpTransport)).
Proof.
  unfold constructor. split.
  - intros Hmissing. destruct (truthy d) eqn:Hd; cbn [negb].
    + destruct (truthy h) eqn:Hh; cbn [negb].
      * destruct Hmissing; discriminate.
      * eexists. split; [reflexivity|]. right. now left.
    + eexists. split; [reflexivity|]. now left.
  - intros -> ->. cbn [negb]. eexists. split; [reflexivity|].
    cbn [deviceId hostname http]. repeat split.
    + now intros transport ->.
    + now intros [-> | ->].
Qed.

(** C2. With a non-empty blob name and an [auth], the credential request
    is one POST to [/devices/<deviceId>/files?api-version=<api-version>]
    whose body, written to the request, is the JSON text of
    [{blobName: blobName}], with the headers Host, Accept, Content-Type,
    Content-Length and User-Agent as the source sets them. *)
Theorem getBlobSharedAccessSignature_request
    this (b : string) auth done w :
  b <> "" -> truthy auth = true ->
  exists body headers x509Opts,
    JSON_stringify (JsObject [("blobName", JsString b)]) = Some body
    /\ body = "{" +:+ JSON_quote "blobName" +:+ ":" +:+ JSON_quote b +:+ "}"
    /\ getBlobSharedAccessSignature apiVersion packageJson this (value b) auth done w
       = (Return tt,
          {| store := store w;
             trace := trace w ++
               [buildRequest (http this) "POST"
                  ("/devices/" +:+ ToString (deviceId this)
                   +:+ "/files?api-version=" +:+ apiVersion)
                  headers (hostname this) x509Opts (onBlobSasResponse done);
                write body; req_end] |})
    /\ get_prop "Host" headers = Some (inject (hostname this))
    /\ get_prop "Accept" headers = Some (JsString "application/json")
    /\ get_prop "Content-Type" headers = Some (JsString "application/json")
    /\ get_prop "Content-Length" headers
       = Some (JsNumber (integer (Z.of_nat (String.length body))))
    /\ get_prop "User-Agent" headers
       = Some (JsString (name packageJson +:+ "/" +:+ version packageJson)).
Proof.
  intros Hb Ha.
  destruct (getBlobSharedAccessSignature_cases this (value b) auth done w)
    as [(msg & _ & [Hf|Hf] & _)|(body & hs & _ & _ & Hbody & Hhs & Heq)].
  - destruct b; [contradiction|discriminate].
  - congruence.
  - exists body, (select_auth auth hs).1, (select_auth auth hs).2.
    split; [exact Hbody|]. split.
    { cbn [JSON_stringify inject flat_map snd fst] in Hbody.
      now injection Hbody as <-. }
    split.
    { rewrite Heq, send_run. unfold devicePath, versionQueryString.
      now rewrite append_assoc. }
    subst hs. destruct auth as [| |[sas|cert]]; repeat split; reflexivity.
Qed.

(** C3, as amended. With a non-empty correlation identifier, an [auth]
    and an upload result, on an instance whose hostname is the string [h]:
    when every surrogate of the correlation identifier is one of a pair,
    the notification is one POST to
    [/devices/<deviceId>/files/notifications/<encoded correlationId>?api-version=<api-version>]
    whose body, written to the request, is the JSON text of the upload
    result; the encoded identifier holds unreserved characters and
    percent escapes only, so no [/]; the header [iothub-name] is the part
    of [h] before its first dot. When a surrogate of the correlation
    identifier is not paired, the notification throws the [URIError] of
    [encodeURIComponent] and passes nothing to the transport. *)
Theorem notifyUploadComplete_request
    this (h : string) (c : String16) auth (props : BlobUploadResult) done w :
  hostname this = value h ->
  c <> [] -> truthy auth = true ->
  (isWellFormed c = true ->
   exists encoded body headers x509Opts label rest,
     encodeURIComponent c = Return encoded
     /\ JSON_stringify (JsObject props) = Some body
     /\ notifyUploadComplete apiVersion packageJson this (value c) auth (value props) done w
        = (Return tt,
           {| store := store w;
              trace := trace w ++
                [buildRequest (http this) "POST"
                   ("/devices/" +:+ ToString (deviceId this)
                    +:+ "/files/notifications/" +:+ encoded
                    +:+ "?api-version=" +:+ apiVersion)
                   headers (value h) x509Opts (onNotifyResponse done);
                 write body; req_end] |})
     /\ all_chars uri_output_char encoded = true
     /\ occurs "/" encoded = false
     /\ get_prop "iothub-name" headers = Some (JsString label)
     /\ h = label +:+ rest
     /\ occurs "." label = false
     /\ (rest = "" \/ exists r, rest = String "." r))
  /\ (isWellFormed c = false ->
      notifyUploadComplete apiVersion packageJson this (value c) auth (value props) done w
      = (Throw URIError, w)).
Proof.
  intros Hh Hc Ha.
  destruct (notifyUploadComplete_cases this (value c) auth (value props) done w)
    as [(msg & _ & [Hf|[Hf|Hf]] & _)
       |[(c' & [= <-] & _ & _ & _ & Hbad & Heq)
        |[(_ & _ & _ & Hno & _)
         |(c' & encoded & h' & props' & body & hs & [= <-] & _ & Hwf & Henc & _ & Hh'
           & Hp & Hbody & Hhs & Heq)]]].
  - destruct c; [contradiction|discriminate].
  - congruence.
  - discriminate.
  - split; [congruence|now intros _].
  - now destruct (Hno h).
  - split; [intros _|congruence].
    rewrite Hh in Hh'. injection Hh' as <-. injection Hp as <-.
    destruct (split_first_label "." h)
      as (label & others & rest & Hsplit & Heqh & Hocc & Hrest).
    exists encoded, body, (select_auth auth hs).1, (select_auth auth hs).2, label, rest.
    split; [exact Henc|]. split; [exact Hbody|]. split.
    { rewrite Heq, send_run, Hh. unfold devicePath, versionQueryString.
      now rewrite append_assoc. }
    split; [exact (encodeURIComponent_chars c encoded Henc)|].
    split.
    { apply (all_chars_occurs uri_output_char);
        [exact (encodeURIComponent_chars c encoded Henc)|reflexivity]. }
    split; [|now repeat split].
    subst hs. rewrite Hsplit.
    destruct auth as [| |[sas|cert]]; reflexivity.
Qed.

Lemma calls_snoc (f : Fn) tr (args : list Argument) :
  calls f (tr ++ [call f args]) = S (calls f tr).
Proof.
  unfold calls. rewrite List.filter_app, List.length_app.
  cbn. rewrite Nat.eqb_refl. cbn. lia.
Qed.

Lemma calls_send f this path headers x509Opts callback body w r w' :
  send this path headers x509Opts callback body w = (r, w') ->
  r = Return tt
  /\ calls f (trace w') = calls f (trace w)
  /\ issued w w'
     = [buildRequest (http this) "POST" path headers (hostname this) x509Opts callback;
        write body; req_end].
Proof.
  rewrite send_run. intros [= <- <-]. rewrite issued_app. cbn [trace].
  repeat split. unfold calls.
  rewrite List.filter_app, List.length_app. cbn. lia.
Qed.

(** C4. The completion callback of the credential request, on an error:
    the response body and the response are set on that error object, and
    [done] is called with it; with no error and a body that is a JSON
    text: [done] is called with [null] and the decoded value. The
    completion callback of the notification calls [done] with the error,
    or with no argument when there is none. *)
Theorem completion_reaches_callback
    (f : Fn) (body : Nullable string) resp w :
  (forall e obj,
      store w !! e = Some obj ->
      exists w',
        complete_request (onBlobSasResponse (value f)) (value e) body resp w
        = (Return tt, w')
        /\ trace w' = trace w ++ [call f [ArgError e]]
        /\ store w' !! e
           = Some {| message := message obj;
                     responseBody := Some body;
                     response := Some resp |}
        /\ forall e', e' <> e -> store w' !! e' = store w !! e')
  /\ (forall err result,
        err = undefined \/ err = null ->
        JSON_parse (ToString body) = Some result ->
        complete_request (onBlobSasResponse (value f)) err body resp w
        = (Return tt,
           {| store := store w;
              trace := trace w ++ [call f [ArgNull; ArgResult result]] |}))
  /\ (forall e,
        complete_request (onNotifyResponse (value f)) (value e) body resp w
        = (Return tt,
           {| store := store w; trace := trace w ++ [call f [ArgError e]] |}))
  /\ (forall err,
        err = undefined \/ err = null ->
        complete_request (onNotifyResponse (value f)) err body resp w
        = (Return tt, {| store := store w; trace := trace w ++ [call f []] |})).
Proof.
  split; [|split; [|split]].
  - intros e obj Hobj. eexists. split; [reflexivity|].
    cbn [trace store]. split; [reflexivity|]. split.
    + now rewrite !lookup_alter_eq, Hobj.
    + intros e' Hne. now rewrite !lookup_alter_ne by congruence.
  - intros err result [-> | ->] Hparse; cbn [complete_request blobSasResponse];
      now rewrite Hparse.
  - reflexivity.
  - now intros err [-> | ->].
Qed.

(** C8. Some response body is no JSON text, and when the transport
    completes without an error and with such a body, the completion
    callback of the credential request throws the [SyntaxError] of
    [JSON.parse]: [done] is not called, with an error or otherwise. *)
Theorem malformed_json_throws :
  exists body : string,
    JSON_parse body = None
    /\ forall done resp w,
        complete_request (onBlobSasResponse done) undefined (value body) resp w
        = (Throw SyntaxError, w)
        /\ complete_request (onBlobSasResponse done) null (value body) resp w
           = (Throw SyntaxError, w).
Proof.
  exists "<html>Bad Gateway</html>". split; [reflexivity|].
  intros done resp w. split; reflexivity.
Qed.

(** C10. A call of [notifyUploadComplete] with the callback left out
    hands the transport a completion callback that throws a [TypeError]
    whenever the transport completes, with an error or without; the
    world stays as it was. *)
Theorem omitted_callback_throws
    this correlationId auth uploadResult w r w' :
  notifyUploadComplete apiVersion packageJson this correlationId auth uploadResult undefined w = (r, w') ->
  forall transport method path headers host x509Opts callback,
    In (buildRequest transport method path headers host x509Opts callback)
       (issued w w') ->
    callback = onNotifyResponse undefined
    /\ forall err body resp w1,
        complete_request callback err body resp w1 = (Throw TypeError, w1).
Proof.
  intros Hrun transport method path headers host x509Opts callback Hin.
  destruct (notifyUploadComplete_cases this correlationId auth uploadResult undefined w)
    as [(msg & Heq & _)
       |[(c & _ & _ & _ & _ & _ & Heq)
        |[(_ & _ & _ & _ & Heq)
         |(c & encoded & h & props & body & hs & _ & _ & _ & _ & _ & _ & _ & _ & _ & Heq)]]];
    rewrite Heq in Hrun.
  - injection Hrun as <- <-. rewrite issued_refl in Hin. destruct Hin.
  - injection Hrun as <- <-. rewrite issued_refl in Hin. destruct Hin.
  - injection Hrun as <- <-. rewrite issued_refl in Hin. destruct Hin.
  - destruct (In_issued_send _ _ _ _ _ _ _ _ _ _ Hrun Hin) as [E|[E|E]];
      try discriminate E.
    injection E as -> -> -> -> -> -> ->.
    split; [reflexivity|]. now intros [| |e] rbody resp w1.
Qed.

(** C9, as amended. A call of [getBlobSharedAccessSignature] that passes
    validation, with the callback [f], returns without calling [f], after
    it has passed to the transport one request, whose completion callback
    is its own, closed over [f]. Whenever the transport calls that
    completion callback, [f] is called exactly once if the transport
    reports an error or the response body is a JSON text; with no error
    and a body that is no JSON text the completion callback throws the
    [SyntaxError] and [f] is not called. The same holds of a call of
    [notifyUploadComplete] that passes validation, on an instance whose
    hostname is a string and with a correlation identifier whose
    surrogates are paired, and there every call of the completion callback
    calls [f] exactly once. *)
Theorem callback_once_after_completion
    this (h b : string) (c : String16) (props : BlobUploadResult) auth (f : Fn) w :
  truthy auth = true ->
  (b <> "" ->
   exists path headers x509Opts body w1,
     getBlobSharedAccessSignature apiVersion packageJson this (value b) auth (value f) w
     = (Return tt, w1)
     /\ issued w w1
        = [buildRequest (http this) "POST" path headers (hostname this) x509Opts
             (onBlobSasResponse (value f));
           write body; req_end]
     /\ calls f (trace w1) = calls f (trace w)
     /\ forall wc err rbody resp r2 w2,
         complete_request (onBlobSasResponse (value f)) err rbody resp wc = (r2, w2) ->
         ((exists e, err = value e) \/ is_Some (JSON_parse (ToString rbody)) ->
          r2 = Return tt /\ calls f (trace w2) = S (calls f (trace wc)))
         /\ (err = undefined \/ err = null ->
             JSON_parse (ToString rbody) = None ->
             r2 = Throw SyntaxError /\ calls f (trace w2) = calls f (trace wc)))
  /\ (hostname this = value h -> c <> [] -> isWellFormed c = true ->
      exists path headers x509Opts body w1,
        notifyUploadComplete apiVersion packageJson this (value c) auth (value props)
          (value f) w
        = (Return tt, w1)
        /\ issued w w1
           = [buildRequest (http this) "POST" path headers (hostname this) x509Opts
                (onNotifyResponse (value f));
              write body; req_end]
        /\ calls f (trace w1) = calls f (trace w)
        /\ forall wc err rbody resp r2 w2,
            complete_request (onNotifyResponse (value f)) err rbody resp wc = (r2, w2) ->
            r2 = Return tt /\ calls f (trace w2) = S (calls f (trace wc))).
Proof.
  intros Ha. split.
  - intros Hb.
    destruct (getBlobSharedAccessSignature_cases this (value b) auth (value f) w)
      as [(msg & _ & [Hf|Hf] & _)|(body & hs & _ & _ & _ & _ & Heq)].
    + destruct b; [contradiction|discriminate].
    + congruence.
    + destruct (send this _ _ _ _ body w) as [r1 w1] eqn:Hsend.
      destruct (calls_send f _ _ _ _ _ _ _ _ _ Hsend) as (-> & Hcalls & Hissued).
      do 4 eexists. exists w1.
      split; [exact Heq|]. split; [exact Hissued|]. split; [exact Hcalls|].
      intros wc err rbody resp r2 w2 Hdone.
      unfold complete_request, blobSasResponse in Hdone.
      destruct err as [| |e].
      1,2: destruct (JSON_parse (ToString rbody)) as [result|] eqn:Hparse;
        [ injection Hdone as <- <-; cbn [trace]; rewrite calls_snoc;
          split; [now intros _|discriminate]
        | injection Hdone as <- <-; split;
          [intros [(e & He)|[x Hx]]; discriminate|now intros _ _] ].
      injection Hdone as <- <-. cbn [trace]. rewrite calls_snoc.
      split; [now intros _|intros [He|He]; discriminate He].
  - intros Hh Hc Hwf.
    destruct (notifyUploadComplete_cases this (value c) auth (value props) (value f) w)
      as [(msg & _ & [Hf|[Hf|Hf]] & _)
         |[(c' & [= <-] & _ & _ & _ & Hbad & _)
          |[(_ & _ & _ & Hno & _)
           |(c' & encoded & h' & props' & body & hs & _ & _ & _ & _ & _ & _ & _ & _
             & _ & Heq)]]].
    + destruct c; [contradiction|discriminate].
    + congruence.
    + discriminate.
    + congruence.
    + now destruct (Hno h).
    + destruct (send this _ _ _ _ body w) as [r1 w1] eqn:Hsend.
      destruct (calls_send f _ _ _ _ _ _ _ _ _ Hsend) as (-> & Hcalls & Hissued).
      do 4 eexists. exists w1.
      split; [exact Heq|]. split; [exact Hissued|]. split; [exact Hcalls|].
      intros wc err rbody resp r2 w2 Hdone.
      unfold complete_request, notifyResponse in Hdone.
      destruct err as [| |e]; injection Hdone as <- <-; cbn [trace];
        rewrite calls_snoc; now split.
Qed.

End FileUploadProperties.

(** ** The connection string: properties *)

(** ** The connection string: properties *)

Lemma split_at_first_spec (sep : ascii) (s before after : string) :
  split_at_first sep s = Some (before, after)
  <-> s = before +:+ String sep after /\ occurs sep before = false.
Proof.
  revert before. induction s as [|c s IH]; intros before; cbn [split_at_first].
  - split; [discriminate|]. intros [H _]. now destruct before.
  - destruct (Ascii.eqb c sep) eqn:Hc.
    + apply Ascii.eqb_eq in Hc as ->. split.
      * intros [= <- <-]. now split.
      * intros [H Hocc]. destruct before as [|d before].
        -- now injection H as ->.
        -- injection H as -> ->. cbn [occurs] in Hocc.
           now rewrite Ascii.eqb_refl in Hocc.
    + split.
      * destruct (split_at_first sep s) as [[b a]|] eqn:Hs; [|discriminate].
        intros [= <- <-]. destruct (proj1 (IH b) eq_refl) as [-> Hocc].
        split; [reflexivity|]. cbn [occurs]. now rewrite Hc, Hocc.
      * intros [H Hocc]. destruct before as [|d before].
        -- injection H as -> ->. now rewrite Ascii.eqb_refl in Hc.
        -- injection H as -> ->. cbn [occurs] in Hocc.
           apply orb_false_iff in Hocc as [_ Hocc].
           now rewrite (proj2 (IH before) (conj eq_refl Hocc)).
  Qed.

Lemma fold_add_field_Some (elems : list string) (acc : gmap string string) (key val : string) :
  fold_left add_field elems acc !! key = Some val ->
  acc !! key = Some val
  \/ exists elem, In elem elems /\ split_at_first "=" elem = Some (key, val).
Proof.
  revert acc. induction elems as [|elem elems IH]; intros acc; cbn [fold_left].
  - now left.
  - intros H. destruct (IH _ H) as [Hacc|(e & Hin & He)].
    + unfold add_field in Hacc.
      destruct (split_at_first "=" elem) as [[k v]|] eqn:Hs; [|now left].
      destruct (decide (k = key)) as [->|Hne].
      * rewrite lookup_insert_eq in Hacc. injection Hacc as ->.
        right. exists elem. split; [now left|exact Hs].
      * rewrite lookup_insert_ne in Hacc by exact Hne. now left.
    + right. exists e. split; [now right|exact He].
Qed.

Lemma fold_add_field_present (elems : list string) (acc : gmap string string) (key : string) :
  is_Some (acc !! key)
  \/ (exists elem val, In elem elems /\ split_at_first "=" elem = Some (key, val)) ->
  is_Some (fold_left add_field elems acc !! key).
Proof.
  revert acc. induction elems as [|elem elems IH]; intros acc; cbn [fold_left].
  - intros [H|(e & v & [] & _)]. exact H.
  - intros H. apply IH. unfold add_field.
    destruct H as [H|(e & v & [<-|Hin] & He)].
    + left. destruct (split_at_first "=" elem) as [[k v]|]; [|exact H].
      destruct (decide (k = key)) as [->|Hne].
      * rewrite lookup_insert_eq. eauto.
      * now rewrite lookup_insert_ne.
    + left. rewrite He. rewrite lookup_insert_eq. eauto.
    + right. eauto.
Qed.

Lemma createDictionary_Some (source key val : string) :
  occurs "=" key = false ->
  createDictionary source !! key = Some val -> has_field source key val.
Proof.
  intros Hkey H. apply fold_add_field_Some in H as [H|(elem & Hin & He)].
  - now rewrite lookup_empty in H.
  - apply split_at_first_spec in He as [-> _]. exact Hin.
Qed.

Lemma createDictionary_present (source key val : string) :
  occurs "=" key = false ->
  has_field source key val -> is_Some (createDictionary source !! key).
Proof.
  intros Hkey H. apply fold_add_field_present. right.
  exists (key +:+ "=" +:+ val), val. split; [exact H|].
  now apply split_at_first_spec.
Qed.

(** C5. When the source has an element [key=...] for each of [HostName],
    [SharedAccessKeyName] and [SharedAccessKey], [parse] returns a mapping
    that takes each of the three to a value the source gives it; when the
    source has none for one of them, [parse] fails with an argument error
    that names a required field the source lacks. *)
Theorem parse_requires_three_fields (source : string) :
  let required := ["HostName"; "SharedAccessKeyName"; "SharedAccessKey"] in
  ((forall key, In key required -> exists val, has_field source key val) ->
   exists dict,
     parse source = Return dict
     /\ forall key, In key required ->
                    exists val, dict !! key = Some val /\ has_field source key val)
  /\ ((exists key, In key required /\ forall val, ~ has_field source key val) ->
      exists missing,
        parse source = Throw (ArgumentError missing)
        /\ In missing required
        /\ forall val, ~ has_field source missing val)
  /\ parse "HostName=h;SharedAccessKeyName=n;SharedAccessKey=k"
     = Return (<["HostName" := "h"]>
                 (<["SharedAccessKeyName" := "n"]>
                    (<["SharedAccessKey" := "k"]> ∅))).
Proof.
  intros required.
  assert (Hnoeq : forall key, In key required -> occurs "=" key = false).
  { intros key [<-|[<-|[<-|[]]]]; reflexivity. }
  assert (Hlack : forall key, In key required ->
                 createDictionary source !! key = None ->
                 forall val, ~ has_field source key val).
  { intros key Hin Hnone val Hf.
    destruct (createDictionary_present source key val (Hnoeq key Hin) Hf) as [v Hv].
    congruence. }
  split; [|split].
  - intros Hall. exists (createDictionary source).
    assert (Hsome : forall key, In key required ->
                   is_Some (createDictionary source !! key)).
    { intros key Hin. destruct (Hall key Hin) as [val Hf].
      now apply (createDictionary_present source key val); [apply Hnoeq|]. }
    split.
    + unfold parse, ConnectionString_parse, missing_fields. cbn [List.filter].
      destruct (Hsome "HostName") as [v1 ->]; [now left|].
      destruct (Hsome "SharedAccessKeyName") as [v2 ->]; [right; now left|].
      destruct (Hsome "SharedAccessKey") as [v3 ->]; [right; right; now left|].
      reflexivity.
    + intros key Hin. destruct (Hsome key Hin) as [val Hval].
      exists val. split; [exact Hval|].
      now apply createDictionary_Some; [apply Hnoeq|].
  - intros (key & Hin & Habsent).
    unfold parse, ConnectionString_parse, missing_fields. cbn [List.filter].
    destruct (createDictionary source !! "HostName") as [v1|] eqn:H1.
    2:{ eexists. split; [reflexivity|]. split; [now left|].
        apply Hlack; [now left|exact H1]. }
    destruct (createDictionary source !! "SharedAccessKeyName") as [v2|] eqn:H2.
    2:{ eexists. split; [reflexivity|]. split; [right; now left|].
        apply Hlack; [right; now left|exact H2]. }
    destruct (createDictionary source !! "SharedAccessKey") as [v3|] eqn:H3.
    2:{ eexists. split; [reflexivity|]. split; [right; right; now left|].
        apply Hlack; [right; right; now left|exact H3]. }
    exfalso. destruct Hin as [<-|[<-|[<-|[]]]].
    + eapply Habsent, createDictionary_Some; [reflexivity|exact H1].
    + eapply Habsent, createDictionary_Some; [reflexivity|exact H2].
    + eapply Habsent, createDictionary_Some; [reflexivity|exact H3].
  - vm_compute. reflexivity.
Qed.

(** ** The properties at sample values *)

(** The sample requests are what the operations issue. *)
Lemma sample_blob_request_issued :
  getBlobSharedAccessSignature sample_apiVersion sample_package sample_api
    (value "photo.jpg") sample_auth (value 7) sample_world
  = (Return tt, sample_world_requested).
Proof. vm_compute. reflexivity. Qed.

Lemma sample_notify_request_issued :
  notifyUploadComplete sample_apiVersion sample_package sample_api
    (value (wide "a/b c")) sample_auth (value sample_upload_result) undefined sample_world
  = (Return tt, sample_world_notified).
Proof. vm_compute. reflexivity. Qed.

Lemma sample_certificate_request_issued :
  notifyUploadComplete sample_apiVersion sample_package sample_api
    (value (wide "a/b c")) sample_certificate (value sample_upload_result) (value 7)
    sample_world
  = (Return tt, sample_world_certificate).
Proof. vm_compute. reflexivity. Qed.

(** C1 at the sample credential request, which has a string for [auth],
    and at the sample notification with a certificate. *)
Lemma auth_selects_header_or_certificate_witness :
  "photo.jpg" <> "" /\ truthy sample_auth = true
  /\ hostname sample_api = value "contoso.azure-devices.net"
  /\ wide "a/b c" <> [] /\ isWellFormed (wide "a/b c") = true
  /\ truthy sample_certificate = true
  /\ (exists path headers (x509Opts : Nullable unit) body,
        getBlobSharedAccessSignature sample_apiVersion sample_package sample_api
          (value "photo.jpg") sample_auth (value 7) sample_world
        = (Return tt,
           {| store := store sample_world;
              trace := trace sample_world ++
                [buildRequest (http sample_api) "POST" path headers (hostname sample_api)
                   x509Opts (onBlobSasResponse (value 7));
                 write body; req_end] |})
        /\ carries_auth sample_auth headers x509Opts)
  /\ (exists path headers (x509Opts : Nullable unit) body,
        notifyUploadComplete sample_apiVersion sample_package sample_api
          (value (wide "a/b c")) sample_certificate (value sample_upload_result)
          (value 7) sample_world
        = (Return tt,
           {| store := store sample_world;
              trace := trace sample_world ++
                [buildRequest (http sample_api) "POST" path headers (hostname sample_api)
                   x509Opts (onNotifyResponse (value 7));
                 write body; req_end] |})
        /\ carries_auth sample_certificate headers x509Opts).
Proof.
  assert (Hb : "photo.jpg" <> "") by discriminate.
  assert (Ha : truthy sample_auth = true) by reflexivity.
  assert (Hh : hostname sample_api = value "contoso.azure-devices.net") by reflexivity.
  assert (Hc : wide "a/b c" <> []) by discriminate.
  assert (Hwf : isWellFormed (wide "a/b c") = true) by (vm_compute; reflexivity).
  assert (Hcert : truthy sample_certificate = true) by reflexivity.
  split; [exact Hb|]. split; [exact Ha|]. split; [exact Hh|]. split; [exact Hc|].
  split; [exact Hwf|]. split; [exact Hcert|].
  split.
  - exact (proj1 (auth_selects_header_or_certificate sample_apiVersion sample_package
                    sample_api "contoso.azure-devices.net" "photo.jpg" (wide "a/b c")
                    sample_upload_result sample_auth (value 7) sample_world) Hb Ha).
  - exact (proj1 (proj2 (auth_selects_header_or_certificate sample_apiVersion
                           sample_package sample_api "contoso.azure-devices.net"
                           "photo.jpg" (wide "a/b c") sample_upload_result
                           sample_certificate (value 7) sample_world))
             Hh Hc Hwf Hcert).
Defined.

(** C2 for the blob [photo.jpg]. *)
Lemma getBlobSharedAccessSignature_request_witness :
  "photo.jpg" <> "" /\ truthy sample_auth = true
  /\ exists body headers (x509Opts : Nullable unit),
      JSON_stringify (JsObject [("blobName", JsString "photo.jpg")]) = Some body
      /\ body = "{" +:+ JSON_quote "blobName" +:+ ":" +:+ JSON_quote "photo.jpg" +:+ "}"
      /\ getBlobSharedAccessSignature sample_apiVersion sample_package sample_api
           (value "photo.jpg") sample_auth (value 7) sample_world
         = (Return tt,
            {| store := store sample_world;
               trace := trace sample_world ++
                 [buildRequest (http sample_api) "POST"
                    ("/devices/" +:+ ToString (deviceId sample_api)
                     +:+ "/files?api-version=" +:+ sample_apiVersion)
                    headers (hostname sample_api) x509Opts (onBlobSasResponse (value 7));
                  write body; req_end] |})
      /\ get_prop "Host" headers = Some (inject (hostname sample_api))
      /\ get_prop "Accept" headers = Some (JsString "application/json")
      /\ get_prop "Content-Type" headers = Some (JsString "application/json")
      /\ get_prop "Content-Length" headers
         = Some (JsNumber (integer (Z.of_nat (String.length body))))
      /\ get_prop "User-Agent" headers
         = Some (JsString (name sample_package +:+ "/" +:+ version sample_package)).
Proof.
  assert (Hb : "photo.jpg" <> "") by discriminate.
  assert (Ha : truthy sample_auth = true) by reflexivity.
  split; [exact Hb|]. split; [exact Ha|].
  exact (getBlobSharedAccessSignature_request sample_apiVersion sample_package
           sample_api "photo.jpg" sample_auth (value 7) sample_world Hb Ha).
Defined.

(** C3, as amended, for the correlation identifier [a/b c], which has a
    [/] and a space, and for one that is a lone surrogate. *)
Lemma notifyUploadComplete_request_witness :
  hostname sample_api = value "contoso.azure-devices.net"
  /\ wide "a/b c" <> [] /\ sample_lone_surrogate <> [] /\ truthy sample_auth = true
  /\ isWellFormed (wide "a/b c") = true
  /\ isWellFormed sample_lone_surrogate = false
  /\ (exists encoded body headers (x509Opts : Nullable unit) label rest,
        encodeURIComponent (wide "a/b c") = Return encoded
        /\ JSON_stringify (JsObject sample_upload_result) = Some body
        /\ notifyUploadComplete sample_apiVersion sample_package sample_api
             (value (wide "a/b c")) sample_auth (value sample_upload_result) undefined
             sample_world
           = (Return tt,
              {| store := store sample_world;
                 trace := trace sample_world ++
                   [buildRequest (http sample_api) "POST"
                      ("/devices/" +:+ ToString (deviceId sample_api)
                       +:+ "/files/notifications/" +:+ encoded
                       +:+ "?api-version=" +:+ sample_apiVersion)
                      headers (value "contoso.azure-devices.net") x509Opts
                      (onNotifyResponse undefined);
                    write body; req_end] |})
        /\ all_chars uri_output_char encoded = true
        /\ occurs "/" encoded = false
        /\ get_prop "iothub-name" headers = Some (JsString label)
        /\ "contoso.azure-devices.net" = label +:+ rest
        /\ occurs "." label = false
        /\ (rest = "" \/ exists r, rest = String "." r))
  /\ notifyUploadComplete sample_apiVersion sample_package sample_api
       (value sample_lone_surrogate) sample_auth (value sample_upload_result) undefined
       sample_world
     = (Throw URIError, sample_world).
Proof.
  assert (Hh : hostname sample_api = value "contoso.azure-devices.net") by reflexivity.
  assert (Hc : wide "a/b c" <> []) by discriminate.
  assert (Hc' : sample_lone_surrogate <> []) by discriminate.
  assert (Ha : truthy sample_auth = true) by reflexivity.
  assert (Hwf : isWellFormed (wide "a/b c") = true) by (vm_compute; reflexivity).
  assert (Hwf' : isWellFormed sample_lone_surrogate = false) by (vm_compute; reflexivity).
  split; [exact Hh|]. split; [exact Hc|]. split; [exact Hc'|]. split; [exact Ha|].
  split; [exact Hwf|]. split; [exact Hwf'|].
  split.
  - exact (proj1 (notifyUploadComplete_request sample_apiVersion sample_package
                    sample_api "contoso.azure-devices.net" (wide "a/b c") sample_auth
                    sample_upload_result undefined sample_world Hh Hc Ha) Hwf).
  - exact (proj2 (notifyUploadComplete_request sample_apiVersion sample_package
                    sample_api "contoso.azure-devices.net" sample_lone_surrogate
                    sample_auth sample_upload_result undefined sample_world Hh Hc' Ha)
             Hwf').
Defined.

(** C3 as the claim states it fails: the correlation identifier is not
    empty, an [auth] and an upload result are given, and the notification
    throws a [URIError]; no request is passed to the transport. *)
Lemma lone_surrogate_gets_no_request :
  sample_lone_surrogate <> []
  /\ truthy (value sample_lone_surrogate) = true
  /\ truthy sample_auth = true
  /\ truthy (value sample_upload_result) = true
  /\ encodeURIComponent sample_lone_surrogate = Throw URIError
  /\ notifyUploadComplete sample_apiVersion sample_package sample_api
       (value sample_lone_surrogate) sample_auth (value sample_upload_result) (value 7)
       sample_world
     = (Throw URIError, sample_world)
  /\ issued sample_world sample_world = [].
Proof.
  split; [discriminate|]. split; [reflexivity|]. split; [reflexivity|].
  split; [reflexivity|]. split; [vm_compute; reflexivity|].
  split; [vm_compute; reflexivity|reflexivity].
Qed.

(** C4 for the [Error] object at address 4 and for the sample response body. *)
Lemma completion_reaches_callback_witness :
  store sample_world !! 4
  = Some {| message := "ECONNRESET"; responseBody := None; response := None |}
  /\ JSON_parse (ToString (value sample_response_body)) = Some sample_response_value
  /\ (exists w',
        complete_request (onBlobSasResponse (value 7)) (value 4)
          (value sample_response_body) (null : Nullable unit) sample_world
        = (Return tt, w')
        /\ trace w' = trace sample_world ++ [call 7 [ArgError 4]]
        /\ store w' !! 4
           = Some {| message := "ECONNRESET";
                     responseBody := Some (value sample_response_body);
                     response := Some null |}
        /\ forall e', e' <> 4 -> store w' !! e' = store sample_world !! e')
  /\ complete_request (onBlobSasResponse (value 7)) undefined
       (value sample_response_body) (null : Nullable unit) sample_world
     = (Return tt,
        {| store := store sample_world;
           trace := trace sample_world
                    ++ [call 7 [ArgNull; ArgResult sample_response_value]] |}).
Proof.
  assert (Hobj : store sample_world !! 4
                 = Some {| message := "ECONNRESET"; responseBody := None;
                           response := None |}) by reflexivity.
  assert (Hparse : JSON_parse (ToString (value sample_response_body))
                   = Some sample_response_value) by reflexivity.
  split; [exact Hobj|]. split; [exact Hparse|].
  destruct (completion_reaches_callback 7 (value sample_response_body)
              (null : Nullable unit) sample_world) as (Herr & Hok & _).
  split.
  - exact (Herr 4 _ Hobj).
  - exact (Hok undefined sample_response_value (or_introl eq_refl) Hparse).
Defined.

(** C6 with no blob name, and with no upload result. *)
Lemma missing_argument_throws_witness :
  (truthy (undefined : Nullable string) = false \/ truthy sample_auth = false)
  /\ (truthy (value (wide "c1")) = false \/ truthy sample_auth = false
      \/ truthy (null : Nullable BlobUploadResult) = false)
  /\ (exists msg,
        getBlobSharedAccessSignature sample_apiVersion sample_package sample_api
          undefined sample_auth (value 7) sample_world
        = (Throw (ReferenceError msg), sample_world)
        /\ In msg ["blobName cannot be '" +:+ ToString (undefined : Nullable string) +:+ "'";
                   "auth cannot be '" +:+ ToString sample_auth +:+ "'"])
  /\ (exists msg,
        notifyUploadComplete sample_apiVersion sample_package sample_api
          (value (wide "c1")) sample_auth null (value 7) sample_world
        = (Throw (ReferenceError msg), sample_world)
        /\ In msg ["correlationId cannot be '" +:+ ToString (value (wide "c1")) +:+ "'";
                   "auth cannot be '" +:+ ToString sample_auth +:+ "'";
                   "uploadResult cannot be '"
                   +:+ ToString (null : Nullable BlobUploadResult) +:+ "'"]).
Proof.
  assert (H1 : truthy (undefined : Nullable string) = false
               \/ truthy sample_auth = false) by (left; reflexivity).
  assert (H2 : truthy (value (wide "c1")) = false \/ truthy sample_auth = false
               \/ truthy (null : Nullable BlobUploadResult) = false)
    by (right; right; reflexivity).
  split; [exact H1|]. split; [exact H2|].
  destruct (missing_argument_throws sample_apiVersion sample_package sample_api
              undefined (value (wide "c1")) sample_auth null (value 7) sample_world)
    as [Hblob Hnotify].
  split; [exact (Hblob H1)|exact (Hnotify H2)].
Defined.

(** C7 with an empty device identifier, and with an injected transport. *)
Lemma constructor_validates_witness :
  (truthy (value "") = false \/ truthy (value "contoso.azure-devices.net") = false)
  /\ truthy (value "thermostat") = true
  /\ truthy (value "contoso.azure-devices.net") = true
  /\ (exists msg,
        constructor (value "") (value "contoso.azure-devices.net")
          (undefined : Nullable nat)
        = Throw (ReferenceError msg)
        /\ In msg ["deviceId cannot be '" +:+ ToString (value "") +:+ "'";
                   "hostname cannot be '"
                   +:+ ToString (value "contoso.azure-devices.net") +:+ "'"])
  /\ (exists api,
        constructor (value "thermostat") (value "contoso.azure-devices.net") (value 1)
        = Return api
        /\ deviceId api = value "thermostat"
        /\ hostname api = value "contoso.azure-devices.net"
        /\ (forall transport, value 1 = value transport -> http api = Injected transport)
        /\ (value 1 = undefined \/ value 1 = null -> http api = DefaultHttpTransport)).
Proof.
  assert (H0 : truthy (value "") = false
               \/ truthy (value "contoso.azure-devices.net") = false)
    by (left; reflexivity).
  assert (H1 : truthy (value "thermostat") = true) by reflexivity.
  assert (H2 : truthy (value "contoso.azure-devices.net") = true) by reflexivity.
  split; [exact H0|]. split; [exact H1|]. split; [exact H2|].
  split.
  - exact (proj1 (constructor_validates (value "") (value "contoso.azure-devices.net")
                    (undefined : Nullable nat)) H0).
  - exact (proj2 (constructor_validates (value "thermostat")
                    (value "contoso.azure-devices.net") (value 1)) H1 H2).
Defined.

(** C10 at the sample notification, which has no callback. *)
Lemma omitted_callback_throws_witness :
  In sample_notify_request (issued sample_world sample_world_notified)
  /\ onNotifyResponse undefined = onNotifyResponse undefined
  /\ forall err body (resp : Nullable unit) (w1 : @World unit unit nat),
      complete_request (onNotifyResponse undefined) err body resp w1
      = (Throw TypeError, w1).
Proof.
  assert (Hin : In sample_notify_request (issued sample_world sample_world_notified))
    by (left; reflexivity).
  split; [exact Hin|].
  exact (omitted_callback_throws sample_apiVersion sample_package sample_api
           (value (wide "a/b c")) sample_auth (value sample_upload_result)
           sample_world (Return tt) sample_world_notified
           sample_notify_request_issued _ _ _ _ _ _ _ Hin).
Defined.

(** C9, as amended, at the sample credential request and at the sample
    notification with a certificate. *)
Lemma callback_once_after_completion_witness :
  truthy sample_auth = true /\ "photo.jpg" <> ""
  /\ truthy sample_certificate = true
  /\ hostname sample_api = value "contoso.azure-devices.net"
  /\ wide "a/b c" <> [] /\ isWellFormed (wide "a/b c") = true
  /\ (exists path headers (x509Opts : Nullable unit) body w1,
        getBlobSharedAccessSignature sample_apiVersion sample_package sample_api
          (value "photo.jpg") sample_auth (value 7) sample_world
        = (Return tt, w1)
        /\ issued sample_world w1
           = [buildRequest (http sample_api) "POST" path headers (hostname sample_api)
                x509Opts (onBlobSasResponse (value 7));
              write body; req_end]
        /\ calls 7 (trace w1) = calls 7 (trace sample_world)
        /\ forall (wc : @World unit unit nat) err rbody (resp : Nullable unit) r2 w2,
            complete_request (onBlobSasResponse (value 7)) err rbody resp wc = (r2, w2) ->
            ((exists e, err = value e) \/ is_Some (JSON_parse (ToString rbody)) ->
             r2 = Return tt /\ calls 7 (trace w2) = S (calls 7 (trace wc)))
            /\ (err = undefined \/ err = null ->
                JSON_parse (ToString rbody) = None ->
                r2 = Throw SyntaxError /\ calls 7 (trace w2) = calls 7 (trace wc)))
  /\ (exists path headers (x509Opts : Nullable unit) body w1,
        notifyUploadComplete sample_apiVersion sample_package sample_api
          (value (wide "a/b c")) sample_certificate (value sample_upload_result)
          (value 7) sample_world
        = (Return tt, w1)
        /\ issued sample_world w1
           = [buildRequest (http sample_api) "POST" path headers (hostname sample_api)
                x509Opts (onNotifyResponse (value 7));
              write body; req_end]
        /\ calls 7 (trace w1) = calls 7 (trace sample_world)
        /\ forall (wc : @World unit unit nat) err rbody (resp : Nullable unit) r2 w2,
            complete_request (onNotifyResponse (value 7)) err rbody resp wc = (r2, w2) ->
            r2 = Return tt /\ calls 7 (trace w2) = S (calls 7 (trace wc))).
Proof.
  assert (Ha : truthy sample_auth = true) by reflexivity.
  assert (Hb : "photo.jpg" <> "") by discriminate.
  assert (Hcert : truthy sample_certificate = true) by reflexivity.
  assert (Hh : hostname sample_api = value "contoso.azure-devices.net") by reflexivity.
  assert (Hc : wide "a/b c" <> []) by discriminate.
  assert (Hwf : isWellFormed (wide "a/b c") = true) by (vm_compute; reflexivity).
  split; [exact Ha|]. split; [exact Hb|]. split; [exact Hcert|]. split; [exact Hh|].
  split; [exact Hc|]. split; [exact Hwf|].
  split.
  - exact (proj1 (callback_once_after_completion sample_apiVersion sample_package
                    sample_api "contoso.azure-devices.net" "photo.jpg" (wide "a/b c")
                    sample_upload_result sample_auth 7 sample_world Ha) Hb).
  - exact (proj2 (callback_once_after_completion sample_apiVersion sample_package
                    sample_api "contoso.azure-devices.net" "photo.jpg" (wide "a/b c")
                    sample_upload_result sample_certificate 7 sample_world Hcert)
             Hh Hc Hwf).
Defined.

(** C9 as the claim states it fails: the call passes validation, the
    transport completes once, without an error and with a body that is no
    JSON text, and the callback is called zero times, not once. *)
Lemma exactly_once_fails_on_malformed_json :
  getBlobSharedAccessSignature sample_apiVersion sample_package sample_api
    (value "photo.jpg") sample_auth (value 7) sample_world
  = (Return tt, sample_world_requested)
  /\ In sample_blob_request (issued sample_world sample_world_requested)
  /\ JSON_parse "<html>Bad Gateway</html>" = None
  /\ complete_request (onBlobSasResponse (value 7)) null
       (value "<html>Bad Gateway</html>") (null : Nullable unit) sample_world_requested
     = (Throw SyntaxError, sample_world_requested)
  /\ calls 7 (trace sample_world_requested) = 0
  /\ calls 7 (trace sample_world_requested) <> 1.
Proof.
  split; [exact sample_blob_request_issued|].
  split; [left; reflexivity|].
  split; [reflexivity|]. split; [reflexivity|].
  split; [reflexivity|discriminate].
Qed.

(** C5 for a source with the three fields, and for one without [SharedAccessKeyName]. *)
Lemma parse_requires_three_fields_witness :
  (forall key, In key ["HostName"; "SharedAccessKeyName"; "SharedAccessKey"] ->
               exists val,
                 has_field "HostName=contoso.azure-devices.net;SharedAccessKeyName=owner;SharedAccessKey=c2VjcmV0"
                   key val)
  /\ (exists key, In key ["HostName"; "SharedAccessKeyName"; "SharedAccessKey"]
                  /\ forall val, ~ has_field "HostName=h;SharedAccessKey=k" key val)
  /\ (exists dict,
        parse "HostName=contoso.azure-devices.net;SharedAccessKeyName=owner;SharedAccessKey=c2VjcmV0"
        = Return dict
        /\ forall key, In key ["HostName"; "SharedAccessKeyName"; "SharedAccessKey"] ->
           exists val,
             dict !! key = Some val
             /\ has_field "HostName=contoso.azure-devices.net;SharedAccessKeyName=owner;SharedAccessKey=c2VjcmV0"
                  key val)
  /\ (exists missing,
        parse "HostName=h;SharedAccessKey=k" = Throw (ArgumentError missing)
        /\ In missing ["HostName"; "SharedAccessKeyName"; "SharedAccessKey"]
        /\ forall val, ~ has_field "HostName=h;SharedAccessKey=k" missing val).
Proof.
  assert (Hall : forall key,
             In key ["HostName"; "SharedAccessKeyName"; "SharedAccessKey"] ->
             exists val,
               has_field "HostName=contoso.azure-devices.net;SharedAccessKeyName=owner;SharedAccessKey=c2VjcmV0"
                 key val).
  { intros key [<-|[<-|[<-|[]]]].
    - exists "contoso.azure-devices.net". vm_compute. left. reflexivity.
    - exists "owner". vm_compute. right. left. reflexivity.
    - exists "c2VjcmV0". vm_compute. right. right. left. reflexivity. }
  assert (Hlack : exists key,
             In key ["HostName"; "SharedAccessKeyName"; "SharedAccessKey"]
             /\ forall val, ~ has_field "HostName=h;SharedAccessKey=k" key val).
  { exists "SharedAccessKeyName". split; [right; left; reflexivity|].
    intros val [H|[H|[]]]; discriminate H. }
  split; [exact Hall|]. split; [exact Hlack|].
  split.
  - exact (proj1 (parse_requires_three_fields _) Hall).
  - exact (proj1 (proj2 (parse_requires_three_fields _)) Hlack).
Defined.

(** ** Further properties of the file-upload client *)

Section FileUploadFurther.

Context {X509 Response Transport : Type}.
Variable apiVersion : string.
Variable packageJson : PackageJson.

Implicit Types (w : @World X509 Response Transport).
Implicit Types (this : @FileUploadApi Transport).
Implicit Types (auth : Nullable (@Auth X509)).
Implicit Types (x509Opts : Nullable X509) (resp : Nullable Response).
Implicit Types (httpTransport : Nullable Transport).
Implicit Types (correlationId : Nullable String16).

(** X1. The arguments are checked in the order of the parameters, and the
    error names the first that is missing, with the value it was given:
    the device identifier before the hostname, the blob name before
    [auth], the correlation identifier before [auth] before the upload
    result. *)
Theorem first_missing_argument_is_named
    (d h blobName : Nullable string) correlationId httpTransport this auth
    uploadResult done w :
  (truthy d = false ->
   constructor d h httpTransport
   = Throw (ReferenceError ("deviceId cannot be '" +:+ ToString d +:+ "'")))
  /\ (truthy d = true -> truthy h = false ->
      constructor d h httpTransport
      = Throw (ReferenceError ("hostname cannot be '" +:+ ToString h +:+ "'")))
  /\ (truthy blobName = false ->
      getBlobSharedAccessSignature apiVersion packageJson this blobName auth done w
      = (Throw (ReferenceError ("blobName cannot be '" +:+ ToString blobName +:+ "'")), w))
  /\ (truthy blobName = true -> truthy auth = false ->
      getBlobSharedAccessSignature apiVersion packageJson this blobName auth done w
      = (Throw (ReferenceError ("auth cannot be '" +:+ ToString auth +:+ "'")), w))
  /\ (truthy correlationId = false ->
      notifyUploadComplete apiVersion packageJson this correlationId auth uploadResult
        done w
      = (Throw (ReferenceError
                  ("correlationId cannot be '" +:+ ToString correlationId +:+ "'")), w))
  /\ (truthy correlationId = true -> truthy auth = false ->
      notifyUploadComplete apiVersion packageJson this correlationId auth uploadResult
        done w
      = (Throw (ReferenceError ("auth cannot be '" +:+ ToString auth +:+ "'")), w))
  /\ (truthy correlationId = true -> truthy auth = true ->
      truthy uploadResult = false ->
      notifyUploadComplete apiVersion packageJson this correlationId auth uploadResult
        done w
      = (Throw (ReferenceError
                  ("uploadResult cannot be '" +:+ ToString uploadResult +:+ "'")), w)).
Proof.
  unfold constructor, getBlobSharedAccessSignature, notifyUploadComplete.
  repeat split; intros; repeat match goal with H : truthy _ = _ |- _ => rewrite H; clear H end;
    reflexivity.
Qed.

(** X2. A call of either operation is all or nothing: it leaves the store
    as it was and calls no callback; when it throws, nothing at all was
    passed to the transport; when it returns, exactly one request was built
    on the transport of the instance, its body written once, and the
    request ended, in that order. *)
Theorem request_is_all_or_nothing
    this blobName correlationId auth uploadResult done w r w' :
  getBlobSharedAccessSignature apiVersion packageJson this blobName auth done w = (r, w')
  \/ notifyUploadComplete apiVersion packageJson this correlationId auth uploadResult
       done w = (r, w') ->
  store w' = store w
  /\ (forall f, calls f (trace w') = calls f (trace w))
  /\ ((exists e, r = Throw e) /\ w' = w
      \/ r = Return tt
         /\ exists path headers x509Opts callback body,
             trace w' = trace w ++
               [buildRequest (http this) "POST" path headers (hostname this)
                  x509Opts callback;
                write body; req_end]).
Proof.
  assert (Hsend : forall path headers x509Opts callback body,
             send this path headers x509Opts callback body w = (r, w') ->
             store w' = store w
             /\ (forall f, calls f (trace w') = calls f (trace w))
             /\ ((exists e, r = Throw e) /\ w' = w
                 \/ r = Return tt
                    /\ exists path headers x509Opts callback body,
                        trace w' = trace w ++
                          [buildRequest (http this) "POST" path headers (hostname this)
                             x509Opts callback;
                           write body; req_end])).
  { intros path headers x509Opts callback body Hrun.
    split; [|split].
    - rewrite send_run in Hrun. now injection Hrun as <- <-.
    - intros f. now destruct (calls_send f _ _ _ _ _ _ _ _ _ Hrun) as (_ & ? & _).
    - right. rewrite send_run in Hrun. injection Hrun as <- <-.
      split; [reflexivity|]. now do 5 eexists. }
  assert (Hthrow : forall e, (Throw e, w) = (r, w') ->
             store w' = store w
             /\ (forall f, calls f (trace w') = calls f (trace w))
             /\ ((exists e, r = Throw e) /\ w' = w
                 \/ r = Return tt
                    /\ exists path headers x509Opts callback body,
                        trace w' = trace w ++
                          [buildRequest (http this) "POST" path headers (hostname this)
                             x509Opts callback;
                           write body; req_end])).
  { intros e [= <- <-]. split; [reflexivity|]. split; [reflexivity|].
    left. split; [now exists e|reflexivity]. }
  intros [Hrun|Hrun].
  - destruct (getBlobSharedAccessSignature_cases apiVersion packageJson
                this blobName auth done w)
      as [(msg & Heq & _)|(body & hs & _ & _ & _ & _ & Heq)];
      rewrite Heq in Hrun; eauto.
  - destruct (notifyUploadComplete_cases apiVersion packageJson
                this correlationId auth uploadResult done w)
      as [(msg & Heq & _)
         |[(c & _ & _ & _ & _ & _ & Heq)
          |[(_ & _ & _ & _ & Heq)
           |(c & encoded & h & props & body & hs & _ & _ & _ & _ & _ & _ & _ & _ & _
             & Heq)]]];
      rewrite Heq in Hrun; eauto.
Qed.

(** X3. The notification that is sent declares what is written: its
    [Content-Length] is the length of the body written to the request, its
    [Content-Type] is [application/json; charset=utf-8], its [Host] is the
    hostname of the instance, which is also the host given to the
    transport, and it has no [Accept] header. *)
Theorem notifyUploadComplete_headers
    this correlationId auth uploadResult done w w'
    transport method path headers host x509Opts callback body :
  notifyUploadComplete apiVersion packageJson this correlationId auth uploadResult
    done w = (Return tt, w') ->
  issued w w'
  = [buildRequest transport method path headers host x509Opts callback;
     write body; req_end] ->
  get_prop "Content-Length" headers
  = Some (JsNumber (integer (Z.of_nat (String.length body))))
  /\ get_prop "Content-Type" headers = Some (JsString "application/json; charset=utf-8")
  /\ get_prop "Host" headers = Some (inject host)
  /\ host = hostname this
  /\ get_prop "User-Agent" headers
     = Some (JsString (name packageJson +:+ "/" +:+ version packageJson))
  /\ get_prop "Accept" headers = None.
Proof.
  intros Hrun Hissued.
  destruct (notifyUploadComplete_cases apiVersion packageJson
              this correlationId auth uploadResult done w)
    as [(msg & Heq & _)
       |[(c & _ & _ & _ & _ & _ & Heq)
        |[(_ & _ & _ & _ & Heq)
         |(c & encoded & h & props & body' & hs & _ & _ & _ & _ & _ & Hh & _ & _ & Hhs
           & Heq)]]];
    rewrite Heq in Hrun; try discriminate Hrun.
  destruct (calls_send 0 _ _ _ _ _ _ _ _ _ Hrun) as (_ & _ & Hsent).
  rewrite Hsent in Hissued. injection Hissued as <- <- <- <- <- <- <- <-.
  subst hs. rewrite Hh.
  destruct auth as [| |[sas|cert]]; repeat split; reflexivity.
Qed.

(** X4. No other header is sent: the credential request has the headers
    Host, Accept, Content-Type, Content-Length and User-Agent, the
    notification has Host, User-Agent, Content-Type, Content-Length and
    iothub-name, each once and in this order, followed by Authorization
    exactly when [auth] is a string. *)
Theorem header_names_are_fixed
    this blobName correlationId auth uploadResult done w r w'
    transport method path headers host x509Opts callback :
  In (buildRequest transport method path headers host x509Opts callback) (issued w w') ->
  (getBlobSharedAccessSignature apiVersion packageJson this blobName auth done w
   = (r, w') ->
   prop_names headers
   = ["Host"; "Accept"; "Content-Type"; "Content-Length"; "User-Agent"]
     ++ match auth with
        | value (SharedAccessSignature _) => ["Authorization"]
        | _ => []
        end)
  /\ (notifyUploadComplete apiVersion packageJson this correlationId auth uploadResult
        done w = (r, w') ->
      prop_names headers
      = ["Host"; "User-Agent"; "Content-Type"; "Content-Length"; "iothub-name"]
        ++ match auth with
           | value (SharedAccessSignature _) => ["Authorization"]
           | _ => []
           end).
Proof.
  intros Hin. split; intros Hrun.
  - destruct (getBlobSharedAccessSignature_cases apiVersion packageJson
                this blobName auth done w)
      as [(msg & Heq & _)|(body & hs & _ & _ & _ & Hhs & Heq)];
      rewrite Heq in Hrun.
    + injection Hrun as <- <-. rewrite issued_refl in Hin. destruct Hin.
    + destruct (In_issued_send _ _ _ _ _ _ _ _ _ _ Hrun Hin) as [E|[E|E]];
        try discriminate E.
      injection E as -> -> -> -> -> -> ->. subst hs.
      destruct auth as [| |[sas|cert]]; reflexivity.
  - destruct (notifyUploadComplete_cases apiVersion packageJson
                this correlationId auth uploadResult done w)
      as [(msg & Heq & _)
         |[(c & _ & _ & _ & _ & _ & Heq)
          |[(_ & _ & _ & _ & Heq)
           |(c & encoded & h & props & body & hs & _ & _ & _ & _ & _ & _ & _ & _ & Hhs
             & Heq)]]];
      rewrite Heq in Hrun.
    + injection Hrun as <- <-. rewrite issued_refl in Hin. destruct Hin.
    + injection Hrun as <- <-. rewrite issued_refl in Hin. destruct Hin.
    + injection Hrun as <- <-. rewrite issued_refl in Hin. destruct Hin.
    + destruct (In_issued_send _ _ _ _ _ _ _ _ _ _ Hrun Hin) as [E|[E|E]];
        try discriminate E.
      injection E as -> -> -> -> -> -> ->. subst hs.
      destruct auth as [| |[sas|cert]]; reflexivity.
Qed.

(** X6. A completion callback only calls back: it passes nothing to the
    transport, it calls [done] at most once, it creates and removes no
    [Error] object and changes none but the one it was given; the
    callback of the notification changes none at all. *)
Theorem completion_only_calls_back callback err body resp w r w' :
  complete_request callback err body resp w = (r, w') ->
  (trace w' = trace w
   \/ exists f args,
       trace w' = trace w ++ [call f args] /\ r = Return tt
       /\ (callback = onBlobSasResponse (value f)
           \/ callback = onNotifyResponse (value f)))
  /\ (forall e, err <> value e -> store w' !! e = store w !! e)
  /\ (forall e, is_Some (store w' !! e) <-> is_Some (store w !! e))
  /\ (forall done, callback = onNotifyResponse done -> store w' = store w).
Proof.
  intros Hrun.
  assert (Hinvoke : forall (done : Nullable Fn) args w0,
             invoke done args w0 = (r, w') ->
             store w' = store w0
             /\ (trace w' = trace w0
                 \/ exists f, done = value f
                              /\ trace w' = trace w0 ++ [call f args] /\ r = Return tt)).
  { intros [| |f] args w0; cbn; intros [= <- <-]; split; try reflexivity;
      [now left|now left|right; now exists f]. }
  destruct callback as [done|done]; cbn [complete_request] in Hrun.
  - unfold blobSasResponse in Hrun. destruct err as [| |e].
    1,2: destruct (JSON_parse (ToString body)) as [result|];
      [ destruct (Hinvoke _ _ _ Hrun) as (Hst & [Htr|(f & -> & Htr & Hr)]);
        rewrite Hst;
        (split; [first [now left|right; exists f; eexists; eauto]|]);
        (split; [reflexivity|]); (split; [reflexivity|discriminate])
      | injection Hrun as <- <-;
        (split; [now left|]); (split; [reflexivity|]);
        (split; [reflexivity|discriminate]) ].
    unfold bind, set_responseBody, set_response in Hrun.
    destruct (Hinvoke _ _ _ Hrun) as (Hst & Htr). cbn [store trace] in Hst, Htr.
    rewrite Hst. split; [|split; [|split]].
    + destruct Htr as [Htr|(f & -> & Htr & Hr)];
        [now left|right; exists f; eexists; eauto].
    + intros e' Hne. rewrite !lookup_alter_ne; [reflexivity|congruence..].
    + intros e'. destruct (decide (e = e')) as [<-|Hne].
      * rewrite !lookup_alter_eq. destruct (store w !! e); cbn; split;
          intros [x Hx]; try discriminate; eauto.
      * now rewrite !lookup_alter_ne.
    + discriminate.
  - unfold notifyResponse in Hrun.
    assert (Hboth : exists args, invoke done args w = (r, w'))
      by (destruct err; eauto).
    destruct Hboth as [args Hinv].
    destruct (Hinvoke _ _ _ Hinv) as (Hst & Htr). rewrite Hst.
    split; [|split; [|split]]; try reflexivity.
    destruct Htr as [Htr|(f & -> & Htr & Hr)];
      [now left|right; exists f; eexists; eauto].
Qed.

(** X7. An instance that the constructor returned serves both operations:
    with a non-empty name or identifier, the surrogates of the identifier
    paired, an [auth] and an upload result, each returns and builds its
    request on the transport the constructor was given (the default one
    when it was given none), with the hostname the constructor was given
    as the host. On such an instance the notification never fails for
    want of a hostname. *)
Theorem constructed_client_reaches_its_transport
    (d h : Nullable string) httpTransport api (b : string) (c : String16) auth
    (props : BlobUploadResult) done w :
  constructor d h httpTransport = Return api ->
  b <> "" -> c <> [] -> isWellFormed c = true -> truthy auth = true ->
  let transport := match httpTransport with
                   | value t => Injected t
                   | undefined | null => DefaultHttpTransport
                   end in
  (exists path headers x509Opts body,
      getBlobSharedAccessSignature apiVersion packageJson api (value b) auth done w
      = (Return tt,
         {| store := store w;
            trace := trace w ++
              [buildRequest transport "POST" path headers h x509Opts
                 (onBlobSasResponse done);
               write body; req_end] |}))
  /\ (exists path headers x509Opts body,
        notifyUploadComplete apiVersion packageJson api (value c) auth (value props)
          done w
        = (Return tt,
           {| store := store w;
              trace := trace w ++
                [buildRequest transport "POST" path headers h x509Opts
                   (onNotifyResponse done);
                 write body; req_end] |})).
Proof.
  intros Hnew Hb Hc Hwf Ha transport.
  destruct (constructor_fields _ _ _ _ Hnew) as (ds & hs & Hd & _ & Hh & _).
  assert (Hapi : http api = transport /\ hostname api = h).
  { unfold constructor in Hnew.
    destruct (truthy d); cbn [negb] in Hnew; [|discriminate].
    destruct (truthy h); cbn [negb] in Hnew; [|discriminate].
    now injection Hnew as <-. }
  destruct Hapi as [Hhttp Hhost]. split.
  - destruct (getBlobSharedAccessSignature_cases apiVersion packageJson
                api (value b) auth done w)
      as [(msg & _ & [Hf|Hf] & _)|(body & hdrs & _ & _ & _ & _ & Heq)].
    + destruct b; [contradiction|discriminate].
    + congruence.
    + do 4 eexists. rewrite Heq, send_run, Hhttp, Hhost. reflexivity.
  - destruct (notifyUploadComplete_cases apiVersion packageJson
                api (value c) auth (value props) done w)
      as [(msg & _ & [Hf|[Hf|Hf]] & _)
         |[(c' & [= <-] & _ & _ & _ & Hbad & _)
          |[(_ & _ & _ & Hno & _)
           |(c' & encoded & h' & props' & body & hdrs & _ & _ & _ & _ & _ & _ & _ & _
             & _ & Heq)]]].
    + destruct c; [contradiction|discriminate].
    + congruence.
    + discriminate.
    + congruence.
    + now destruct (Hno hs).
    + do 4 eexists. rewrite Heq, send_run, Hhttp, Hhost. reflexivity.
Qed.

Lemma lex_blank (s : string) :
  all_chars is_json_space s = true -> lex LxBetween s = Some [].
Proof.
  induction s as [|c s IH]; [reflexivity|].
  cbn [all_chars]. intros [Hc Hs]%andb_true_iff.
  cbn [lex lex_step]. unfold lex_between. rewrite Hc, (IH Hs). reflexivity.
Qed.

(** X8. A completion without an error and without a body to parse, the
    body being [undefined], empty or JSON white space only, makes the
    completion callback of the credential request throw the [SyntaxError]
    of [JSON.parse]; [done] is not called. *)
Theorem blank_body_throws done err (body : Nullable string) resp w :
  err = undefined \/ err = null ->
  body = undefined
  \/ (exists s, body = value s /\ all_chars is_json_space s = true) ->
  complete_request (onBlobSasResponse done) err body resp w = (Throw SyntaxError, w).
Proof.
  intros Herr Hbody. cbn [complete_request]. unfold blobSasResponse.
  assert (Hparse : JSON_parse (ToString body) = None).
  { destruct Hbody as [->|(s & -> & Hs)]; [reflexivity|].
    cbn [ToString Nullable_JsType string_JsType].
    unfold JSON_parse. now rewrite (lex_blank s Hs). }
  destruct Herr as [-> | ->]; now rewrite Hparse.
Qed.

(** The path of every request the notification passes to the transport. *)
Lemma notifyUploadComplete_path
    this correlationId auth uploadResult done w r w'
    transport method path headers host x509Opts callback :
  notifyUploadComplete apiVersion packageJson this correlationId auth uploadResult
    done w = (r, w') ->
  In (buildRequest transport method path headers host x509Opts callback) (issued w w') ->
  exists c encoded,
    correlationId = value c /\ c <> []
    /\ encodeURIComponent c = Return encoded
    /\ path = devicePath (deviceId this) +:+ "/files/notifications/"
              +:+ encoded +:+ versionQueryString apiVersion.
Proof.
  intros Hrun Hin.
  destruct (notifyUploadComplete_cases apiVersion packageJson
              this correlationId auth uploadResult done w)
    as [(msg & Heq & _)
       |[(c & _ & _ & _ & _ & _ & Heq)
        |[(_ & _ & _ & _ & Heq)
         |(c & encoded & h & props & body & hs & Hc & Hne & _ & Henc & _ & _ & _ & _ & _
           & Heq)]]];
    rewrite Heq in Hrun.
  - injection Hrun as <- <-. rewrite issued_refl in Hin. destruct Hin.
  - injection Hrun as <- <-. rewrite issued_refl in Hin. destruct Hin.
  - injection Hrun as <- <-. rewrite issued_refl in Hin. destruct Hin.
  - destruct (In_issued_send _ _ _ _ _ _ _ _ _ _ Hrun Hin) as [E|[E|E]];
      try discriminate E.
    injection E as -> -> -> -> -> -> ->.
    now exists c, encoded.
Qed.

(** X9. A correlation identifier made of letters, digits and the marks
    [- _ . ! ~ * ' ( )] only stands in the path of the notification as it
    is. *)
Theorem unreserved_correlationId_is_verbatim
    this (c : string) auth uploadResult done w r w'
    transport method path headers host x509Opts callback :
  all_chars uri_unreserved c = true ->
  notifyUploadComplete apiVersion packageJson this (value (wide c)) auth uploadResult
    done w = (r, w') ->
  In (buildRequest transport method path headers host x509Opts callback) (issued w w') ->
  path = "/devices/" +:+ ToString (deviceId this) +:+ "/files/notifications/" +:+ c
         +:+ "?api-version=" +:+ apiVersion.
Proof.
  intros Hc Hrun Hin.
  destruct (notifyUploadComplete_path _ _ _ _ _ _ _ _ _ _ _ _ _ _ _ Hrun Hin)
    as (c' & encoded & [= <-] & _ & Henc & ->).
  rewrite (encodeURIComponent_unreserved c Hc) in Henc. injection Henc as <-.
  unfold devicePath, versionQueryString. now rewrite append_assoc.
Qed.

(** X10. The path of a notification tells the correlation identifier: two
    notifications of one instance with the same path have the same
    correlation identifier. *)
Theorem notification_path_determines_correlationId
    this (c1 c2 : Nullable String16) auth1 auth2 uploadResult1 uploadResult2 done1 done2
    w1 w2 r1 r2 w1' w2'
    transport1 method1 path1 headers1 host1 x509Opts1 callback1
    transport2 method2 path2 headers2 host2 x509Opts2 callback2 :
  notifyUploadComplete apiVersion packageJson this c1 auth1 uploadResult1 done1 w1
  = (r1, w1') ->
  notifyUploadComplete apiVersion packageJson this c2 auth2 uploadResult2 done2 w2
  = (r2, w2') ->
  In (buildRequest transport1 method1 path1 headers1 host1 x509Opts1 callback1)
     (issued w1 w1') ->
  In (buildRequest transport2 method2 path2 headers2 host2 x509Opts2 callback2)
     (issued w2 w2') ->
  path1 = path2 -> c1 = c2.
Proof.
  intros Hrun1 Hrun2 Hin1 Hin2 Hpath.
  destruct (notifyUploadComplete_path _ _ _ _ _ _ _ _ _ _ _ _ _ _ _ Hrun1 Hin1)
    as (s1 & e1 & -> & _ & Henc1 & ->).
  destruct (notifyUploadComplete_path _ _ _ _ _ _ _ _ _ _ _ _ _ _ _ Hrun2 Hin2)
    as (s2 & e2 & -> & _ & Henc2 & ->).
  apply (inj (String.app _)) in Hpath. apply (inj (String.app _)) in Hpath.
  apply append_inj_r in Hpath. subst e2. f_equal.
  exact (encodeURIComponent_inj s1 s2 e1 Henc1 Henc2).
Qed.

Lemma lex_run_lex (mode : LexMode) (a b : string) :
  lex mode (a +:+ b)
  = match lex_run mode a with
    | Some (mode', toks) =>
        match lex mode' b with
        | Some more => Some (toks ++ more)
        | None => None
        end
    | None => None
    end.
Proof.
  revert mode. induction a as [|c a IH]; intros mode.
  - cbn [lex_run]. change ("" +:+ b) with b. now destruct (lex mode b).
  - change (String c a +:+ b) with (String c (a +:+ b)). cbn [lex lex_run].
    destruct (lex_step mode c) as [[mode' toks]|]; [|reflexivity].
    rewrite IH. destruct (lex_run mode' a) as [[mode'' more]|]; [|reflexivity].
    destruct (lex mode'' b) as [rest|]; [|reflexivity].
    now rewrite <- app_assoc.
Qed.

Lemma lex_run_app (mode : LexMode) (a b : string) :
  lex_run mode (a +:+ b)
  = match lex_run mode a with
    | Some (mode', toks) =>
        match lex_run mode' b with
        | Some (mode'', more) => Some (mode'', toks ++ more)
        | None => None
        end
    | None => None
    end.
Proof.
  revert mode. induction a as [|c a IH]; intros mode.
  - cbn [lex_run]. change ("" +:+ b) with b.
    now destruct (lex_run mode b) as [[m t]|].
  - change (String c a +:+ b) with (String c (a +:+ b)). cbn [lex_run].
    destruct (lex_step mode c) as [[mode' toks]|]; [|reflexivity].
    rewrite IH. destruct (lex_run mode' a) as [[mode'' more]|]; [|reflexivity].
    destruct (lex_run mode'' b) as [[m rest]|]; [|reflexivity].
    now rewrite <- app_assoc.
Qed.

Lemma lex_run_json_escape (c : ascii) (acc : list N) :
  lex_run (LxString acc) (json_escape c) = Some (LxString (acc ++ [N_of_ascii c]), []).
Proof. destruct c as [[] [] [] [] [] [] [] []]; vm_compute; reflexivity. Qed.

Lemma lex_run_json_escape_all (s : string) (acc : list N) :
  lex_run (LxString acc) (json_escape_all s) = Some (LxString (acc ++ units_of s), []).
Proof.
  revert acc. induction s as [|c s IH]; intros acc.
  - cbn. now rewrite app_nil_r.
  - cbn [json_escape_all]. rewrite lex_run_app, lex_run_json_escape, IH.
    unfold units_of. cbn. now rewrite <- app_assoc.
Qed.

Lemma lex_run_JSON_quote (s : string) :
  lex_run LxBetween (JSON_quote s) = Some (LxBetween, [TString (units_of s)]).
Proof.
  unfold JSON_quote.
  change (String dquote (json_escape_all s) +:+ String dquote "")
    with (String dquote (json_escape_all s +:+ String dquote "")).
  cbn [lex_run]. change (lex_step LxBetween dquote) with (Some (LxString [], @nil Token)).
  cbv iota beta. rewrite lex_run_app, lex_run_json_escape_all. reflexivity.
Qed.

(** X11. The body of the credential request is a JSON text whatever the
    blob name holds, quotes, backslashes and control characters included:
    [JSON.parse] reads it back as the object whose one member [blobName] is
    the blob name. *)
Theorem credential_request_body_parses_back
    this (b : string) auth done w r w' body :
  getBlobSharedAccessSignature apiVersion packageJson this (value b) auth done w
  = (r, w') ->
  In (write body) (issued w w') ->
  JSON_parse body
  = Some (JsonObject [(units_of "blobName", JsonString (units_of b))]).
Proof.
  intros Hrun Hin.
  destruct (getBlobSharedAccessSignature_cases apiVersion packageJson
              this (value b) auth done w)
    as [(msg & Heq & _)|(body' & hs & _ & _ & Hbody & _ & Heq)];
    rewrite Heq in Hrun.
  - injection Hrun as <- <-. rewrite issued_refl in Hin. destruct Hin.
  - destruct (In_issued_send _ _ _ _ _ _ _ _ _ _ Hrun Hin) as [E|[E|E]];
      try discriminate E.
    injection E as ->.
    cbn [JSON_stringify inject flat_map snd fst app join] in Hbody.
    injection Hbody as <-.
    unfold JSON_parse.
    rewrite (lex_run_lex LxBetween "{").
    change (lex_run LxBetween "{") with (Some (LxBetween, [TLBrace])).
    cbv iota beta.
    rewrite (lex_run_lex LxBetween (JSON_quote "blobName" +:+ ":" +:+ JSON_quote b)).
    rewrite (lex_run_app LxBetween (JSON_quote "blobName")).
    rewrite (lex_run_JSON_quote "blobName"). cbv iota beta.
    rewrite (lex_run_app LxBetween ":").
    change (lex_run LxBetween ":") with (Some (LxBetween, [TColon])).
    cbv iota beta.
    rewrite (lex_run_JSON_quote b). reflexivity.
Qed.

End FileUploadFurther.

(** ** What [JSON.stringify] writes, [JSON.parse] reads back *)

Lemma scans_lexes text toks : scans text toks -> lexes text toks.
Proof.
  intros H rest _. rewrite lex_run_lex. unfold scans in H. now rewrite H.
Qed.

Lemma scans_app a b ta tb : scans a ta -> scans b tb -> scans (a +:+ b) (ta ++ tb).
Proof.
  unfold scans. intros Ha Hb. now rewrite lex_run_app, Ha, Hb.
Qed.

Lemma scans_then_lexes a b ta tb :
  scans a ta -> lexes b tb -> lexes (a +:+ b) (ta ++ tb).
Proof.
  intros Ha Hb rest Hrest. rewrite append_assoc, lex_run_lex. unfold scans in Ha.
  rewrite Ha, (Hb rest Hrest). destruct (lex LxBetween rest); [|reflexivity].
  now rewrite app_assoc.
Qed.

Lemma lexes_then_delimiter a c b ta tb :
  is_delimiter c = true ->
  lexes a ta -> lexes (String c b) tb -> lexes (a +:+ String c b) (ta ++ tb).
Proof.
  intros Hc Ha Hb rest Hrest. rewrite append_assoc.
  change (String c b +:+ rest) with (String c (b +:+ rest)).
  rewrite (Ha (String c (b +:+ rest)) Hc).
  change (String c (b +:+ rest)) with (String c b +:+ rest).
  rewrite (Hb rest Hrest). destruct (lex LxBetween rest); [|reflexivity].
  now rewrite app_assoc.
Qed.

Lemma to_uint_head (p : positive) :
  match Pos.to_uint p with
  | Decimal.Nil | Decimal.D0 _ => False
  | _ => True
  end.
Proof.
  assert (Hnorm : Decimal.unorm (Pos.to_uint p) = Pos.to_uint p).
  { rewrite <- (DecimalPos.Unsigned.to_of (Pos.to_uint p)).
    now rewrite DecimalPos.Unsigned.of_to. }
  pose proof (DecimalPos.Unsigned.to_uint_nonzero p) as Hnz.
  pose proof (DecimalPos.Unsigned.to_uint_nonnil p) as Hnn.
  destruct (Pos.to_uint p) as [|x| | | | | | | | |]; try exact I.
  - now apply Hnn.
  - unfold Decimal.unorm in Hnorm. cbn [Decimal.nzhead] in Hnorm.
    pose proof (DecimalFacts.nb_digits_nzhead x) as Hlen.
    destruct (Decimal.nzhead x) eqn:Hx.
    + injection Hnorm as <-. now apply Hnz.
    + rewrite Hnorm in Hlen. cbn in Hlen. lia.
    + discriminate.
    + discriminate.
    + discriminate.
    + discriminate.
    + discriminate.
    + discriminate.
    + discriminate.
    + discriminate.
    + discriminate.
Qed.

Lemma is_digit_cases (c : ascii) :
  is_digit c = true ->
  In c ["0"; "1"; "2"; "3"; "4"; "5"; "6"; "7"; "8"; "9"]%char.
Proof.
  destruct c as [[] [] [] [] [] [] [] []]; intros H;
    try (vm_compute in H; discriminate H); cbn; tauto.
Qed.

Lemma num_step_digit (st st' : NumState) (c : ascii) :
  is_digit c = true -> after_digit st = Some st' -> num_step st c = Some st'.
Proof.
  intros Hc Hst. apply is_digit_cases in Hc.
  repeat (destruct Hc as [<-|Hc]; [destruct st; inversion Hst; reflexivity|]).
  destruct Hc.
Qed.

Lemma lex_between_digit (c : ascii) :
  is_digit c = true ->
  lex_step LxBetween c = Some (LxNumber (num_start c) (String c ""), []).
Proof.
  intros Hc. apply is_digit_cases in Hc.
  repeat (destruct Hc as [<-|Hc]; [reflexivity|]). destruct Hc.
Qed.

Lemma num_step_minus_digit (c : ascii) :
  is_digit c = true -> num_step NMinus c = Some (num_start c).
Proof.
  intros Hc. apply is_digit_cases in Hc.
  repeat (destruct Hc as [<-|Hc]; [reflexivity|]). destruct Hc.
Qed.

Lemma num_run_nil (st : NumState) : num_run st "" st.
Proof. intros numeral. cbn [lex_run]. now rewrite append_nil_r. Qed.

Lemma num_run_char (st st' : NumState) (c : ascii) :
  num_step st c = Some st' -> num_run st (String c "") st'.
Proof. intros H numeral. cbn [lex_run lex_step]. now rewrite H. Qed.

Lemma num_run_app (st st1 st2 : NumState) (a b : string) :
  num_run st a st1 -> num_run st1 b st2 -> num_run st (a +:+ b) st2.
Proof.
  intros Ha Hb numeral. now rewrite lex_run_app, Ha, Hb, append_assoc.
Qed.

Lemma num_run_cons (st st1 st2 : NumState) (c : ascii) (b : string) :
  num_step st c = Some st1 -> num_run st1 b st2 -> num_run st (String c b) st2.
Proof.
  intros Hc Hb. change (String c b) with (String c "" +:+ b).
  eapply num_run_app; [apply num_run_char; exact Hc|exact Hb].
Qed.

Lemma num_run_digits (st : NumState) (s : string) :
  after_digit st = Some st -> all_chars is_digit s = true -> num_run st s st.
Proof.
  intros Hst. induction s as [|c s IH]; [intros _; apply num_run_nil|].
  cbn [all_chars]. intros [Hc Hs]%andb_true_iff.
  apply (num_run_cons st st st); [now apply num_step_digit|now apply IH].
Qed.

(** One digit at least takes the scanner from [st] to [st']. *)
Lemma num_run_digits1 (st st' : NumState) (s : string) :
  after_digit st = Some st' -> after_digit st' = Some st' ->
  s <> "" -> all_chars is_digit s = true -> num_run st s st'.
Proof.
  intros Hst Hst' Hne. destruct s as [|c s]; [contradiction|].
  cbn [all_chars]. intros [Hc Hs]%andb_true_iff.
  apply (num_run_cons st st' st'); [now apply num_step_digit|now apply num_run_digits].
Qed.

Lemma string_of_uint_digits (d : Decimal.uint) :
  all_chars is_digit (NilEmpty.string_of_uint d) = true.
Proof. induction d; cbn [NilEmpty.string_of_uint all_chars]; [reflexivity|..]; exact IHd. Qed.

Lemma NilZero_digits (d : Decimal.uint) :
  all_chars is_digit (NilZero.string_of_uint d) = true
  /\ NilZero.string_of_uint d <> "".
Proof.
  unfold NilZero.string_of_uint. destruct d; try (split; [apply (string_of_uint_digits (_ d))|discriminate]).
  split; [reflexivity|discriminate].
Qed.

(** The digits of a positive integer: a digit that is not 0, then digits. *)
Lemma digits_of_shape (p : positive) :
  exists c rest,
    digits_of p = String c rest
    /\ is_digit c = true /\ c <> "0"%char /\ all_chars is_digit rest = true.
Proof.
  unfold digits_of, NilZero.string_of_uint.
  pose proof (to_uint_head p) as Hhead.
  pose proof (string_of_uint_digits (Pos.to_uint p)) as Hall.
  destruct (Pos.to_uint p) as [|x|x|x|x|x|x|x|x|x|x]; try contradiction;
    cbn [NilEmpty.string_of_uint all_chars] in *;
    do 2 eexists; (split; [reflexivity|]); (split; [reflexivity|]);
    (split; [discriminate|exact Hall]).
Qed.

Lemma drop_trailing_zeros_chars (p : ascii -> bool) (s : string) :
  all_chars p s = true -> all_chars p (drop_trailing_zeros s) = true.
Proof.
  induction s as [|c s IH]; [reflexivity|].
  cbn [all_chars drop_trailing_zeros]. intros [Hc Hs]%andb_true_iff.
  specialize (IH Hs). destruct (drop_trailing_zeros s) as [|d more].
  - destruct (Ascii.eqb c "0"); [reflexivity|]. cbn [all_chars]. now rewrite Hc.
  - cbn [all_chars] in *. now rewrite Hc, IH.
Qed.

Lemma drop_trailing_zeros_head (c : ascii) (s : string) :
  c <> "0"%char ->
  exists rest, drop_trailing_zeros (String c s) = String c rest.
Proof.
  intros Hc. cbn [drop_trailing_zeros]. destruct (drop_trailing_zeros s) as [|d more].
  - apply Ascii.eqb_neq in Hc. rewrite Hc. now exists "".
  - now eexists.
Qed.

Lemma zeros_digits (count : nat) : all_chars is_digit (zeros count) = true.
Proof. induction count as [|n IH]; [reflexivity|exact IH]. Qed.

Lemma first_chars_other_chars (count : nat) (s : string) :
  first_chars count s +:+ other_chars count s = s.
Proof.
  revert s. induction count as [|n IH]; intros [|c s]; try reflexivity.
  cbn [first_chars other_chars].
  change (String c (first_chars n s) +:+ other_chars n s)
    with (String c (first_chars n s +:+ other_chars n s)).
  now rewrite IH.
Qed.

Lemma first_chars_digits (p : ascii -> bool) (count : nat) (s : string) :
  all_chars p s = true -> all_chars p (first_chars count s) = true.
Proof.
  revert s. induction count as [|n IH]; intros [|c s]; try reflexivity.
  cbn [first_chars all_chars]. intros [Hc Hs]%andb_true_iff.
  now rewrite Hc, (IH s Hs).
Qed.

Lemma other_chars_digits (p : ascii -> bool) (count : nat) (s : string) :
  all_chars p s = true -> all_chars p (other_chars count s) = true.
Proof.
  revert s. induction count as [|n IH]; intros [|c s]; try reflexivity; try tauto.
  cbn [other_chars all_chars]. intros [Hc Hs]%andb_true_iff. now apply IH.
Qed.

Lemma other_chars_nonempty (count : nat) (s : string) :
  count < String.length s -> other_chars count s <> "".
Proof.
  revert s. induction count as [|n IH]; intros [|c s]; cbn [String.length other_chars];
    try lia; try discriminate.
  intros H. apply IH. lia.
Qed.

(** The text of a positive number is a numeral: after its first
    character, a digit, the scanner reads the others and is left in a
    state in which the numeral may end. *)
Lemma positive_toString_shape (p : positive) (e : Z) :
  exists c rest st',
    positive_toString p e = String c rest
    /\ is_digit c = true
    /\ num_run (num_start c) rest st'
    /\ num_accepting st' = true.
Proof.
  unfold positive_toString.
  destruct (digits_of_shape p) as (c & all' & Hall & Hc & Hc0 & Hdigits).
  rewrite Hall.
  destruct (drop_trailing_zeros_head c all' Hc0) as (s' & Hs).
  assert (Hs' : all_chars is_digit s' = true).
  { pose proof (drop_trailing_zeros_chars is_digit (String c all')) as H.
    rewrite Hs in H. cbn [all_chars] in H. rewrite Hc, Hdigits in H.
    specialize (H eq_refl). now apply andb_true_iff in H as [_ H]. }
  rewrite Hs.
  assert (Hstart : num_start c = NInt).
  { unfold num_start. apply Ascii.eqb_neq in Hc0. now rewrite Hc0. }
  set (k := Z.of_nat (String.length (String c s'))).
  set (n := (Z.of_nat (String.length (String c all')) + e)%Z).
  destruct ((k <=? n)%Z && (n <=? 21)%Z) eqn:H1.
  { (* digits, then zeros *)
    exists c, (s' +:+ zeros (Z.to_nat (n - k))), NInt.
    split; [reflexivity|]. split; [exact Hc|]. split; [|reflexivity].
    rewrite Hstart. apply num_run_digits; [reflexivity|].
    now rewrite all_chars_app, Hs', zeros_digits. }
  destruct ((0 <? n)%Z && (n <=? 21)%Z) eqn:H2.
  { (* digits, a point, digits *)
    apply andb_true_iff in H2 as [Hn0 Hn21]. apply Z.ltb_lt in Hn0.
    assert (Hkn : (n < k)%Z).
    { apply andb_false_iff in H1 as [H1|H1]; [now apply Z.leb_gt in H1|].
      rewrite Hn21 in H1. discriminate. }
    destruct (Z.to_nat n) as [|m] eqn:Hm; [lia|].
    cbn [first_chars other_chars].
    exists c, (first_chars m s' +:+ "." +:+ other_chars m s'), NFrac.
    split; [reflexivity|]. split; [exact Hc|]. split; [|reflexivity].
    rewrite Hstart.
    eapply num_run_app;
      [apply num_run_digits; [reflexivity|now apply first_chars_digits]|].
    eapply (num_run_cons _ NDot); [reflexivity|].
    apply num_run_digits1; try reflexivity.
    - apply other_chars_nonempty. subst k. cbn [String.length] in Hkn. lia.
    - now apply other_chars_digits. }
  destruct ((-6 <? n)%Z && (n <=? 0)%Z) eqn:H3.
  { (* 0, a point, zeros, digits *)
    exists "0"%char, ("." +:+ zeros (Z.to_nat (- n)) +:+ String c s'), NFrac.
    split; [reflexivity|]. split; [reflexivity|]. split; [|reflexivity].
    change (num_start "0") with NZero.
    eapply (num_run_cons _ NDot); [reflexivity|].
    apply num_run_digits1; try reflexivity.
    - destruct (zeros (Z.to_nat (- n))); discriminate.
    - rewrite all_chars_app, zeros_digits. cbn [all_chars]. now rewrite Hc, Hs'. }
  (* the exponent form *)
  destruct (NilZero_digits (N.to_uint (Z.abs_N (n - 1)))) as [Hexp Hexp0].
  assert (Hrun : num_run NExp (exponent_text (n - 1)) NExpDigits).
  { unfold exponent_text.
    destruct (n - 1 <? 0)%Z;
      (eapply (num_run_cons _ NExpSign); [reflexivity|];
       apply num_run_digits1; try reflexivity; assumption). }
  destruct s' as [|d more].
  - exists c, ("e" +:+ exponent_text (n - 1)), NExpDigits.
    split; [reflexivity|]. split; [exact Hc|]. split; [|reflexivity].
    rewrite Hstart. eapply (num_run_cons _ NExp); [reflexivity|exact Hrun].
  - exists c, ("." +:+ String d more +:+ "e" +:+ exponent_text (n - 1)), NExpDigits.
    split; [reflexivity|]. split; [exact Hc|]. split; [|reflexivity].
    rewrite Hstart. eapply (num_run_cons _ NDot); [reflexivity|].
    eapply num_run_app;
      [apply (num_run_digits1 NDot NFrac); try reflexivity; [discriminate|exact Hs']|].
    eapply (num_run_cons _ NExp); [reflexivity|exact Hrun].
Qed.

Lemma lex_number_end (st : NumState) (numeral rest : string) :
  num_accepting st = true ->
  delimited rest ->
  lex (LxNumber st numeral) rest
  = match lex LxBetween rest with
    | Some more => Some (TNumber numeral :: more)
    | None => None
    end.
Proof.
  intros Hst Hrest. destruct rest as [|c r].
  - cbn [lex lex_end]. now rewrite Hst.
  - cbn [delimited] in Hrest. unfold is_delimiter in Hrest. cbn [occurs] in Hrest.
    assert (Hc : c = ","%char \/ c = "]"%char \/ c = "}"%char).
    { rewrite orb_false_r in Hrest.
      apply orb_true_iff in Hrest as [H|H]; [apply Ascii.eqb_eq in H; auto|].
      apply orb_true_iff in H as [H|H]; apply Ascii.eqb_eq in H; auto. }
    destruct Hc as [->|[->| ->]]; destruct st; try discriminate Hst;
      cbn [lex];
      repeat match goal with
      | |- context [lex_step ?m ?c] =>
          let v := eval vm_compute in (lex_step m c) in
          change (lex_step m c) with v
      end; cbv iota beta; now destruct (lex LxBetween r).
Qed.

Lemma lexes_number (x : Number) :
  is_finite x = true -> lexes (Number_toString x) [TNumber (Number_toString x)].
Proof.
  intros Hx rest Hrest. rewrite lex_run_lex.
  assert (Hrun : exists st, num_accepting st = true
                            /\ lex_run LxBetween (Number_toString x)
                               = Some (LxNumber st (Number_toString x), [])).
  { destruct x as [| |[|p|p] e]; try discriminate Hx; cbn [Number_toString].
    - exists NZero. split; reflexivity.
    - destruct (positive_toString_shape p e) as (c & more & st' & -> & Hc & Hmore & Hacc).
      exists st'. split; [exact Hacc|].
      cbn [lex_run]. rewrite (lex_between_digit c Hc). cbv iota beta.
      now rewrite (Hmore (String c "")).
    - destruct (positive_toString_shape p e) as (c & more & st' & -> & Hc & Hmore & Hacc).
      exists st'. split; [exact Hacc|].
      change ("-" +:+ String c more) with (String "-" (String c more)).
      cbn [lex_run].
      change (lex_step LxBetween "-") with (Some (LxNumber NMinus "-", @nil Token)).
      cbv iota beta. cbn [lex_step]. rewrite (num_step_minus_digit c Hc).
      cbv iota beta. change ("-" +:+ String c "") with (String "-" (String c "")).
      now rewrite (Hmore (String "-" (String c ""))). }
  destruct Hrun as (st & Hst & ->).
  rewrite (lex_number_end st _ rest Hst Hrest).
  now destruct (lex LxBetween rest).
Qed.

Lemma js_size_In (x : JsValue) (items : list JsValue) :
  In x items -> js_size x <= list_sum (map js_size items).
Proof.
  induction items as [|y items IH]; [intros []|].
  unfold list_sum in *.
  intros [->|Hin]; cbn [map fold_right]; [lia|]. specialize (IH Hin). lia.
Qed.

Lemma js_size_In_props (kv : string * JsValue) (props : list (string * JsValue)) :
  In kv props -> js_size (snd kv) <= list_sum (map (fun kv => js_size (snd kv)) props).
Proof.
  induction props as [|y props IH]; [intros []|].
  unfold list_sum in *.
  intros [->|Hin]; cbn [map fold_right]; [lia|]. specialize (IH Hin). lia.
Qed.

Lemma JsValue_nested_ind (P : JsValue -> Prop) :
  P JsUndefined -> P JsNull -> (forall b, P (JsBool b)) -> (forall n, P (JsNumber n)) ->
  (forall s, P (JsString s)) ->
  (forall items, Forall P items -> P (JsArray items)) ->
  (forall props, Forall (fun kv => P (snd kv)) props -> P (JsObject props)) ->
  forall v, P v.
Proof.
  intros Hu Hn Hb Hnum Hs Harr Hobj v.
  remember (js_size v) as n eqn:Hn'. assert (Hle : js_size v <= n) by lia. clear Hn'.
  revert v Hle. induction n as [|n IH]; intros v Hle.
  - destruct v; cbn [js_size] in Hle; lia.
  - destruct v as [| |b|z|s|items|props]; auto.
    + apply Harr. apply List.Forall_forall. intros x Hin. apply IH.
      pose proof (js_size_In x items Hin). cbn [js_size] in Hle. lia.
    + apply Hobj. apply List.Forall_forall. intros kv Hin. apply IH.
      pose proof (js_size_In_props kv props Hin). cbn [js_size] in Hle. lia.
Qed.

Lemma stringify_defined (v : JsValue) :
  is_defined v = true -> JSON_stringify v = Some (elem_text v).
Proof.
  unfold elem_text. destruct v as [| |[]| | | |]; cbn [JSON_stringify is_defined];
    try reflexivity; discriminate.
Qed.

Lemma stringify_undefined (v : JsValue) :
  is_defined v = false -> JSON_stringify v = None.
Proof. destruct v; cbn; try discriminate; reflexivity. Qed.

Lemma lexes_join (l : list (string * list Token)) (close : ascii) (tail : string)
    (tt : list Token) :
  Forall (fun p => lexes (fst p) (snd p)) l ->
  is_delimiter close = true ->
  lexes (String close tail) tt ->
  lexes (join "," (map fst l) +:+ String close tail) (sep_tokens (map snd l) ++ tt).
Proof.
  intros Hall Hclose Htail. induction Hall as [|[x tx] l Hx Hl IH].
  - exact Htail.
  - destruct l as [|[y ty] l'].
    + apply lexes_then_delimiter; assumption.
    + set (J := join "," (map fst ((y, ty) :: l'))) in *.
      set (T := sep_tokens (map snd ((y, ty) :: l'))) in *.
      change (join "," (map fst ((x, tx) :: (y, ty) :: l'))) with (x +:+ "," +:+ J).
      change (sep_tokens (map snd ((x, tx) :: (y, ty) :: l')))
        with (tx ++ TComma :: T).
      assert (Hcomma : lexes (String "," (J +:+ String close tail))
                         ([TComma] ++ (T ++ tt))).
      { apply (scans_then_lexes "," _ [TComma]); [reflexivity|exact IH]. }
      pose proof (lexes_then_delimiter x "," _ tx _ eq_refl Hx Hcomma) as H.
      assert (E1 : (x +:+ "," +:+ J) +:+ String close tail
                   = x +:+ String "," (J +:+ String close tail))
        by (now rewrite append_assoc).
      assert (E2 : (tx ++ TComma :: T) ++ tt = tx ++ [TComma] ++ (T ++ tt))
        by (now rewrite <- app_assoc).
      rewrite E1, E2. exact H.
Qed.

Lemma lexes_value (v : JsValue) : lexes (elem_text v) (tokens_of v).
Proof.
  induction v as [| |b|n|s|items IH|props IH] using JsValue_nested_ind.
  - now apply scans_lexes.
  - now apply scans_lexes.
  - destruct b; now apply scans_lexes.
  - unfold elem_text. cbn [JSON_stringify tokens_of].
    destruct (is_finite n) eqn:Hn; [now apply lexes_number|now apply scans_lexes].
  - apply scans_lexes. apply lex_run_JSON_quote.
  - change (elem_text (JsArray items))
      with ("[" +:+ join "," (map elem_text items) +:+ "]").
    cbn [tokens_of].
    apply (scans_then_lexes "[" _ [TLBracket]); [reflexivity|].
    replace (map elem_text items)
      with (map fst (map (fun x => (elem_text x, tokens_of x)) items))
      by (rewrite map_map; reflexivity).
    replace (map tokens_of items)
      with (map snd (map (fun x => (elem_text x, tokens_of x)) items))
      by (rewrite map_map; reflexivity).
    apply lexes_join; [|reflexivity|now apply scans_lexes].
    apply List.Forall_map. exact IH.
  - set (l := flat_map (fun kv : string * JsValue =>
                if is_defined (snd kv)
                then [(JSON_quote (fst kv) +:+ ":" +:+ elem_text (snd kv),
                       TString (units_of (fst kv)) :: TColon :: tokens_of (snd kv))]
                else []) props).
    assert (Htext : elem_text (JsObject props) = "{" +:+ join "," (map fst l) +:+ "}").
    { unfold elem_text. cbn [JSON_stringify]. do 3 f_equal. subst l. clear IH.
      induction props as [|[k x] props IHp]; [reflexivity|].
      cbn [flat_map fst snd]. destruct (is_defined x) eqn:Hx.
      - rewrite (stringify_defined x Hx). cbn [app map fst]. now rewrite IHp.
      - rewrite (stringify_undefined x Hx). cbn [app]. exact IHp. }
    assert (Htoks : tokens_of (JsObject props)
                    = TLBrace :: sep_tokens (map snd l) ++ [TRBrace]).
    { cbn [tokens_of]. do 3 f_equal. subst l. clear IH Htext.
      induction props as [|[k x] props IHp]; [reflexivity|].
      cbn [flat_map fst snd]. destruct (is_defined x); cbn [app map snd];
        now rewrite IHp. }
    rewrite Htext, Htoks.
    apply (scans_then_lexes "{" _ [TLBrace]); [reflexivity|].
    apply lexes_join; [|reflexivity|now apply scans_lexes].
    subst l. clear Htext Htoks. induction IH as [|[k x] props Hx Hprops IHp].
    + constructor.
    + cbn [flat_map fst snd]. destruct (is_defined x); [|exact IHp].
      cbn [app]. constructor; [|exact IHp]. cbn [fst snd].
      apply (scans_then_lexes (JSON_quote k) _ [TString (units_of k)]);
        [apply lex_run_JSON_quote|].
      apply (scans_then_lexes ":" _ [TColon]); [reflexivity|exact Hx].
Qed.

Lemma parses_scalar (tok : Token) (j : JsonValue) :
  (forall stack, start_value tok stack = complete j stack) ->
  tok <> TRBracket ->
  parses [tok] j.
Proof.
  intros Hstart Hne st stack rest [-> | ->]; cbn [app parse_tokens parse_step].
  - now rewrite Hstart.
  - destruct tok; try contradiction; now rewrite <- Hstart.
Qed.

Lemma parses_items (l : list (list Token * JsonValue)) :
  Forall (fun p => parses (fst p) (snd p)) l ->
  l <> [] ->
  forall acc stack rest st,
    st = PValue \/ st = PFirstItem ->
    parse_tokens st (InArray acc :: stack) (sep_tokens (map fst l) ++ TRBracket :: rest)
    = match complete (JsonArray (acc ++ map snd l)) stack with
      | Some (st', stack') => parse_tokens st' stack' rest
      | None => None
      end.
Proof.
  intros Hall. induction Hall as [|[tx jx] l Hx Hl IH]; [contradiction|].
  intros _ acc stack rest st Hst. cbn [fst snd] in Hx.
  destruct l as [|[ty jy] l'].
  - cbn [map sep_tokens fst snd].
    rewrite (Hx st (InArray acc :: stack) (TRBracket :: rest) Hst).
    reflexivity.
  - set (T := sep_tokens (map fst ((ty, jy) :: l'))) in *.
    change (sep_tokens (map fst ((tx, jx) :: (ty, jy) :: l')))
      with (tx ++ TComma :: T).
    rewrite <- app_assoc.
    rewrite (Hx st (InArray acc :: stack) ((TComma :: T) ++ TRBracket :: rest) Hst).
    cbn [complete app parse_tokens parse_step].
    rewrite (IH ltac:(discriminate) (acc ++ [jx]) stack rest PValue (or_introl eq_refl)).
    cbn [map snd]. now rewrite <- app_assoc.
Qed.

Lemma parses_members (l : list (list N * (list Token * JsonValue))) :
  Forall (fun p => parses (fst (snd p)) (snd (snd p))) l ->
  l <> [] ->
  forall acc stack rest st,
    st = PFirstKey \/ st = PKey ->
    parse_tokens st (InObject acc None :: stack)
      (sep_tokens (map member_tokens l) ++ TRBrace :: rest)
    = match complete (JsonObject (acc ++ map member_json l)) stack with
      | Some (st', stack') => parse_tokens st' stack' rest
      | None => None
      end.
Proof.
  intros Hall. induction Hall as [|[k [tx jx]] l Hx Hl IH]; [contradiction|].
  intros _ acc stack rest st Hst. cbn [fst snd] in Hx.
  assert (Hkey : forall more,
             parse_tokens st (InObject acc None :: stack)
               (TString k :: TColon :: tx ++ more)
             = parse_tokens PNextMember (InObject (acc ++ [(k, jx)]) None :: stack) more).
  { intros more. destruct Hst as [-> | ->];
      cbn [parse_tokens parse_step read_key];
      now rewrite (Hx PValue _ more (or_introl eq_refl)). }
  destruct l as [|[k2 [ty jy]] l'].
  - etransitivity; [exact (Hkey (TRBrace :: rest))|reflexivity].
  - set (T := sep_tokens (map member_tokens ((k2, (ty, jy)) :: l'))) in *.
    change (sep_tokens (map member_tokens ((k, (tx, jx)) :: (k2, (ty, jy)) :: l')))
      with ((TString k :: TColon :: tx) ++ TComma :: T).
    rewrite <- app_assoc.
    etransitivity; [exact (Hkey ((TComma :: T) ++ TRBrace :: rest))|].
    cbn [app parse_tokens parse_step].
    rewrite (IH ltac:(discriminate) (acc ++ [(k, jx)]) stack rest PKey (or_intror eq_refl)).
    cbn [map member_json fst snd]. now rewrite <- app_assoc.
Qed.

Lemma parses_value (v : JsValue) : parses (tokens_of v) (json_of v).
Proof.
  induction v as [| |b|n|s|items IH|props IH] using JsValue_nested_ind.
  - now apply parses_scalar.
  - now apply parses_scalar.
  - destruct b; now apply parses_scalar.
  - cbn [tokens_of json_of]. destruct (is_finite n); now apply parses_scalar.
  - now apply parses_scalar.
  - intros st stack rest Hst. cbn [tokens_of json_of].
    change ((TLBracket :: sep_tokens (map tokens_of items) ++ [TRBracket]) ++ rest)
      with (TLBracket :: (sep_tokens (map tokens_of items) ++ [TRBracket]) ++ rest).
    rewrite <- app_assoc.
    assert (Hopen : forall more,
               parse_tokens st stack (TLBracket :: more)
               = parse_tokens PFirstItem (InArray [] :: stack) more)
      by (intros more; now destruct Hst as [-> | ->]).
    rewrite Hopen. destruct items as [|x items].
    + reflexivity.
    + replace (map tokens_of (x :: items))
        with (map fst (map (fun x => (tokens_of x, json_of x)) (x :: items)))
        by (rewrite map_map; reflexivity).
      assert (Hall : Forall (fun p => parses (fst p) (snd p))
                        (map (fun x => (tokens_of x, json_of x)) (x :: items)))
        by (apply List.Forall_map; exact IH).
      etransitivity;
        [exact (parses_items _ Hall ltac:(discriminate)
                  [] stack rest PFirstItem (or_intror eq_refl))|].
      now rewrite map_map.
  - intros st stack rest Hst.
    set (l := flat_map (fun kv : string * JsValue =>
                if is_defined (snd kv)
                then [(units_of (fst kv), (tokens_of (snd kv), json_of (snd kv)))]
                else []) props).
    assert (Htoks : tokens_of (JsObject props)
                    = TLBrace :: sep_tokens (map member_tokens l) ++ [TRBrace]).
    { cbn [tokens_of]. do 3 f_equal. subst l. clear IH.
      induction props as [|[k x] props IHp]; [reflexivity|].
      cbn [flat_map fst snd]. destruct (is_defined x); cbn [app map]; now rewrite IHp. }
    assert (Hjson : json_of (JsObject props) = JsonObject (map member_json l)).
    { cbn [json_of]. f_equal. subst l. clear IH Htoks.
      induction props as [|[k x] props IHp]; [reflexivity|].
      cbn [flat_map fst snd]. destruct (is_defined x); cbn [app map]; now rewrite IHp. }
    assert (Hall : Forall (fun p => parses (fst (snd p)) (snd (snd p))) l).
    { subst l. clear Htoks Hjson. induction IH as [|[k x] props Hx Hprops IHp].
      - constructor.
      - cbn [flat_map fst snd]. destruct (is_defined x); [|exact IHp].
        cbn [app]. constructor; [exact Hx|exact IHp]. }
    rewrite Htoks, Hjson.
    change ((TLBrace :: sep_tokens (map member_tokens l) ++ [TRBrace]) ++ rest)
      with (TLBrace :: (sep_tokens (map member_tokens l) ++ [TRBrace]) ++ rest).
    rewrite <- app_assoc.
    assert (Hopen : forall more,
               parse_tokens st stack (TLBrace :: more)
               = parse_tokens PFirstKey (InObject [] None :: stack) more)
      by (intros more; now destruct Hst as [-> | ->]).
    rewrite Hopen. destruct l as [|p l'] eqn:Hl.
    + reflexivity.
    + exact (parses_members _ Hall ltac:(discriminate)
               [] stack rest PFirstKey (or_introl eq_refl)).
Qed.

(** What [JSON.stringify] writes for a value, [JSON.parse] reads back as
    that value. *)
Lemma stringify_parses_back (v : JsValue) (s : string) :
  JSON_stringify v = Some s -> JSON_parse s = Some (json_of v).
Proof.
  intros Hs. assert (Htext : s = elem_text v) by (unfold elem_text; now rewrite Hs).
  subst s. unfold JSON_parse.
  pose proof (lexes_value v "" I) as Hlex. rewrite append_nil_r in Hlex.
  rewrite Hlex. cbn [lex lex_end].
  rewrite (parses_value v PValue [] [] (or_introl eq_refl)). reflexivity.
Qed.

Section FileUploadBodies.

Context {X509 Response Transport : Type}.
Variable apiVersion : string.
Variable packageJson : PackageJson.

Implicit Types (w : @World X509 Response Transport).
Implicit Types (this : @FileUploadApi Transport).
Implicit Types (auth : Nullable (@Auth X509)).
Implicit Types (correlationId : Nullable String16).

(** X12. The body of the notification is a JSON text whatever the upload
    result holds: [JSON.parse] reads it back as the upload result, where a
    finite number is the numeral [Number::toString] writes for it, a
    number that is not finite and an [undefined] inside an array are
    [null], and a property whose value is [undefined] is left out. *)
Theorem notification_body_parses_back
    this correlationId auth (props : BlobUploadResult) done w r w' body :
  notifyUploadComplete apiVersion packageJson this correlationId auth (value props)
    done w = (r, w') ->
  In (write body) (issued w w') ->
  JSON_parse body = Some (json_of (JsObject props)).
Proof.
  intros Hrun Hin.
  destruct (notifyUploadComplete_cases apiVersion packageJson
              this correlationId auth (value props) done w)
    as [(msg & Heq & _)
       |[(c & _ & _ & _ & _ & _ & Heq)
        |[(_ & _ & _ & _ & Heq)
         |(c & encoded & h & props' & body' & hs & _ & _ & _ & _ & _ & _ & Hp & Hbody & _
           & Heq)]]];
    rewrite Heq in Hrun.
  - injection Hrun as <- <-. rewrite issued_refl in Hin. destruct Hin.
  - injection Hrun as <- <-. rewrite issued_refl in Hin. destruct Hin.
  - injection Hrun as <- <-. rewrite issued_refl in Hin. destruct Hin.
  - destruct (In_issued_send _ _ _ _ _ _ _ _ _ _ Hrun Hin) as [E|[E|E]];
      try discriminate E.
    injection E as ->. injection Hp as <-.
    now apply stringify_parses_back.
Qed.

(** X13. When [getBlobSharedAccessSignature] was given no function for
    [done], its completion callback throws a [TypeError] at the call of
    [done]: on an error only after the response body and the response were
    set on the [Error] object, which keeps them; without an error only
    when the body is a JSON text (otherwise the [SyntaxError] comes
    first). No call is recorded. *)
Theorem credential_callback_missing_throws
    (done : Nullable Fn) (err : Nullable loc) (body : Nullable string)
    (resp : Nullable Response) w :
  done = undefined \/ done = null ->
  (forall e obj,
      err = value e -> store w !! e = Some obj ->
      exists w',
        complete_request (onBlobSasResponse done) err body resp w = (Throw TypeError, w')
        /\ trace w' = trace w
        /\ store w' !! e
           = Some {| message := message obj;
                     responseBody := Some body;
                     response := Some resp |})
  /\ (err = undefined \/ err = null ->
      (is_Some (JSON_parse (ToString body)) ->
       complete_request (onBlobSasResponse done) err body resp w = (Throw TypeError, w))
      /\ (JSON_parse (ToString body) = None ->
          complete_request (onBlobSasResponse done) err body resp w
          = (Throw SyntaxError, w))).
Proof.
  intros Hdone. split.
  - intros e obj -> Hobj. eexists. split; [|split].
    + cbn [complete_request]. unfold blobSasResponse, bind, set_responseBody, set_response.
      destruct Hdone as [-> | ->]; reflexivity.
    + reflexivity.
    + cbn [store]. now rewrite !lookup_alter_eq, Hobj.
  - intros Herr. cbn [complete_request]. unfold blobSasResponse. split.
    + intros [j Hj]. rewrite Hj.
      destruct Herr as [-> | ->]; destruct Hdone as [-> | ->]; reflexivity.
    + intros Hj. rewrite Hj. destruct Herr as [-> | ->]; reflexivity.
Qed.

End FileUploadBodies.

(** ** The further properties at sample values *)

(** ** The further properties at sample values *)

Lemma sample_plain_request_issued :
  notifyUploadComplete sample_apiVersion sample_package sample_api
    (value (wide "c1_a.b-2")) sample_auth (value sample_upload_result) undefined sample_world
  = (Return tt, sample_world_plain).
Proof. vm_compute. reflexivity. Qed.

Lemma sample_request_failed :
  complete_request (onBlobSasResponse (value 7)) (value 4) (value "busy")
    (null : Nullable unit) sample_world_requested
  = (Return tt, sample_world_failed).
Proof. vm_compute. reflexivity. Qed.

Lemma sample_api_constructed :
  constructor (value "thermostat") (value "contoso.azure-devices.net") (value 1)
  = Return sample_api.
Proof. reflexivity. Qed.

(** X1 with nothing given at all. *)
Lemma first_missing_argument_is_named_witness :
  truthy (undefined : Nullable string) = false
  /\ constructor undefined undefined (undefined : Nullable nat)
     = Throw (ReferenceError "deviceId cannot be 'undefined'")
  /\ getBlobSharedAccessSignature sample_apiVersion sample_package sample_api
       undefined (undefined : Nullable (@Auth unit)) undefined sample_world
     = (Throw (ReferenceError "blobName cannot be 'undefined'"), sample_world)
  /\ notifyUploadComplete sample_apiVersion sample_package sample_api
       undefined (undefined : Nullable (@Auth unit)) undefined undefined sample_world
     = (Throw (ReferenceError "correlationId cannot be 'undefined'"), sample_world).
Proof.
  assert (H : truthy (undefined : Nullable string) = false) by reflexivity.
  split; [exact H|].
  destruct (first_missing_argument_is_named sample_apiVersion sample_package
              undefined undefined undefined undefined (undefined : Nullable nat)
              sample_api (undefined : Nullable (@Auth unit)) undefined undefined
              sample_world) as (Hd & _ & Hb & _ & Hc & _).
  split; [exact (Hd H)|]. split; [exact (Hb H)|exact (Hc H)].
Defined.

(** X2 at the sample credential request. *)
Lemma request_is_all_or_nothing_witness :
  (getBlobSharedAccessSignature sample_apiVersion sample_package sample_api
     (value "photo.jpg") sample_auth (value 7) sample_world
   = (Return tt, sample_world_requested)
   \/ notifyUploadComplete sample_apiVersion sample_package sample_api
        undefined sample_auth undefined (value 7) sample_world
      = (Return tt, sample_world_requested))
  /\ store sample_world_requested = store sample_world
  /\ (forall f, calls f (trace sample_world_requested) = calls f (trace sample_world))
  /\ ((exists e, Return tt = Throw e) /\ sample_world_requested = sample_world
      \/ Return tt = Return tt
         /\ exists path headers (x509Opts : Nullable unit) callback body,
             trace sample_world_requested = trace sample_world ++
               [buildRequest (http sample_api) "POST" path headers (hostname sample_api)
                  x509Opts callback;
                write body; req_end]).
Proof.
  assert (Hrun :
    getBlobSharedAccessSignature sample_apiVersion sample_package sample_api
      (value "photo.jpg") sample_auth (value 7) sample_world
    = (Return tt, sample_world_requested)
    \/ notifyUploadComplete sample_apiVersion sample_package sample_api
         undefined sample_auth undefined (value 7) sample_world
       = (Return tt, sample_world_requested))
    by (left; exact sample_blob_request_issued).
  split; [exact Hrun|].
  exact (request_is_all_or_nothing sample_apiVersion sample_package sample_api
           (value "photo.jpg") undefined sample_auth undefined (value 7)
           sample_world (Return tt) sample_world_requested Hrun).
Defined.

(** X3 at the sample notification. *)
Lemma notifyUploadComplete_headers_witness :
  issued sample_world sample_world_notified
  = [buildRequest (Injected 1) "POST"
       "/devices/thermostat/files/notifications/a%2Fb%20c?api-version=2016-11-14"
       sample_notify_headers (value "contoso.azure-devices.net")
       (null : Nullable unit) (onNotifyResponse undefined);
     write sample_upload_body; req_end]
  /\ get_prop "Content-Length" sample_notify_headers
     = Some (JsNumber (integer (Z.of_nat (String.length sample_upload_body))))
  /\ get_prop "Content-Type" sample_notify_headers
     = Some (JsString "application/json; charset=utf-8")
  /\ get_prop "Host" sample_notify_headers
     = Some (inject (value "contoso.azure-devices.net"))
  /\ value "contoso.azure-devices.net" = hostname sample_api
  /\ get_prop "User-Agent" sample_notify_headers
     = Some (JsString (name sample_package +:+ "/" +:+ version sample_package))
  /\ get_prop "Accept" sample_notify_headers = None.
Proof.
  assert (Hissued :
    issued sample_world sample_world_notified
    = [buildRequest (Injected 1) "POST"
         "/devices/thermostat/files/notifications/a%2Fb%20c?api-version=2016-11-14"
         sample_notify_headers (value "contoso.azure-devices.net")
         (null : Nullable unit) (onNotifyResponse undefined);
       write sample_upload_body; req_end]) by reflexivity.
  split; [exact Hissued|].
  exact (notifyUploadComplete_headers sample_apiVersion sample_package sample_api
           (value (wide "a/b c")) sample_auth (value sample_upload_result) undefined
           sample_world sample_world_notified _ _ _ _ _ _ _ _
           sample_notify_request_issued Hissued).
Defined.

(** X4 at the sample credential request. *)
Lemma header_names_are_fixed_witness :
  In sample_blob_request (issued sample_world sample_world_requested)
  /\ prop_names sample_blob_headers
     = ["Host"; "Accept"; "Content-Type"; "Content-Length"; "User-Agent"]
       ++ ["Authorization"].
Proof.
  assert (Hin : In sample_blob_request (issued sample_world sample_world_requested))
    by (left; reflexivity).
  split; [exact Hin|].
  exact (proj1 (header_names_are_fixed sample_apiVersion sample_package sample_api
                  (value "photo.jpg") undefined sample_auth undefined (value 7)
                  sample_world (Return tt) sample_world_requested
                  _ _ _ _ _ _ _ Hin)
           sample_blob_request_issued).
Defined.

(** X6 at the failure of the sample credential request. *)
Lemma completion_only_calls_back_witness :
  (trace sample_world_failed = trace sample_world_requested
   \/ exists f args,
       trace sample_world_failed = trace sample_world_requested ++ [call f args]
       /\ Return tt = Return tt
       /\ (onBlobSasResponse (value 7) = onBlobSasResponse (value f)
           \/ onBlobSasResponse (value 7) = onNotifyResponse (value f)))
  /\ (forall e, value 4 <> value e ->
                store sample_world_failed !! e = store sample_world_requested !! e)
  /\ (forall e, is_Some (store sample_world_failed !! e)
                <-> is_Some (store sample_world_requested !! e))
  /\ (forall done, onBlobSasResponse (value 7) = onNotifyResponse done ->
                   store sample_world_failed = store sample_world_requested).
Proof.
  exact (completion_only_calls_back (onBlobSasResponse (value 7)) (value 4)
           (value "busy") (null : Nullable unit) sample_world_requested
           (Return tt) sample_world_failed sample_request_failed).
Defined.

(** X7 for the sample instance. *)
Lemma constructed_client_reaches_its_transport_witness :
  "photo.jpg" <> "" /\ wide "a/b c" <> [] /\ isWellFormed (wide "a/b c") = true
  /\ truthy sample_auth = true
  /\ (exists path headers (x509Opts : Nullable unit) body,
        getBlobSharedAccessSignature sample_apiVersion sample_package sample_api
          (value "photo.jpg") sample_auth (value 7) sample_world
        = (Return tt,
           {| store := store sample_world;
              trace := trace sample_world ++
                [buildRequest (Injected 1) "POST" path headers
                   (value "contoso.azure-devices.net") x509Opts
                   (onBlobSasResponse (value 7));
                 write body; req_end] |}))
  /\ (exists path headers (x509Opts : Nullable unit) body,
        notifyUploadComplete sample_apiVersion sample_package sample_api
          (value (wide "a/b c")) sample_auth (value sample_upload_result) (value 7)
          sample_world
        = (Return tt,
           {| store := store sample_world;
              trace := trace sample_world ++
                [buildRequest (Injected 1) "POST" path headers
                   (value "contoso.azure-devices.net") x509Opts
                   (onNotifyResponse (value 7));
                 write body; req_end] |})).
Proof.
  assert (Hb : "photo.jpg" <> "") by discriminate.
  assert (Hc : wide "a/b c" <> []) by discriminate.
  assert (Hwf : isWellFormed (wide "a/b c") = true) by (vm_compute; reflexivity).
  assert (Ha : truthy sample_auth = true) by reflexivity.
  split; [exact Hb|]. split; [exact Hc|]. split; [exact Hwf|]. split; [exact Ha|].
  exact (constructed_client_reaches_its_transport sample_apiVersion sample_package
           (value "thermostat") (value "contoso.azure-devices.net") (value 1)
           sample_api "photo.jpg" (wide "a/b c") sample_auth sample_upload_result
           (value 7) sample_world sample_api_constructed Hb Hc Hwf Ha).
Defined.

(** X8 for a body of two spaces. *)
Lemma blank_body_throws_witness :
  ((null : Nullable loc) = undefined \/ (null : Nullable loc) = null)
  /\ (value "  " = undefined
      \/ exists s, value "  " = value s /\ all_chars is_json_space s = true)
  /\ complete_request (onBlobSasResponse (value 7)) null (value "  ")
       (null : Nullable unit) sample_world_requested
     = (Throw SyntaxError, sample_world_requested).
Proof.
  assert (He : (null : Nullable loc) = undefined \/ (null : Nullable loc) = null)
    by (right; reflexivity).
  assert (Hb : value "  " = undefined
               \/ exists s, value "  " = value s /\ all_chars is_json_space s = true)
    by (right; exists "  "; split; reflexivity).
  split; [exact He|]. split; [exact Hb|].
  exact (blank_body_throws (value 7) null (value "  ") (null : Nullable unit)
           sample_world_requested He Hb).
Defined.

(** X9 for the correlation identifier [c1_a.b-2]. *)
Lemma unreserved_correlationId_is_verbatim_witness :
  all_chars uri_unreserved "c1_a.b-2" = true
  /\ In sample_plain_request (issued sample_world sample_world_plain)
  /\ "/devices/thermostat/files/notifications/c1_a.b-2?api-version=2016-11-14"
     = "/devices/" +:+ ToString (deviceId sample_api) +:+ "/files/notifications/"
       +:+ "c1_a.b-2" +:+ "?api-version=" +:+ sample_apiVersion.
Proof.
  assert (Hc : all_chars uri_unreserved "c1_a.b-2" = true) by reflexivity.
  assert (Hin : In sample_plain_request (issued sample_world sample_world_plain))
    by (left; reflexivity).
  split; [exact Hc|]. split; [exact Hin|].
  exact (unreserved_correlationId_is_verbatim sample_apiVersion sample_package
           sample_api "c1_a.b-2" sample_auth (value sample_upload_result) undefined
           sample_world (Return tt) sample_world_plain _ _ _ _ _ _ _
           Hc sample_plain_request_issued Hin).
Defined.

(** X10 for two sample notifications with one path. *)
Lemma notification_path_determines_correlationId_witness :
  In sample_notify_request (issued sample_world sample_world_notified)
  /\ (value (wide "a/b c") : Nullable String16) = value (wide "a/b c").
Proof.
  assert (Hin : In sample_notify_request (issued sample_world sample_world_notified))
    by (left; reflexivity).
  split; [exact Hin|].
  exact (notification_path_determines_correlationId sample_apiVersion sample_package
           sample_api (value (wide "a/b c")) (value (wide "a/b c")) sample_auth sample_auth
           (value sample_upload_result) (value sample_upload_result)
           undefined undefined sample_world sample_world (Return tt) (Return tt)
           sample_world_notified sample_world_notified
           _ _ _ _ _ _ _ _ _ _ _ _ _ _
           sample_notify_request_issued sample_notify_request_issued Hin Hin eq_refl).
Defined.

(** X11 for the blob [photo.jpg]. *)
Lemma credential_request_body_parses_back_witness :
  In (write sample_blob_body) (issued sample_world sample_world_requested)
  /\ JSON_parse sample_blob_body
     = Some (JsonObject [(units_of "blobName", JsonString (units_of "photo.jpg"))]).
Proof.
  assert (Hin : In (write sample_blob_body : @Event unit nat)
                   (issued sample_world sample_world_requested))
    by (right; left; reflexivity).
  split; [exact Hin|].
  exact (credential_request_body_parses_back sample_apiVersion sample_package
           sample_api "photo.jpg" sample_auth (value 7) sample_world (Return tt)
           sample_world_requested sample_blob_body sample_blob_request_issued Hin).
Defined.

(** X12 at the sample notification. *)
Lemma notification_body_parses_back_witness :
  In (write sample_upload_body) (issued sample_world sample_world_notified)
  /\ JSON_parse sample_upload_body = Some (json_of (JsObject sample_upload_result)).
Proof.
  assert (Hin : In (write sample_upload_body : @Event unit nat)
                   (issued sample_world sample_world_notified))
    by (right; left; reflexivity).
  split; [exact Hin|].
  exact (notification_body_parses_back sample_apiVersion sample_package
           sample_api (value (wide "a/b c")) sample_auth sample_upload_result undefined
           sample_world (Return tt) sample_world_notified sample_upload_body
           sample_notify_request_issued Hin).
Defined.

(** X13 for the [Error] object at address 4, and for the sample response
    body. *)
Lemma credential_callback_missing_throws_witness :
  ((undefined : Nullable Fn) = undefined \/ (undefined : Nullable Fn) = null)
  /\ store sample_world !! 4
     = Some {| message := "ECONNRESET"; responseBody := None; response := None |}
  /\ (exists w',
        complete_request (onBlobSasResponse undefined) (value 4)
          (value sample_response_body) (null : Nullable unit) sample_world
        = (Throw TypeError, w')
        /\ trace w' = trace sample_world
        /\ store w' !! 4
           = Some {| message := "ECONNRESET";
                     responseBody := Some (value sample_response_body);
                     response := Some null |}).
Proof.
  assert (Hd : (undefined : Nullable Fn) = undefined \/ (undefined : Nullable Fn) = null)
    by (left; reflexivity).
  assert (Hobj : store sample_world !! 4
                 = Some {| message := "ECONNRESET"; responseBody := None;
                           response := None |}) by reflexivity.
  split; [exact Hd|]. split; [exact Hobj|].
  exact (proj1 (credential_callback_missing_throws undefined (value 4)
                  (value sample_response_body) (null : Nullable unit) sample_world Hd)
           4 _ eq_refl Hobj).
Defined.
